(** * Cloud cost optimizer: the LLM-output-to-record pipeline

    A shallow embedding of the pipeline functions of the repository
    ([utils.py], [profile_extractor.py], [billing_generator.py],
    [cost_analyser.py]) and the properties stated about them.

    Modelling conventions.
    - A Python [str] is a [string]; its characters are read as the code
      points 0..255.  Indices are [Z], and [-1] is what [find] and [rfind]
      answer when nothing is found, as in the source.
    - A value produced by [json.loads] is a [json] tree; a [dict] is an
      association list in insertion order.  An [int] is a [Z], a [float] an
      IEEE 754 binary64 number.
    - A Python exception is an [exn]; code that may raise returns a
      [result].  A dictionary or list that the source updates in place is
      passed on explicitly.
    - What comes from outside the repository (the JSON decoder, the reading
      and rounding of floats, the API key, the backend) is a [runtime].
    - [generate_mock_billing] and [analyze_costs_and_recommend] are
      modelled from the request on: the lines that read the profile and
      write the prompt come before it and are left out, and the [analysis]
      section of the cost report, built before the model is asked, is
      carried as a value.
    - Console output ([print]) is left out, except where writing it can
      raise in the code that is modelled: line 225 of profile_extractor.py,
      line 237 of cost_analyser.py, and the handlers that write
      [response[:500]].  Lines 186-207 of billing_generator.py, which print
      a breakdown of a batch that passed, are left out: all they can do to
      a result is to turn a returned batch into a ValueError. *)

From Stdlib Require Import Bool Ascii String ZArith List Lia.
From Stdlib Require Import Floats.SpecFloat DecimalString.
Import ListNotations.

Open Scope string_scope.
Open Scope Z_scope.

(** ** Python strings *)

Module PyStr.

(** [str.isspace], which is also what [str.strip] removes and what the
    regular expression class [\s] accepts. *)
Definition is_space (c : ascii) : bool :=
  let n := Z.of_N (N_of_ascii c) in
  ((9 <=? n) && (n <=? 13)) || ((28 <=? n) && (n <=? 32))
  || (n =? 133) || (n =? 160).

(** The regular expression class [\d]. *)
Definition is_digit (c : ascii) : bool :=
  let n := Z.of_N (N_of_ascii c) in (48 <=? n) && (n <=? 57).

Definition lower_char (c : ascii) : ascii :=
  let n := Z.of_N (N_of_ascii c) in
  if ((65 <=? n) && (n <=? 90))
     || ((192 <=? n) && (n <=? 222) && negb (n =? 215))
  then ascii_of_N (Z.to_N (n + 32))
  else c.

(** [s.lower()] *)
Fixpoint lower (s : string) : string :=
  match s with
  | EmptyString => EmptyString
  | String c s' => String (lower_char c) (lower s')
  end.

(** [s.startswith(p)] *)
Fixpoint starts_with (p s : string) : bool :=
  match p, s with
  | EmptyString, _ => true
  | String _ _, EmptyString => false
  | String a p', String b s' => Ascii.eqb a b && starts_with p' s'
  end.

(** [p in s] *)
Fixpoint str_in (p s : string) : bool :=
  starts_with p s
  || match s with
     | EmptyString => false
     | String _ s' => str_in p s'
     end.

Fixpoint take (n : nat) (s : string) : string :=
  match n, s with
  | O, _ => EmptyString
  | S _, EmptyString => EmptyString
  | S n', String c s' => String c (take n' s')
  end.

Fixpoint drop (n : nat) (s : string) : string :=
  match n, s with
  | O, _ => s
  | S _, EmptyString => EmptyString
  | S n', String _ s' => drop n' s'
  end.

Definition len (s : string) : Z := Z.of_nat (String.length s).

(** How a slice bound is read: a negative bound counts from the end, and
    every bound is clamped to the string. *)
Definition clamp (n i : Z) : Z :=
  if i <? 0 then Z.max (i + n) 0 else Z.min i n.

(** [s[lo:hi]] *)
Definition slice (s : string) (lo hi : Z) : string :=
  let lo' := clamp (len s) lo in
  let hi' := clamp (len s) hi in
  take (Z.to_nat (hi' - lo')) (drop (Z.to_nat lo') s).

(** The lowest index, counted from [i], at which [p] occurs in [s]. *)
Fixpoint find_at (p s : string) (i : nat) : option nat :=
  if starts_with p s then Some i
  else match s with
       | EmptyString => None
       | String _ s' => find_at p s' (S i)
       end.

(** The highest index, counted from [i], at which [p] occurs in [s]. *)
Fixpoint rfind_at (p s : string) (i : nat) : option nat :=
  match s with
  | EmptyString => if starts_with p s then Some i else None
  | String _ s' =>
      match rfind_at p s' (S i) with
      | Some r => Some r
      | None => if starts_with p s then Some i else None
      end
  end.

Definition index_or_minus_one (r : option nat) : Z :=
  match r with
  | Some n => Z.of_nat n
  | None => -1
  end.

(** [s.find(p, start)] *)
Definition find (s p : string) (start : Z) : Z :=
  let start' := if start <? 0 then Z.max (start + len s) 0 else start in
  if len s <? start' then -1
  else index_or_minus_one
         (find_at p (drop (Z.to_nat start') s) (Z.to_nat start')).

(** [s.rfind(p)] *)
Definition rfind (s p : string) : Z :=
  index_or_minus_one (rfind_at p s 0).

(** [s.lstrip()], [s.rstrip()], [s.strip()] *)
Fixpoint lstrip (s : string) : string :=
  match s with
  | EmptyString => EmptyString
  | String c s' => if is_space c then lstrip s' else s
  end.

Fixpoint rstrip (s : string) : string :=
  match s with
  | EmptyString => EmptyString
  | String c s' =>
      match rstrip s' with
      | EmptyString => if is_space c then EmptyString else String c EmptyString
      | r => String c r
      end
  end.

Definition strip (s : string) : string := rstrip (lstrip s).

(** [s.replace(",", "")] *)
Fixpoint remove_commas (s : string) : string :=
  match s with
  | EmptyString => EmptyString
  | String c s' =>
      if Ascii.eqb c "," then remove_commas s' else String c (remove_commas s')
  end.

(** The string of one character. *)
Abbreviation char c := (String c EmptyString) (only parsing).

(** Every character of [s] satisfies [f]. *)
Definition all_chars (f : ascii -> bool) (s : string) : bool :=
  forallb f (list_ascii_of_string s).

(** The double quote and the line feed, for writing texts down. *)
Definition dq : string := String "034"%char EmptyString.
Definition nl : string := String "010"%char EmptyString.

End PyStr.

Import PyStr.

(** ** utils.py *)

Definition fence : string := "```".
Definition json_fence : string := "```json".

(** Lines 79-91: the interior of the first fenced block, trimmed, when the
    text has one that is closed. *)
Definition remove_code_fence (text : string) : string :=
  if str_in json_fence text then
    let start := find text json_fence 0 + 7 in
    let end_ := find text fence start in
    if negb (end_ =? -1) then strip (slice text start end_) else text
  else if str_in fence text then
    let start := find text fence 0 + 3 in
    let end_ := find text fence start in
    if negb (end_ =? -1) then strip (slice text start end_) else text
  else text.

(** Lines 93-112: the array span when a bracket comes first, else the
    object span, else the whole text. *)
Definition select_json_span (text : string) : string :=
  let array_start := find text "[" 0 in
  let array_end := rfind text "]" in
  let obj_start := find text "{" 0 in
  let obj_end := rfind text "}" in
  let otherwise :=
    if negb (obj_start =? -1) && negb (obj_end =? -1) && (obj_start <? obj_end)
    then strip (slice text obj_start (obj_end + 1))
    else strip text in
  if negb (array_start =? -1)
     && ((array_start <? obj_start) || (obj_start =? -1))
  then
    if negb (array_end =? -1) && (array_start <? array_end)
    then strip (slice text array_start (array_end + 1))
    else otherwise
  else otherwise.

Definition extract_json_from_text (text : string) : string :=
  match text with
  | EmptyString => EmptyString
  | _ => select_json_span (remove_code_fence text)
  end.

(** ** Python values *)

Inductive exn : Type :=
| ValueError
| JSONDecodeError
| TypeError
| KeyError
| AttributeError
| OverflowError
| ZeroDivisionError
| BackendError (tag : nat).

Inductive result (A : Type) : Type :=
| Ok (a : A)
| Raise (e : exn).

Arguments Ok {A} a.
Arguments Raise {A} e.

Definition bind {A B : Type} (m : result A) (k : A -> result B) : result B :=
  match m with
  | Ok a => k a
  | Raise e => Raise e
  end.

Notation "x <- m ;; k" := (bind m (fun x => k))
  (at level 61, m at next level, right associativity).

(** [len(l)] *)
Definition count {A : Type} (l : list A) : Z := Z.of_nat (List.length l).

(** The results of [f] on the items of [l], up to the first that raises. *)
Fixpoint each {A B : Type} (f : A -> result B) (l : list A)
  : result (list B) :=
  match l with
  | [] => Ok []
  | a :: l' =>
      b <- f a ;;
      bs <- each f l' ;;
      Ok (b :: bs)
  end.

(** A [float] is an IEEE 754 binary64 number. *)
Definition float64 : Type := spec_float.
Definition prec : Z := 53.
Definition emax : Z := 1024.

#[warnings="-register-all"]
Inductive json : Type :=
| JNull
| JBool (b : bool)
| JInt (z : Z)
| JFloat (f : float64)
| JStr (s : string)
| JArr (items : list json)
| JObj (fields : list (string * json)).

Definition dict : Type := list (string * json).

Fixpoint dict_get (d : dict) (k : string) : option json :=
  match d with
  | [] => None
  | (k', v) :: d' => if String.eqb k' k then Some v else dict_get d' k
  end.

Definition dict_has (d : dict) (k : string) : bool :=
  match dict_get d k with
  | Some _ => true
  | None => false
  end.

(** [d[k] = v]: an existing key keeps its place, a new key goes last. *)
Fixpoint dict_set (d : dict) (k : string) (v : json) : dict :=
  match d with
  | [] => [(k, v)]
  | (k', v') :: d' =>
      if String.eqb k' k then (k', v) :: d' else (k', v') :: dict_set d' k v
  end.

Definition keys (d : dict) : list string := map fst d.

Definition is_dict (v : json) : bool :=
  match v with
  | JObj _ => true
  | _ => false
  end.

Definition is_list (v : json) : bool :=
  match v with
  | JArr _ => true
  | _ => false
  end.

(** [isinstance(v, (int, float))]; [bool] is a subclass of [int]. *)
Definition is_number (v : json) : bool :=
  match v with
  | JBool _ | JInt _ | JFloat _ => true
  | _ => false
  end.

(** [k in v] for a [str] [k]. *)
Definition py_contains (v : json) (k : string) : result bool :=
  match v with
  | JObj d => Ok (dict_has d k)
  | JArr l =>
      Ok (existsb (fun x => match x with
                            | JStr s => String.eqb s k
                            | _ => false
                            end) l)
  | JStr s => Ok (str_in k s)
  | _ => Raise TypeError
  end.

(** [v[k]] for a [str] [k]. *)
Definition py_getitem (v : json) (k : string) : result json :=
  match v with
  | JObj d =>
      match dict_get d k with
      | Some x => Ok x
      | None => Raise KeyError
      end
  | _ => Raise TypeError
  end.

(** [v[k] = x] for a [str] [k]. *)
Definition py_setitem (v : json) (k : string) (x : json) : result json :=
  match v with
  | JObj d => Ok (JObj (dict_set d k x))
  | _ => Raise TypeError
  end.

(** ** Python numbers *)

Inductive pynum : Type :=
| PInt (z : Z)
| PFloat (f : float64).

Definition number_of (v : json) : option pynum :=
  match v with
  | JBool b => Some (PInt (if b then 1 else 0))
  | JInt z => Some (PInt z)
  | JFloat f => Some (PFloat f)
  | _ => None
  end.

Definition json_of_number (n : pynum) : json :=
  match n with
  | PInt z => JInt z
  | PFloat f => JFloat f
  end.

(** [float(z)] for an [int]: rounded to nearest, and an error when the result
    would not be finite. *)
Definition float_of_int (z : Z) : result float64 :=
  match binary_normalize prec emax z 0 false with
  | S754_infinity _ => Raise OverflowError
  | f => Ok f
  end.

Definition is_zero (f : float64) : bool :=
  match f with
  | S754_zero _ => true
  | _ => false
  end.

Definition to_float (n : pynum) : result float64 :=
  match n with
  | PInt z => float_of_int z
  | PFloat f => Ok f
  end.

(** [a * b] *)
Definition py_mul (a b : pynum) : result pynum :=
  match a, b with
  | PInt x, PInt y => Ok (PInt (x * y))
  | _, _ =>
      f <- to_float a ;;
      g <- to_float b ;;
      Ok (PFloat (SFmul prec emax f g))
  end.

Definition signed_mantissa (z : Z) : float64 :=
  match z with
  | Z0 => S754_zero false
  | Zpos m => S754_finite false m 0
  | Zneg m => S754_finite true m 0
  end.

(** [a / b]: the quotient of two [int]s is the exact quotient rounded once. *)
Definition py_truediv (a b : pynum) : result pynum :=
  match a, b with
  | PInt x, PInt y =>
      if y =? 0 then Raise ZeroDivisionError
      else if x =? 0 then Ok (PFloat (S754_zero (y <? 0)))
      else match SFdiv prec emax (signed_mantissa x) (signed_mantissa y) with
           | S754_infinity _ => Raise OverflowError
           | q => Ok (PFloat q)
           end
  | _, _ =>
      f <- to_float a ;;
      g <- to_float b ;;
      if is_zero g then Raise ZeroDivisionError
      else Ok (PFloat (SFdiv prec emax f g))
  end.

(** The exact order between a float and an integer. *)
Definition compare_float_int (f : float64) (z : Z) : option comparison :=
  match f with
  | S754_nan => None
  | S754_infinity s => Some (if s then Lt else Gt)
  | S754_zero _ => Some (0 ?= z)
  | S754_finite s m e =>
      let v := if s then Zneg m else Zpos m in
      Some (if 0 <=? e then (v * 2 ^ e ?= z) else (v ?= z * 2 ^ (- e)))
  end.

Definition num_compare (a b : pynum) : option comparison :=
  match a, b with
  | PInt x, PInt y => Some (x ?= y)
  | PFloat f, PFloat g => SFcompare f g
  | PFloat f, PInt y => compare_float_int f y
  | PInt x, PFloat g => option_map CompOpp (compare_float_int g x)
  end.

(** [a < b], [a > b] *)
Definition num_lt (a b : pynum) : bool :=
  match num_compare a b with
  | Some Lt => true
  | _ => false
  end.

Definition num_gt (a b : pynum) : bool :=
  match num_compare a b with
  | Some Gt => true
  | _ => false
  end.

(** [a <= b] *)
Definition num_le (a b : pynum) : bool :=
  match num_compare a b with
  | Some Lt | Some Eq => true
  | _ => false
  end.

(** [format(n, ',.2f')], as far as it can raise: an [int] is converted to a
    [float] first, which fails when it is too large; a [float] is written
    as it is. *)
Definition format_2f (n : pynum) : result unit :=
  match n with
  | PInt z => _ <- float_of_int z ;; Ok tt
  | PFloat _ => Ok tt
  end.

(** The literal [0.1]: the binary64 number nearest to one tenth. *)
Definition float_one_tenth : float64 :=
  SFdiv prec emax (signed_mantissa 1) (signed_mantissa 10).

(** [str(z)] for an [int]. *)
Definition str_of_int (z : Z) : string := NilEmpty.string_of_int (Z.to_int z).

(** ** The runtime and the model backend

    What the source takes from outside the repository: [json.loads],
    [float] on a [str], [round(x, 2)] on a [float], [sum] once a [float]
    is among the summands (its rounding differs between interpreter
    versions), the API key of the environment and the chat-completion
    backend. *)

(** What [call_llm] does to the outside: it asks the backend
    ([client.chat.completions.create]) and it pauses ([time.sleep]). *)
Inductive event : Type :=
| Request (attempt : nat)
| Sleep (seconds : Z).

Record runtime : Type := {
  (** [json.loads] *)
  json_loads : string -> result json;
  (** [float] on a [str] *)
  py_float : string -> option float64;
  (** [round(x, 2)] on a [float] *)
  py_round2 : float64 -> float64;
  (** [sum] over numbers that are not all [int] *)
  sum_with_floats : list pynum -> result pynum;
  (** [os.getenv("GROQ_API_KEY")] *)
  api_key : option string;
  (** what the request of the given attempt does (lines 36-46 of
      profile_extractor.py): it returns the content of the completion,
      which the API allows to be [None], or raises *)
  backend : nat -> result (option string)
}.

Section Pipeline.

Variable rt : runtime.

(** [float(str(v).replace(',', ''))]: the text of [None], of a [bool], of a
    [list] and of a [dict] is never a number, and the text of a [float]
    reads back as that [float]. *)
Definition float_of_text_of (v : json) : result float64 :=
  match v with
  | JStr s =>
      match py_float rt (remove_commas s) with
      | Some f => Ok f
      | None => Raise ValueError
      end
  | JInt z =>
      match py_float rt (str_of_int z) with
      | Some f => Ok f
      | None => Raise ValueError
      end
  | JFloat f => Ok f
  | JNull | JBool _ | JArr _ | JObj _ => Raise ValueError
  end.

(** [float(v)] for a [v] that is not a number already. *)
Definition float_of_value (v : json) : result float64 :=
  match v with
  | JStr s =>
      match py_float rt s with
      | Some f => Ok f
      | None => Raise ValueError
      end
  | JBool b => float_of_int (if b then 1 else 0)
  | JInt z => float_of_int z
  | JFloat f => Ok f
  | JNull | JArr _ | JObj _ => Raise TypeError
  end.

Definition is_int (n : pynum) : bool :=
  match n with
  | PInt _ => true
  | PFloat _ => false
  end.

Definition int_part (n : pynum) : Z :=
  match n with
  | PInt z => z
  | PFloat _ => 0
  end.

(** [sum(items)], starting from the [int] 0. *)
Definition py_sum (items : list pynum) : result pynum :=
  if forallb is_int items
  then Ok (PInt (fold_left Z.add (map int_part items) 0))
  else sum_with_floats rt items.

(** [round(n, 2)] *)
Definition round2 (n : pynum) : pynum :=
  match n with
  | PInt z => PInt z
  | PFloat f => PFloat (py_round2 rt f)
  end.

(** *** profile_extractor.py *)

(** Lines 34-52, [attempt] being the loop variable and [todo] the number of
    iterations left. *)
Fixpoint call_llm_loop (retries : Z) (todo attempt : nat)
  : list event * result (option string) :=
  match todo with
  | O => ([], Ok None)
  | S todo' =>
      match backend rt attempt with
      | Ok content => ([Request attempt], Ok content)
      | Raise e =>
          if Z.of_nat attempt =? retries - 1
          then ([Request attempt], Raise e)
          else
            let '(trace, r) := call_llm_loop retries todo' (S attempt) in
            (Request attempt :: Sleep 2 :: trace, r)
      end
  end.

Definition call_llm (retries : Z) : list event * result (option string) :=
  match api_key rt with
  | None | Some EmptyString => ([], Raise ValueError)
  | Some _ => call_llm_loop retries (Z.to_nat retries) 0
  end.

(** The response as the callers get it, with the default [retries=2]. *)
Definition llm_response : result (option string) := snd (call_llm 2).

(** [extract_json_from_text(response)]: [not text] holds for [None] too. *)
Definition extract_json_from_response (response : option string) : string :=
  match response with
  | Some text => extract_json_from_text text
  | None => EmptyString
  end.

(** The pattern [(?:rupees|inr|rs)]. *)
Definition match_currency (s : string) : bool :=
  starts_with "rupees" s || starts_with "inr" s || starts_with "rs" s.

(** The pattern [\s*(?:rupees|inr|rs)]: the longest run of spaces is tried
    first. *)
Fixpoint match_spaces_currency (s : string) : bool :=
  match s with
  | EmptyString => match_currency s
  | String c s' =>
      if is_space c then match_spaces_currency s' || match_currency s
      else match_currency s
  end.

(** The rest of [\d+] and what follows it, [n] digits being taken already:
    the longest run of digits is tried first.  The answer is the length of
    group 1. *)
Fixpoint match_more_digits (s : string) (n : nat) : option nat :=
  match s with
  | EmptyString => if match_spaces_currency s then Some n else None
  | String c s' =>
      if is_digit c then
        match match_more_digits s' (S n) with
        | Some k => Some k
        | None => if match_spaces_currency s then Some n else None
        end
      else if match_spaces_currency s then Some n else None
  end.

(** The pattern [(\d+)\s*(?:rupees|inr|rs)] at the start of [s]: group 1. *)
Definition match_budget_here (s : string) : option string :=
  match s with
  | EmptyString => None
  | String c s' =>
      if is_digit c
      then option_map (fun k => take k s) (match_more_digits s' 1)
      else None
  end.

(** [re.search(r'(\d+)\s*(?:rupees|inr|rs)', s)]: group 1 of the match at
    the first position that has one. *)
Fixpoint search_budget (s : string) : option string :=
  match match_budget_here s with
  | Some g => Some g
  | None =>
      match s with
      | EmptyString => None
      | String _ s' => search_budget s'
      end
  end.

Definition digit_value (c : ascii) : Z := Z.of_N (N_of_ascii c) - 48.

(** [int(g)] for a run of digits [g]. *)
Fixpoint int_of_digits (g : string) (acc : Z) : Z :=
  match g with
  | EmptyString => acc
  | String c g' => int_of_digits g' (10 * acc + digit_value c)
  end.

(** Lines 157-163. *)
Definition fallback_budget (desc_lower : string) : Z :=
  if str_in "budget" desc_lower then
    match search_budget desc_lower with
    | Some g => int_of_digits g 0
    | None => 5000
    end
  else 5000.

Definition opt_str (o : option string) : json :=
  match o with
  | Some s => JStr s
  | None => JNull
  end.

(** Lines 166-205. *)
Definition fallback_tech_stack (desc_lower : string) : json :=
  let has k := str_in k desc_lower in
  let frontend :=
    if has "react" then Some "react"
    else if has "angular" then Some "angular"
    else if has "vue" then Some "vue"
    else None in
  let backend_ :=
    if has "node" || has "nodejs" then Some "nodejs"
    else if has "python" || has "django" then Some "python"
    else if has "java" then Some "java"
    else None in
  let database :=
    if has "mongodb" || has "mongo" then Some "mongodb"
    else if has "postgres" || has "postgresql" then Some "postgresql"
    else if has "mysql" then Some "mysql"
    else None in
  let proxy :=
    if has "nginx" then Some "nginx"
    else if has "apache" then Some "apache"
    else None in
  let hosting :=
    if has "aws" then Some "aws"
    else if has "azure" then Some "azure"
    else if has "gcp" || has "google cloud" then Some "gcp"
    else None in
  JObj [("frontend", opt_str frontend);
        ("backend", opt_str backend_);
        ("database", opt_str database);
        ("proxy", opt_str proxy);
        ("hosting", opt_str hosting)].

(** Lines 208-214. *)
Definition fallback_requirements (desc_lower : string) : list json :=
  (if str_in "scalab" desc_lower then [JStr "scalability"] else [])
  ++ (if str_in "availab" desc_lower then [JStr "high availability"] else [])
  ++ (if str_in "security" desc_lower then [JStr "security"] else []).

(** Lines 145-220: the profile that [create_fallback_profile] builds; the
    call itself is [create_fallback_profile_call] below. *)
Definition create_fallback_profile (description : string) : json :=
  let desc_lower := lower description in
  JObj [("name", JStr "Cloud Application");
        ("budget_inr_per_month", JInt (fallback_budget desc_lower));
        ("description", JStr (slice description 0 200));
        ("tech_stack", fallback_tech_stack desc_lower);
        ("non_functional_requirements",
         JArr (fallback_requirements desc_lower))].

Definition empty_tech_stack : json :=
  JObj [("frontend", JNull); ("backend", JNull); ("database", JNull);
        ("proxy", JNull); ("hosting", JNull)].

Definition lower_if_str (v : json) : json :=
  match v with
  | JStr s => JStr (lower s)
  | _ => v
  end.

(** The loop of lines 126-128: every [str] value of the mapping is
    lowercased. *)
Definition normalize_tech_stack (tech_stack : json) : result json :=
  match tech_stack with
  | JObj d => Ok (JObj (map (fun kv => (fst kv, lower_if_str (snd kv))) d))
  | _ => Raise AttributeError
  end.

(** Lines 100-101. *)
Definition fix_name (profile : json) : result json :=
  present <- py_contains profile "name" ;;
  if negb present
  then py_setitem profile "name" (JStr "Cloud Project")
  else Ok profile.

(** Lines 103-106. *)
Definition fix_budget (profile : json) : result json :=
  present <- py_contains profile "budget_inr_per_month" ;;
  if negb present
  then py_setitem profile "budget_inr_per_month" (JInt 5000)
  else
    v <- py_getitem profile "budget_inr_per_month" ;;
    f <- float_of_text_of v ;;
    py_setitem profile "budget_inr_per_month" (JFloat f).

(** Lines 108-109. *)
Definition fix_description (description : string) (profile : json)
  : result json :=
  present <- py_contains profile "description" ;;
  if negb present
  then py_setitem profile "description" (JStr (slice description 0 100))
  else Ok profile.

(** Lines 111-118. *)
Definition fix_tech_stack (profile : json) : result json :=
  present <- py_contains profile "tech_stack" ;;
  bad <- (if negb present then Ok true
          else
            ts <- py_getitem profile "tech_stack" ;;
            Ok (negb (is_dict ts))) ;;
  if bad
  then py_setitem profile "tech_stack" empty_tech_stack
  else Ok profile.

(** Lines 120-123. *)
Definition fix_requirements (profile : json) : result json :=
  present <- py_contains profile "non_functional_requirements" ;;
  if negb present
  then py_setitem profile "non_functional_requirements" (JArr [])
  else
    nfr <- py_getitem profile "non_functional_requirements" ;;
    if negb (is_list nfr)
    then py_setitem profile "non_functional_requirements" (JArr [nfr])
    else Ok profile.

(** Lines 126-128. *)
Definition lower_tech_stack (profile : json) : result json :=
  ts <- py_getitem profile "tech_stack" ;;
  ts' <- normalize_tech_stack ts ;;
  py_setitem profile "tech_stack" ts'.

(** Lines 99-133: the checks and repairs on the parsed profile. *)
Definition validate_profile (description : string) (profile : json)
  : result json :=
  profile <- fix_name profile ;;
  profile <- fix_budget profile ;;
  profile <- fix_description description profile ;;
  profile <- fix_tech_stack profile ;;
  profile <- fix_requirements profile ;;
  lower_tech_stack profile.

(** The body of the [try] block, lines 92-133. *)
Definition profile_from_model (description : string) : result json :=
  response <- llm_response ;;
  profile <- json_loads rt (extract_json_from_response response) ;;
  validate_profile description profile.

(** Lines 91-143, the profile that is returned: both handlers answer with
    the fallback profile.  The call itself, in which the fallback can
    raise, is [extract_project_profile_call] below. *)
Definition extract_project_profile (description : string) : result json :=
  match profile_from_model description with
  | Ok profile => Ok profile
  | Raise JSONDecodeError => Ok (create_fallback_profile description)
  | Raise _ => Ok (create_fallback_profile description)
  end.

(** *** billing_generator.py *)

Definition billing_fields : list string :=
  ["month"; "service"; "resource_id"; "region"; "usage_type";
   "usage_quantity"; "unit"; "cost_inr"; "desc"].

(** Lines 156-158: the first required field that is missing raises. *)
Fixpoint check_fields (record : json) (fields : list string) : result unit :=
  match fields with
  | [] => Ok tt
  | field :: rest =>
      present <- py_contains record field ;;
      if negb present then Raise ValueError else check_fields record rest
  end.

(** Lines 161-165 and 171-175: a value that is no number is replaced by the
    number its text reads as; any failure of that becomes a [ValueError]. *)
Definition coerce_number (record : json) (field : string) : result json :=
  v <- py_getitem record field ;;
  if is_number v then Ok record
  else match float_of_text_of v with
       | Ok f => py_setitem record field (JFloat f)
       | Raise _ => Raise ValueError
       end.

Definition is_negative (v : json) : result bool :=
  match number_of v with
  | Some n => Ok (num_lt n (PInt 0))
  | None => Raise TypeError
  end.

(** Lines 155-177, the body of the inner [try]. *)
Definition check_billing_record (record : json) : result json :=
  _ <- check_fields record billing_fields ;;
  record <- coerce_number record "cost_inr" ;;
  cost <- py_getitem record "cost_inr" ;;
  negative <- is_negative cost ;;
  if negative then Raise ValueError
  else coerce_number record "usage_quantity".

(** Lines 152-181: a [ValueError] (or an exception of a subclass of it)
    skips the record, any other exception leaves the loop. *)
Fixpoint valid_billing_records (records : list json) : result (list json) :=
  match records with
  | [] => Ok []
  | record :: rest =>
      match check_billing_record record with
      | Ok record' =>
          rest' <- valid_billing_records rest ;;
          Ok (record' :: rest')
      | Raise ValueError | Raise JSONDecodeError => valid_billing_records rest
      | Raise e => Raise e
      end
  end.

(** Lines 133-184, the body of the [try] block up to the last check.  The
    lines after it (186-207) add up the costs for the console; they leave
    the records as they are, so all they can do to a result is to turn it
    into the failure of the last handler. *)
Definition billing_from_text (json_text : string) : result (list json) :=
  billing_records <- json_loads rt json_text ;;
  match billing_records with
  | JArr records =>
      if count records <? 12 then Raise ValueError
      else
        let records :=
          if 20 <? count records then firstn 20 records else records in
        valid_records <- valid_billing_records records ;;
        if count valid_records <? 12 then Raise ValueError
        else Ok valid_records
  | _ => Raise ValueError
  end.

(** Lines 127-221, from the request on; the prompt (lines 20-126) is what
    the backend is asked.  The first handler prints [response[:500]] before
    it raises, which is a TypeError of its own when the completion has no
    content. *)
Definition generate_mock_billing : result (list json) :=
  response <- llm_response ;;
  match billing_from_text (extract_json_from_response response) with
  | Ok valid_records => Ok valid_records
  | Raise JSONDecodeError =>
      match response with
      | Some _ => Raise ValueError
      | None => Raise TypeError
      end
  | Raise _ => Raise ValueError
  end.

(** [validate_billing_record], lines 223-258: the validator of one record,
    which answers [(is_valid, error_message)]; only [is_valid] is kept. *)
Definition has_type (field : string) (v : json) : bool :=
  if String.eqb field "usage_quantity" || String.eqb field "cost_inr"
  then is_number v
  else match v with
       | JStr _ => true
       | _ => false
       end.

Fixpoint fields_typed (record : json) (fields : list string) : result bool :=
  match fields with
  | [] => Ok true
  | field :: rest =>
      present <- py_contains record field ;;
      if negb present then Ok false
      else
        v <- py_getitem record field ;;
        if negb (has_type field v) then Ok false
        else fields_typed record rest
  end.

Definition is_at_most_zero (v : json) : result bool :=
  match number_of v with
  | Some n => Ok (num_le n (PInt 0))
  | None => Raise TypeError
  end.

Definition validate_billing_record (record : json) : result bool :=
  typed <- fields_typed record billing_fields ;;
  if negb typed then Ok false
  else
    cost <- py_getitem record "cost_inr" ;;
    negative <- is_negative cost ;;
    if negative then Ok false
    else
      quantity <- py_getitem record "usage_quantity" ;;
      at_most_zero <- is_at_most_zero quantity ;;
      Ok (negb at_most_zero).

(** Does the record pass lines 155-177? *)
Definition survives (record : json) : bool :=
  match check_billing_record record with
  | Ok _ => true
  | Raise _ => false
  end.

(** *** cost_analyser.py *)

Definition recommendation_fields : list string :=
  ["title"; "service"; "current_cost"; "potential_savings";
   "recommendation_type"; "description"; "implementation_effort";
   "risk_level"; "steps"; "cloud_providers"].

(** [r.get('potential_savings', 0)] as a number. *)
Definition potential_savings (r : json) : result pynum :=
  match r with
  | JObj d =>
      match dict_get d "potential_savings" with
      | Some v =>
          match number_of v with
          | Some n => Ok n
          | None => Raise TypeError
          end
      | None => Ok (PInt 0)
      end
  | _ => Raise AttributeError
  end.

(** Lines 186-187: the recommendations that save more than a tenth of the
    total cost. *)
Fixpoint count_high_impact (total_cost : pynum) (savings : list pynum)
  : result Z :=
  match savings with
  | [] => Ok 0
  | s :: rest =>
      threshold <- py_mul total_cost (PFloat float_one_tenth) ;;
      n <- count_high_impact total_cost rest ;;
      Ok (if num_gt s threshold then 1 + n else n)
  end.

(** Lines 182-194: the summary of a list of recommendations. *)
Definition summarize (total_cost : pynum) (recommendations : list json)
  : result json :=
  savings <- each potential_savings recommendations ;;
  total_savings <- py_sum savings ;;
  savings_pct <- (if num_gt total_cost (PInt 0)
                  then
                    q <- py_truediv total_savings total_cost ;;
                    py_mul q (PInt 100)
                  else Ok (PInt 0)) ;;
  high_impact <- count_high_impact total_cost savings ;;
  Ok (JObj
        [("total_potential_savings", json_of_number (round2 total_savings));
         ("savings_percentage", json_of_number (round2 savings_pct));
         ("recommendations_count", JInt (count recommendations));
         ("high_impact_recommendations", JInt high_impact)]).

(** Lines 205-208: is a required field missing? *)
Fixpoint any_missing (rec : json) (fields : list string) : result bool :=
  match fields with
  | [] => Ok false
  | field :: rest =>
      present <- py_contains rec field ;;
      missing <- any_missing rec rest ;;
      Ok (negb present || missing)
  end.

(** Lines 211-215: [float(v)] when the value is no number. *)
Definition to_number (rec : json) (field : string) : result json :=
  v <- py_getitem rec field ;;
  if is_number v then Ok rec
  else
    f <- float_of_value v ;;
    py_setitem rec field (JFloat f).

(** Lines 218-222: a value that is no list becomes a list of one. *)
Definition to_list (rec : json) (field : string) : result json :=
  v <- py_getitem rec field ;;
  if is_list v then Ok rec else py_setitem rec field (JArr [v]).

(** Lines 203-224, the body of the inner [try]: [None] is the [continue] of
    line 208. *)
Definition check_recommendation (rec : json) : result (option json) :=
  missing <- any_missing rec recommendation_fields ;;
  if missing then Ok None
  else
    rec <- to_number rec "current_cost" ;;
    rec <- to_number rec "potential_savings" ;;
    rec <- to_list rec "steps" ;;
    rec <- to_list rec "cloud_providers" ;;
    Ok (Some rec).

(** Lines 201-228: a recommendation that lacks a field or raises is
    skipped. *)
Fixpoint valid_recommendations (recs : list json) : list json :=
  match recs with
  | [] => []
  | rec :: rest =>
      match check_recommendation rec with
      | Ok (Some rec') => rec' :: valid_recommendations rest
      | Ok None | Raise _ => valid_recommendations rest
      end
  end.

(** Line 24. *)
Definition total_cost_of (billing_data : list json) : result pynum :=
  costs <- each (fun record =>
                   v <- py_getitem record "cost_inr" ;;
                   match number_of v with
                   | Some n => Ok n
                   | None => Raise TypeError
                   end) billing_data ;;
  py_sum costs.

(** Line 182: the savings of the decoded recommendations, added up. *)
Definition total_savings_of (recommendations : list json) : result pynum :=
  savings <- each potential_savings recommendations ;;
  py_sum savings.

(** Lines 166-239, the body of the [try] block.  [analysis_summary] is the
    dictionary of lines 38-45, built from the profile and the billing data
    before the model is asked.  The last thing the block does that can
    raise is line 237, which writes the total of line 182 with [,.2f];
    [summarize] has computed that total, and [total_savings_of] is the same
    number. *)
Definition report_from_text (total_cost : pynum) (analysis_summary : json)
  (json_text : string) : result json :=
  report <- json_loads rt json_text ;;
  present <- py_contains report "recommendations" ;;
  if negb present then Raise ValueError
  else
    recs <- py_getitem report "recommendations" ;;
    match recs with
    | JArr recommendations =>
        report <- py_setitem report "analysis" analysis_summary ;;
        summary <- summarize total_cost recommendations ;;
        report <- py_setitem report "summary" summary ;;
        let valid := valid_recommendations recommendations in
        report <- py_setitem report "recommendations" (JArr valid) ;;
        summary <- py_getitem report "summary" ;;
        summary <- py_setitem summary "recommendations_count"
                     (JInt (count valid)) ;;
        report <- py_setitem report "summary" summary ;;
        total_savings <- total_savings_of recommendations ;;
        _ <- format_2f total_savings ;;
        Ok report
    | _ => Raise ValueError
    end.

(** Lines 24-253, from the total cost and the request on.  The first
    handler prints [response[:500]] before it raises, which is a TypeError
    of its own when the completion has no content. *)
Definition analyze_costs_and_recommend (analysis_summary : json)
  (billing_data : list json) : result json :=
  total_cost <- total_cost_of billing_data ;;
  response <- llm_response ;;
  match report_from_text total_cost analysis_summary
          (extract_json_from_response response) with
  | Ok report => Ok report
  | Raise JSONDecodeError =>
      match response with
      | Some _ => Raise ValueError
      | None => Raise TypeError
      end
  | Raise _ => Raise ValueError
  end.

End Pipeline.

(** ** What a match of the budget pattern is *)

Definition currency_word (w : string) : Prop :=
  w = "rupees" \/ w = "inr" \/ w = "rs".



(** ** What the checks of a billing record establish

    The nine fields are there, the cost is a number for which
    [cost < 0] is false, and the quantity is a number. *)
Definition checked_record (record : json) : Prop :=
  (forall field, In field billing_fields -> py_contains record field = Ok true)
  /\ (exists cost,
         py_getitem record "cost_inr" = Ok cost
         /\ is_number cost = true /\ is_negative cost = Ok false)
  /\ (exists quantity,
         py_getitem record "usage_quantity" = Ok quantity
         /\ is_number quantity = true).

(** ** The trace of a run in which every attempt fails

    Attempt [attempt] of [retries] asks the backend; a pause of two
    seconds follows unless it was the last one. *)

Definition failed_attempt (retries attempt : nat) : list event :=
  Request attempt
  :: (if (S attempt <? retries)%nat then [Sleep 2] else []).

Definition failed_run (retries : nat) : list event :=
  flat_map (failed_attempt retries) (seq 0 retries).

Definition is_request (ev : event) : bool :=
  match ev with
  | Request _ => true
  | _ => false
  end.

Definition is_pause (ev : event) : bool :=
  match ev with
  | Sleep 2 => true
  | _ => false
  end.

Definition tech_stack_keys : list string :=
  ["frontend"; "backend"; "database"; "proxy"; "hosting"].

(** ** Scenarios

    Runtimes for concrete runs.  A scenario fixes the key, what the backend
    answers and what the decoder makes of the extracted text. *)

Definition scenario_with (to_float : string -> option float64)
  (round : float64 -> float64) (add_up : list pynum -> result pynum)
  (key : option string) (replies : nat -> result (option string))
  (decode : string -> result json) : runtime :=
  {| json_loads := decode;
     py_float := to_float;
     py_round2 := round;
     sum_with_floats := add_up;
     api_key := key;
     backend := replies |}.

(** The scenarios below hold no number written as text and no [float], so
    the three conversions are never reached. *)
Definition scenario : option string -> (nat -> result (option string)) ->
                      (string -> result json) -> runtime :=
  scenario_with (fun _ => None) (fun f => f) (fun _ => Raise OverflowError).

(** A decoder that knows one text. *)
Definition decoding (text : string) (value : json) (s : string)
  : result json :=
  if String.eqb s text then Ok value else Raise JSONDecodeError.

(** No API key in the environment. *)
Definition no_key : runtime :=
  scenario None (fun n => Raise (BackendError n))
    (fun _ => Raise JSONDecodeError).

(** Every request fails. *)
Definition backend_down : runtime :=
  scenario (Some "gsk-key") (fun n => Raise (BackendError n))
    (fun _ => Raise JSONDecodeError).

(** The backend answers [text] at once, and [text] decodes to [value]. *)
Definition answering (text : string) (value : json) : runtime :=
  scenario (Some "gsk-key") (fun _ => Ok (Some text)) (decoding text value).

(** The JSON text of a value made of [None], [bool], [int], plain [str]
    (no quote, backslash or control character), lists and dictionaries; it
    is what the scenarios let the backend answer. *)
Fixpoint dumps (v : json) : string :=
  match v with
  | JNull | JFloat _ => "null"
  | JBool b => if b then "true" else "false"
  | JInt z => str_of_int z
  | JStr s => dq ++ s ++ dq
  | JArr items =>
      "["
      ++ (fix join (l : list json) : string :=
            match l with
            | [] => ""
            | [x] => dumps x
            | x :: l' => dumps x ++ ", " ++ join l'
            end) items
      ++ "]"
  | JObj fields =>
      "{"
      ++ (fix join (d : list (string * json)) : string :=
            match d with
            | [] => ""
            | [(k, x)] => dq ++ k ++ dq ++ ": " ++ dumps x
            | (k, x) :: d' => dq ++ k ++ dq ++ ": " ++ dumps x ++ ", " ++ join d'
            end) fields
      ++ "}"
  end.

(** The backend answers with the JSON text of [value]. *)
Definition answering_json (value : json) : runtime :=
  answering (dumps value) value.

(** A billing record with the nine fields, and two variations of it. *)
Definition billing_record (resource : string) (quantity : json) : dict :=
  [("month", JStr "2025-01");
   ("service", JStr "EC2");
   ("resource_id", JStr resource);
   ("region", JStr "ap-south-1");
   ("usage_type", JStr "t3.medium Linux/UNIX");
   ("usage_quantity", quantity);
   ("unit", JStr "hours");
   ("cost_inr", JInt 1200)].

Definition good_record : json :=
  JObj (billing_record "i-web-server-01" (JInt 720)
        ++ [("desc", JStr "Primary web server")]).

Definition record_without_desc : json :=
  JObj (billing_record "i-worker-02" (JInt 720)).

Definition idle_record : json :=
  JObj (billing_record "i-standby-03" (JInt 0)
        ++ [("desc", JStr "Standby server")]).

(** A recommendation with the ten fields, and one that is only a title and
    a saving. *)
Definition full_recommendation : json :=
  JObj [("title", JStr "Right-size the web server");
        ("service", JStr "EC2");
        ("current_cost", JInt 400);
        ("potential_savings", JInt 100);
        ("recommendation_type", JStr "right_sizing");
        ("description", JStr "Use a smaller instance");
        ("implementation_effort", JStr "low");
        ("risk_level", JStr "low");
        ("steps", JArr [JStr "Resize the instance"]);
        ("cloud_providers", JArr [JStr "AWS"])].

Definition bare_recommendation : json :=
  JObj [("title", JStr "Move to spot instances");
        ("potential_savings", JInt 500)].

(** A recommendation that is only a saving. *)
Definition saving (amount : Z) : json :=
  JObj [("potential_savings", JInt amount)].

(** The floats 10.0, 40.0 and 60.0. *)
Definition float_10 : float64 := S754_finite false 5629499534213120 (-49).
Definition float_40 : float64 := S754_finite false 5629499534213120 (-47).
Definition float_60 : float64 := S754_finite false 8444249301319680 (-47).

(** The backend answers [text] at once, and [text] is no JSON. *)
Definition babbling (text : string) : runtime :=
  scenario (Some "gsk-key") (fun _ => Ok (Some text))
    (fun _ => Raise JSONDecodeError).

(** The float 100.0, and a recommendation with the ten fields whose saving
    is the text [100]. *)
Definition float_100 : float64 := S754_finite false 7036874417766400 (-46).

Definition textual_recommendation : json :=
  JObj [("title", JStr "Right-size the web server");
        ("service", JStr "EC2");
        ("current_cost", JInt 400);
        ("potential_savings", JStr "100");
        ("recommendation_type", JStr "right_sizing");
        ("description", JStr "Use a smaller instance");
        ("implementation_effort", JStr "low");
        ("risk_level", JStr "low");
        ("steps", JArr [JStr "Resize the instance"]);
        ("cloud_providers", JArr [JStr "AWS"])].

(** The backend answers with the JSON text of [value], and [float] reads
    the text [100]. *)
Definition answering_with_text_100 (value : json) : runtime :=
  scenario_with
    (fun s => if String.eqb s "100" then Some float_100 else None)
    (fun f => f) (fun _ => Raise OverflowError)
    (Some "gsk-key") (fun _ => Ok (Some (dumps value)))
    (decoding (dumps value) value).

(** An answer with a recommendation to keep, one to skip, and an analysis
    of the model's own. *)
Definition answer_with_analysis : json :=
  JObj [("recommendations", JArr [full_recommendation; bare_recommendation]);
        ("analysis", JStr "none")].

(** One billing record of 1000 rupees. *)
Definition one_record : list json :=
  [JObj [("service", JStr "EC2"); ("cost_inr", JInt 1000)]].

(** The backend answers at once, with a completion that has no content. *)
Definition silent : runtime :=
  scenario (Some "gsk-key") (fun _ => Ok None)
    (fun _ => Raise JSONDecodeError).

(** The first request fails, and the second is answered with [text]. *)
Definition recovering (text : string) : runtime :=
  scenario (Some "gsk-key")
    (fun attempt =>
       match attempt with
       | O => Raise (BackendError 0)
       | S _ => Ok (Some text)
       end)
    (fun _ => Raise JSONDecodeError).

(** The text of [n] zeros, and a description whose budget has 310
    digits. *)
Fixpoint zeros (n : nat) : string :=
  match n with
  | O => EmptyString
  | S n' => String "0" (zeros n')
  end.

Definition huge_budget_description : string :=
  "budget 1" ++ zeros 309 ++ " rs".

(** ** profile_extractor.py: the calls, console lines included

    [create_fallback_profile] and [extract_project_profile] above give the
    profile that is built.  The definitions below are the calls themselves,
    with what else can raise in them: [int] on line 162, which refuses a
    text of too many digits, and line 225, which writes the budget with
    [,.2f]. *)

(** The default of [sys.get_int_max_str_digits()]. *)
Definition int_max_str_digits : Z := 4300.

(** [int(g)] for a run of digits [g]. *)
Definition py_int (g : string) : result Z :=
  if int_max_str_digits <? len g then Raise ValueError
  else Ok (int_of_digits g 0).

(** Lines 157-163, as they run. *)
Definition fallback_budget_call (desc_lower : string) : result Z :=
  if str_in "budget" desc_lower then
    match search_budget desc_lower with
    | Some g => py_int g
    | None => Ok 5000
    end
  else Ok 5000.

(** [create_fallback_profile(description)], lines 145-227. *)
Definition create_fallback_profile_call (description : string)
  : result json :=
  let desc_lower := lower description in
  budget <- fallback_budget_call desc_lower ;;
  let profile :=
    JObj [("name", JStr "Cloud Application");
          ("budget_inr_per_month", JInt budget);
          ("description", JStr (slice description 0 200));
          ("tech_stack", fallback_tech_stack desc_lower);
          ("non_functional_requirements",
           JArr (fallback_requirements desc_lower))] in
  _ <- format_2f (PInt budget) ;;
  Ok profile.

(** [extract_project_profile(description)], lines 91-143.  Lines 130-131
    write the name and the budget; the budget is by then the int 5000 or a
    float, so they raise nothing.  Each handler calls
    [create_fallback_profile], and what that call raises is raised. *)
Definition extract_project_profile_call (rt : runtime)
  (description : string) : result json :=
  match profile_from_model rt description with
  | Ok profile => Ok profile
  | Raise JSONDecodeError => create_fallback_profile_call description
  | Raise _ => create_fallback_profile_call description
  end.

(** ** More of utils.py *)

(** [truncate_text], lines 129-142. *)
Definition truncate_text (text : string) (max_length : Z) : string :=
  if len text <=? max_length then text
  else slice text 0 (max_length - 3) ++ "...".

(** [sep.join(items)] *)
Fixpoint join (sep : string) (items : list string) : string :=
  match items with
  | [] => ""
  | [x] => x
  | x :: rest => x ++ sep ++ join sep rest
  end.

(** [not os.getenv(var)] *)
Definition unset (value : option string) : bool :=
  match value with
  | None | Some EmptyString => true
  | Some _ => false
  end.

(** [validate_environment], lines 250-269, [getenv] being [os.getenv]; the
    answer is the pair [(is_valid, error_message)]. *)
Definition validate_environment (getenv : string -> option string)
  : result (bool * option string) :=
  let required_vars := ["HUGGINGFACE_API_KEY"] in
  let missing_vars := filter (fun var => unset (getenv var)) required_vars in
  match missing_vars with
  | _ :: _ =>
      Ok (false,
          Some ("Missing environment variables: " ++ join ", " missing_vars))
  | [] =>
      match getenv "HUGGINGFACE_API_KEY" with
      | None => Raise AttributeError
      | Some api_key =>
          if negb (starts_with "hf_" api_key)
          then Ok (false, Some "HUGGINGFACE_API_KEY should start with 'hf_'")
          else Ok (true, None)
      end
  end.

(** The runtime of a process whose environment is [getenv]. *)
Definition with_environment (getenv : string -> option string)
  (rt : runtime) : runtime :=
  {| json_loads := json_loads rt;
     py_float := py_float rt;
     py_round2 := py_round2 rt;
     sum_with_floats := sum_with_floats rt;
     api_key := getenv "GROQ_API_KEY";
     backend := backend rt |}.

(** An environment in which only HUGGINGFACE_API_KEY is set. *)
Definition huggingface_only (var : string) : option string :=
  if String.eqb var "HUGGINGFACE_API_KEY" then Some "hf_abc" else None.

(** [r] is a contiguous part of [s]. *)
Definition part_of (r s : string) : Prop :=
  exists pre post, s = pre ++ r ++ post.

(** ** More of billing_generator.py *)

(** Lines 20-36 of [generate_mock_billing]: what is read from the profile
    before the prompt is written, and the provider that is chosen.
    [hosting and isinstance(hosting, str)] holds for a [str] that is not
    empty and for nothing else. *)
Definition billing_provider (profile : json) : result string :=
  tech_stack <- py_getitem profile "tech_stack" ;;
  _ <- py_getitem profile "budget_inr_per_month" ;;
  match tech_stack with
  | JObj d =>
      let hosting :=
        match dict_get d "hosting" with
        | Some v => v
        | None => JStr "aws"
        end in
      match hosting with
      | JStr EmptyString => Ok "AWS"
      | JStr hosting =>
          let hosting := lower hosting in
          if str_in "aws" hosting || String.eqb hosting "amazon" then Ok "AWS"
          else if str_in "azure" hosting || str_in "microsoft" hosting
          then Ok "Azure"
          else if str_in "gcp" hosting || str_in "google" hosting
          then Ok "GCP"
          else Ok "AWS"
      | _ => Ok "AWS"
      end
  | _ => Raise AttributeError
  end.

(** The cost of a record as line 24 of cost_analyser.py and line 187 of
    billing_generator.py read it. *)
Definition cost_of (record : json) : result pynum :=
  v <- py_getitem record "cost_inr" ;;
  match number_of v with
  | Some n => Ok n
  | None => Raise TypeError
  end.

(** [a + b] *)
Definition py_add (a b : pynum) : result pynum :=
  match a, b with
  | PInt x, PInt y => Ok (PInt (x + y))
  | _, _ =>
      f <- to_float a ;;
      g <- to_float b ;;
      Ok (PFloat (SFadd prec emax f g))
  end.

(** A dictionary from values to numbers, in insertion order: the
    [service_costs] and [region_costs] of [calculate_billing_summary]. *)
Definition costs : Type := list (json * pynum).

(** [hash(v)] raises for a list and for a dictionary. *)
Definition hashable (v : json) : bool := negb (is_dict v || is_list v).

Definition is_nan (v : json) : bool :=
  match v with
  | JFloat S754_nan => true
  | _ => false
  end.

(** Are [a] and [b] the same key of a dictionary?  Texts by their
    characters, numbers by their value ([1], [1.0] and [True] are one key);
    a NaN is the one object that [json.loads] makes, which is the same key
    as itself. *)
Definition same_key (a b : json) : bool :=
  match a, b with
  | JStr s, JStr t => String.eqb s t
  | JNull, JNull => true
  | _, _ =>
      match number_of a, number_of b with
      | Some x, Some y =>
          match num_compare x y with
          | Some Eq => true
          | Some _ => false
          | None => is_nan a && is_nan b
          end
      | _, _ => false
      end
  end.

Fixpoint costs_get (m : costs) (k : json) : option pynum :=
  match m with
  | [] => None
  | (k', v) :: m' => if same_key k' k then Some v else costs_get m' k
  end.

(** [m[k] = v]: an existing key keeps its place, a new key goes last. *)
Fixpoint costs_set (m : costs) (k : json) (v : pynum) : costs :=
  match m with
  | [] => [(k, v)]
  | (k', v') :: m' =>
      if same_key k' k then (k', v) :: m' else (k', v') :: costs_set m' k v
  end.

(** The loops of lines 273-276 and 279-282, [acc] being the dictionary so
    far. *)
Fixpoint group_costs (field : string) (records : list json) (acc : costs)
  : result costs :=
  match records with
  | [] => Ok acc
  | record :: rest =>
      key <- py_getitem record field ;;
      if negb (hashable key) then Raise TypeError
      else
        let so_far :=
          match costs_get acc key with
          | Some c => c
          | None => PInt 0
          end in
        cost <- cost_of record ;;
        sum <- py_add so_far cost ;;
        group_costs field rest (costs_set acc key sum)
  end.

(** [max(items, key=lambda x: x[1])], [best] being the greatest so far: a
    later item replaces it only when its number is greater. *)
Fixpoint max_by_cost (best : json * pynum) (items : costs) : json * pynum :=
  match items with
  | [] => best
  | item :: rest =>
      max_by_cost (if num_gt (snd item) (snd best) then item else best) rest
  end.

(** [max(m.items(), key=lambda x: x[1])[0] if m else None] *)
Definition top_key (m : costs) : option json :=
  match m with
  | [] => None
  | first :: rest => Some (fst (max_by_cost first rest))
  end.

Record billing_summary : Type := {
  total_cost : pynum;
  record_count : Z;
  service_costs : costs;
  region_costs : costs;
  top_service : option json;
  top_region : option json
}.

(** [calculate_billing_summary], lines 260-291. *)
Definition calculate_billing_summary (rt : runtime)
  (billing_records : list json) : result billing_summary :=
  total <- total_cost_of rt billing_records ;;
  by_service <- group_costs "service" billing_records [] ;;
  by_region <- group_costs "region" billing_records [] ;;
  Ok {| total_cost := total;
        record_count := count billing_records;
        service_costs := by_service;
        region_costs := by_region;
        top_service := top_key by_service;
        top_region := top_key by_region |}.

(** A record whose service and region are texts and whose cost is an
    [int]. *)
Definition plain_record (record : json) : bool :=
  match record with
  | JObj d =>
      match dict_get d "service", dict_get d "region",
            dict_get d "cost_inr" with
      | Some (JStr _), Some (JStr _), Some (JInt _) => true
      | _, _, _ => false
      end
  | _ => false
  end.

(** The sum of numbers that are all [int]. *)
Definition int_total (items : list pynum) : Z :=
  fold_left Z.add (map int_part items) 0.

(** [top] is a key of [m] whose number no other exceeds, or nothing when
    [m] is empty. *)
Definition costs_most (m : costs) (top : option json) : Prop :=
  match top with
  | None => m = []
  | Some k =>
      exists best,
        In (k, best) m /\ forall k' c, In (k', c) m -> num_gt c best = false
  end.

(** Three records of two services in two regions. *)
Definition summary_record (service region : string) (cost : Z) : json :=
  JObj [("service", JStr service); ("region", JStr region);
        ("cost_inr", JInt cost)].

Definition summary_records : list json :=
  [summary_record "EC2" "ap-south-1" 1200;
   summary_record "S3" "us-east-1" 1500;
   summary_record "EC2" "us-east-1" 800].

(** ** More of cost_analyser.py *)

(** What the checks of a recommendation establish: the ten fields are
    there, the two amounts are numbers, and the steps and the providers are
    lists. *)
Definition checked_recommendation (rec : json) : Prop :=
  (forall field,
      In field recommendation_fields -> py_contains rec field = Ok true)
  /\ (exists cost,
         py_getitem rec "current_cost" = Ok cost /\ is_number cost = true)
  /\ (exists savings,
         py_getitem rec "potential_savings" = Ok savings
         /\ is_number savings = true)
  /\ (exists steps, py_getitem rec "steps" = Ok (JArr steps))
  /\ (exists providers, py_getitem rec "cloud_providers" = Ok (JArr providers)).

(** The trace of [failures] failed attempts followed by one that
    succeeds. *)
Definition run_until_success (failures : nat) : list event :=
  flat_map (fun attempt => [Request attempt; Sleep 2]) (seq 0 failures)
  ++ [Request failures].

(** * Facts *)

(** ** Strings *)

Lemma str_length_app (a b : string) :
  String.length (a ++ b) = (String.length a + String.length b)%nat.
Proof. induction a as [|c a IH]; simpl; [reflexivity | now rewrite IH]. Qed.

Lemma len_app (a b : string) : len (a ++ b) = len a + len b.
Proof. unfold len. rewrite str_length_app. lia. Qed.

Lemma len_cons (c : ascii) (s : string) : len (String c s) = 1 + len s.
Proof. unfold len. simpl String.length. lia. Qed.

Lemma len_nonneg (s : string) : 0 <= len s.
Proof. unfold len. lia. Qed.

Lemma app_assoc_str (a b c : string) : (a ++ b) ++ c = a ++ b ++ c.
Proof. induction a as [|x a IH]; simpl; [reflexivity | now rewrite IH]. Qed.

Lemma app_empty_r (a : string) : a ++ "" = a.
Proof. induction a as [|x a IH]; simpl; [reflexivity | now rewrite IH]. Qed.

Lemma take_app_exact (a b : string) : take (String.length a) (a ++ b) = a.
Proof. induction a as [|x a IH]; simpl; [now destruct b | now rewrite IH]. Qed.

Lemma drop_app_exact (a b : string) : drop (String.length a) (a ++ b) = b.
Proof. induction a as [|x a IH]; simpl; auto. Qed.

Lemma starts_with_app (p s : string) : starts_with p (p ++ s) = true.
Proof.
  induction p as [|x p IH]; simpl; [reflexivity|].
  now rewrite Ascii.eqb_refl, IH.
Qed.


Lemma str_in_unfold (p s : string) :
  str_in p s = starts_with p s
               || match s with
                  | EmptyString => false
                  | String _ s' => str_in p s'
                  end.
Proof. now destruct s. Qed.

Lemma str_in_app (pre p rest : string) : str_in p (pre ++ p ++ rest) = true.
Proof.
  induction pre as [|x pre IH]; rewrite str_in_unfold.
  - simpl append. now rewrite starts_with_app.
  - change (String x pre ++ p ++ rest) with (String x (pre ++ p ++ rest)).
    cbv iota. rewrite IH. apply orb_true_r.
Qed.

Lemma slice_middle (pre mid post : string) :
  slice (pre ++ mid ++ post) (len pre) (len pre + len mid) = mid.
Proof.
  unfold slice, clamp. rewrite !len_app.
  pose proof (len_nonneg pre). pose proof (len_nonneg mid).
  pose proof (len_nonneg post).
  destruct (Z.ltb_spec (len pre) 0); [lia|].
  destruct (Z.ltb_spec (len pre + len mid) 0); [lia|].
  rewrite !Z.min_l by lia.
  replace (len pre + len mid - len pre) with (len mid) by lia.
  unfold len. rewrite !Nat2Z.id.
  now rewrite drop_app_exact, take_app_exact.
Qed.

Lemma slice_prefix (mid post : string) : slice (mid ++ post) 0 (len mid) = mid.
Proof. apply (slice_middle "" mid post). Qed.

Lemma slice_all (s : string) : slice s 0 (len s) = s.
Proof.
  pose proof (slice_prefix s "") as H. now rewrite app_empty_r in H.
Qed.

Lemma str_in_char_cons (c x : ascii) (s : string) :
  str_in (char c) (String x s) = false ->
  Ascii.eqb c x = false /\ str_in (char c) s = false.
Proof.
  rewrite str_in_unfold. simpl. intros H.
  apply orb_false_iff in H as [H1 H2].
  rewrite andb_true_r in H1. now split.
Qed.

Lemma find_at_ge (p s : string) (i n : nat) :
  find_at p s i = Some n -> (i <= n)%nat.
Proof.
  revert i. induction s as [|x s IH]; intros i; simpl.
  - destruct (starts_with p ""); [|discriminate]. intros [= <-]. lia.
  - destruct (starts_with p (String x s)).
    + intros [= <-]. lia.
    + intros H. apply IH in H. lia.
Qed.

Lemma find_at_char_skip (c : ascii) (pre s : string) (i : nat) :
  str_in (char c) pre = false ->
  find_at (char c) (pre ++ s) i = find_at (char c) s (i + String.length pre).
Proof.
  revert i. induction pre as [|x pre IH]; intros i H.
  - simpl. now rewrite Nat.add_0_r.
  - apply str_in_char_cons in H as [Hx Hpre].
    simpl. rewrite Hx. simpl. rewrite IH by assumption.
    f_equal. lia.
Qed.

Lemma find_at_char_here (c : ascii) (s : string) (i : nat) :
  find_at (char c) (String c s) i = Some i.
Proof. simpl. now rewrite Ascii.eqb_refl. Qed.

Lemma find_at_char_other (c x : ascii) (s : string) (i : nat) :
  Ascii.eqb c x = false ->
  find_at (char c) (String x s) i = find_at (char c) s (S i).
Proof. intros H. simpl. now rewrite H. Qed.

Lemma rfind_at_char_none (c : ascii) (s : string) (i : nat) :
  str_in (char c) s = false -> rfind_at (char c) s i = None.
Proof.
  revert i. induction s as [|x s IH]; intros i H.
  - reflexivity.
  - apply str_in_char_cons in H as [Hx Hs].
    simpl. rewrite IH by assumption. now rewrite Hx.
Qed.

Lemma rfind_at_char_last (c : ascii) (pre post : string) (i : nat) :
  str_in (char c) post = false ->
  rfind_at (char c) (pre ++ String c post) i = Some (i + String.length pre)%nat.
Proof.
  intros H. revert i. induction pre as [|x pre IH]; intros i.
  - simpl. rewrite rfind_at_char_none by assumption.
    now rewrite Ascii.eqb_refl, Nat.add_0_r.
  - simpl. rewrite IH. f_equal. lia.
Qed.

Lemma find_from_zero (s p : string) :
  find s p 0 = index_or_minus_one (find_at p s 0).
Proof.
  unfold find. simpl.
  destruct (Z.ltb_spec (len s) 0) as [H|H]; [|reflexivity].
  pose proof (len_nonneg s). lia.
Qed.

Lemma find_from (pre s p : string) :
  find (pre ++ s) p (len pre)
  = index_or_minus_one (find_at p s (String.length pre)).
Proof.
  unfold find. pose proof (len_nonneg pre). pose proof (len_nonneg s).
  destruct (Z.ltb_spec (len pre) 0); [lia|].
  rewrite len_app. destruct (Z.ltb_spec (len pre + len s) (len pre)); [lia|].
  unfold len. now rewrite Nat2Z.id, drop_app_exact.
Qed.

(** *** Trimming *)

Lemma lstrip_spaces (ws s : string) :
  all_chars is_space ws = true -> lstrip (ws ++ s) = lstrip s.
Proof.
  unfold all_chars. induction ws as [|x ws IH]; simpl; intros H.
  - reflexivity.
  - apply andb_true_iff in H as [Hx Hws]. rewrite Hx. now apply IH.
Qed.

Lemma rstrip_only_spaces (ws : string) :
  all_chars is_space ws = true -> rstrip ws = "".
Proof.
  unfold all_chars. induction ws as [|x ws IH]; simpl; intros H.
  - reflexivity.
  - apply andb_true_iff in H as [Hx Hws]. now rewrite IH, Hx.
Qed.

Lemma rstrip_spaces (s ws : string) :
  all_chars is_space ws = true -> rstrip (s ++ ws) = rstrip s.
Proof.
  intros H. induction s as [|x s IH]; simpl.
  - now apply rstrip_only_spaces.
  - now rewrite IH.
Qed.

Lemma rstrip_keeps_end (s : string) (c : ascii) :
  is_space c = false -> rstrip (s ++ char c) = s ++ char c.
Proof.
  intros H. induction s as [|x s IH]; simpl.
  - now rewrite H.
  - rewrite IH. destruct (s ++ char c) eqn:E; [|reflexivity].
    destruct s; discriminate.
Qed.

(** A text that begins and ends with characters other than spaces is left
    as it is, and the spaces around it are what [strip] removes. *)
Lemma strip_core (ws1 ws2 mid : string) (a b : ascii) :
  all_chars is_space ws1 = true -> all_chars is_space ws2 = true ->
  is_space a = false -> is_space b = false ->
  strip (ws1 ++ String a (mid ++ char b) ++ ws2) = String a (mid ++ char b).
Proof.
  intros H1 H2 Ha Hb. unfold strip.
  rewrite lstrip_spaces by assumption.
  change (String a (mid ++ char b) ++ ws2)
    with (String a ((mid ++ char b) ++ ws2)).
  simpl lstrip. rewrite Ha.
  change (String a ((mid ++ char b) ++ ws2))
    with (String a (mid ++ char b) ++ ws2).
  rewrite rstrip_spaces by assumption.
  change (String a (mid ++ char b)) with (String a mid ++ char b).
  now apply rstrip_keeps_end.
Qed.

Lemma strip_bracketed (mid : string) (a b : ascii) :
  is_space a = false -> is_space b = false ->
  strip (String a (mid ++ char b)) = String a (mid ++ char b).
Proof.
  intros Ha Hb.
  pose proof (strip_core "" "" mid a b eq_refl eq_refl Ha Hb) as H.
  simpl in H. now rewrite app_empty_r in H.
Qed.

(** *** First and last occurrence of a character *)

Lemma find_first_char (c : ascii) (pre rest : string) :
  str_in (char c) pre = false ->
  find (pre ++ String c rest) (char c) 0 = len pre.
Proof.
  intros H. rewrite find_from_zero, find_at_char_skip by assumption.
  now rewrite find_at_char_here.
Qed.

Lemma rfind_last_char (c : ascii) (pre post : string) :
  str_in (char c) post = false ->
  rfind (pre ++ String c post) (char c) = len pre.
Proof.
  intros H. unfold rfind. now rewrite rfind_at_char_last.
Qed.

Lemma find_char_later (c d : ascii) (pre rest : string) :
  str_in (char c) pre = false -> Ascii.eqb c d = false ->
  find (pre ++ String d rest) (char c) 0 = -1
  \/ len pre < find (pre ++ String d rest) (char c) 0.
Proof.
  intros H Hd. rewrite find_from_zero, find_at_char_skip by assumption.
  rewrite find_at_char_other by assumption.
  destruct (find_at (char c) rest (S (0 + String.length pre))) eqn:E.
  - right. apply find_at_ge in E. unfold len. simpl. lia.
  - now left.
Qed.

(** ** utils.py: the span that is selected *)

Lemma select_array_span (pre mid post : string) :
  str_in "[" pre = false -> str_in "{" pre = false ->
  str_in "]" post = false ->
  select_json_span (pre ++ "[" ++ mid ++ "]" ++ post) = "[" ++ mid ++ "]".
Proof.
  intros Hb Hc Hd. unfold select_json_span.
  set (t := pre ++ "[" ++ mid ++ "]" ++ post).
  assert (Hstart : find t "[" 0 = len pre)
    by (apply find_first_char; assumption).
  assert (Hend : rfind t "]" = len pre + 1 + len mid).
  { unfold t.
    replace (pre ++ "[" ++ mid ++ "]" ++ post)
      with ((pre ++ "[" ++ mid) ++ String "]" post)
      by (now rewrite app_assoc_str).
    rewrite rfind_last_char by assumption.
    rewrite len_app. change ("[" ++ mid) with (String "[" mid).
    unfold len. simpl String.length. lia. }
  assert (Hobj : find t "{" 0 = -1 \/ len pre < find t "{" 0)
    by (apply find_char_later; [assumption | reflexivity]).
  rewrite Hstart, Hend. pose proof (len_nonneg pre). pose proof (len_nonneg mid).
  replace (negb (len pre =? -1)) with true
    by (destruct (Z.eqb_spec (len pre) (-1)); [lia | reflexivity]).
  replace ((len pre <? find t "{" 0) || (find t "{" 0 =? -1)) with true.
  2:{ destruct Hobj as [-> | Hlt]; [now rewrite orb_true_r|].
      apply Z.ltb_lt in Hlt. now rewrite Hlt. }
  replace (negb (len pre + 1 + len mid =? -1)) with true
    by (destruct (Z.eqb_spec (len pre + 1 + len mid) (-1)); [lia | reflexivity]).
  replace (len pre <? len pre + 1 + len mid) with true
    by (symmetry; apply Z.ltb_lt; lia).
  cbv beta iota zeta. simpl andb. cbv iota.
  replace (len pre + 1 + len mid + 1) with (len pre + len ("[" ++ mid ++ "]")).
  2:{ change ("[" ++ mid ++ "]") with (String "[" (mid ++ "]")).
      rewrite len_cons, len_app. change (len "]") with 1. lia. }
  unfold t.
  replace (pre ++ "[" ++ mid ++ "]" ++ post)
    with (pre ++ ("[" ++ mid ++ "]") ++ post).
  2:{ simpl. now rewrite app_assoc_str. }
  rewrite slice_middle.
  apply (strip_bracketed mid "[" "]"); reflexivity.
Qed.

Lemma str_in_char_app (c : ascii) (u v : string) :
  str_in (char c) (u ++ v) = str_in (char c) u || str_in (char c) v.
Proof.
  induction u as [|x u IH].
  - reflexivity.
  - change (String x u ++ v) with (String x (u ++ v)).
    rewrite (str_in_unfold _ (String x (u ++ v))),
      (str_in_unfold _ (String x u)), IH.
    cbn [starts_with]. now rewrite orb_assoc.
Qed.

Lemma rfind_at_char_bound (c : ascii) (s : string) (i r : nat) :
  rfind_at (char c) s i = Some r -> (r < i + String.length s)%nat.
Proof.
  revert i. induction s as [|x s IH]; intros i; cbn [rfind_at].
  - discriminate.
  - destruct (rfind_at (char c) s (S i)) as [r'|] eqn:E.
    + intros [= <-]. apply IH in E. simpl. lia.
    + destruct (starts_with (char c) (String x s)); [|discriminate].
      intros [= <-]. simpl. lia.
Qed.

Lemma rfind_at_char_app_none (c : ascii) (pre s : string) (i : nat) :
  str_in (char c) s = false ->
  rfind_at (char c) (pre ++ s) i = rfind_at (char c) pre i.
Proof.
  intros H. revert i. induction pre as [|x pre IH]; intros i.
  - simpl append. rewrite rfind_at_char_none by assumption. reflexivity.
  - change (String x pre ++ s) with (String x (pre ++ s)).
    cbn [rfind_at]. rewrite IH. reflexivity.
Qed.

(** The other side of the array branch: a bracket that comes first but is
    never closed, followed by an object, gives the object span. *)
Lemma unclosed_array_gives_object_span (pre a m b : string) :
  str_in "[" pre = false -> str_in "{" pre = false ->
  str_in "{" a = false ->
  str_in "]" (a ++ "{" ++ m ++ "}" ++ b) = false ->
  str_in "}" b = false ->
  select_json_span (pre ++ "[" ++ a ++ "{" ++ m ++ "}" ++ b)
  = "{" ++ m ++ "}".
Proof.
  intros Hb Hc Ha Hd He. unfold select_json_span.
  set (t := pre ++ "[" ++ a ++ "{" ++ m ++ "}" ++ b).
  pose proof (len_nonneg pre). pose proof (len_nonneg a).
  pose proof (len_nonneg m).
  assert (Hstart : find t "[" 0 = len pre)
    by (apply find_first_char; assumption).
  assert (Hobj : find t "{" 0 = len pre + 1 + len a).
  { unfold t.
    replace (pre ++ "[" ++ a ++ "{" ++ m ++ "}" ++ b)
      with ((pre ++ "[" ++ a) ++ String "{" (m ++ "}" ++ b))
      by (now rewrite !app_assoc_str).
    rewrite find_first_char.
    - rewrite len_app. change ("[" ++ a) with (String "[" a).
      rewrite len_cons. lia.
    - rewrite str_in_char_app, Hc. change ("[" ++ a) with (String "[" a).
      rewrite (str_in_unfold _ (String "[" a)), Ha. reflexivity. }
  assert (Hend : rfind t "]" < len pre).
  { unfold t, rfind.
    replace (pre ++ "[" ++ a ++ "{" ++ m ++ "}" ++ b)
      with ((pre ++ "[") ++ a ++ "{" ++ m ++ "}" ++ b)
      by (now rewrite !app_assoc_str).
    rewrite rfind_at_char_app_none by assumption.
    destruct (rfind_at "]" (pre ++ "[") 0) as [r|] eqn:E;
      unfold index_or_minus_one; [|lia].
    assert (Hr : rfind_at "]" (pre ++ "[") 0 = rfind_at "]" pre 0)
      by (apply rfind_at_char_app_none; reflexivity).
    rewrite Hr in E. apply rfind_at_char_bound in E. unfold len. lia. }
  assert (Hclose : rfind t "}" = len pre + 1 + len a + 1 + len m).
  { unfold t.
    replace (pre ++ "[" ++ a ++ "{" ++ m ++ "}" ++ b)
      with ((pre ++ "[" ++ a ++ "{" ++ m) ++ String "}" b)
      by (now rewrite !app_assoc_str).
    rewrite rfind_last_char by assumption.
    rewrite !len_app. change (len "[") with 1. change (len "{") with 1.
    lia. }
  rewrite Hstart, Hobj, Hclose.
  replace (negb (len pre =? -1)) with true
    by (destruct (Z.eqb_spec (len pre) (-1)); [lia | reflexivity]).
  replace (len pre <? len pre + 1 + len a) with true
    by (symmetry; apply Z.ltb_lt; lia).
  replace (negb (rfind t "]" =? -1) && (len pre <? rfind t "]")) with false.
  2:{ destruct (Z.ltb_spec (len pre) (rfind t "]")); [lia|].
      now rewrite andb_false_r. }
  replace (negb (len pre + 1 + len a =? -1)) with true
    by (destruct (Z.eqb_spec (len pre + 1 + len a) (-1)); [lia | reflexivity]).
  replace (negb (len pre + 1 + len a + 1 + len m =? -1)) with true
    by (destruct (Z.eqb_spec (len pre + 1 + len a + 1 + len m) (-1));
        [lia | reflexivity]).
  replace (len pre + 1 + len a <? len pre + 1 + len a + 1 + len m) with true
    by (symmetry; apply Z.ltb_lt; lia).
  cbv beta iota zeta. simpl andb. simpl orb. cbv iota.
  replace (len pre + 1 + len a + 1 + len m + 1)
    with (len (pre ++ "[" ++ a) + len ("{" ++ m ++ "}")).
  2:{ rewrite !len_app. change (len "[") with 1. change (len "{") with 1.
      change (len "}") with 1. lia. }
  replace (len pre + 1 + len a) with (len (pre ++ "[" ++ a))
    by (rewrite !len_app; change (len "[") with 1; lia).
  unfold t.
  replace (pre ++ "[" ++ a ++ "{" ++ m ++ "}" ++ b)
    with ((pre ++ "[" ++ a) ++ ("{" ++ m ++ "}") ++ b)
    by (now rewrite !app_assoc_str).
  rewrite slice_middle.
  apply (strip_bracketed m "{" "}"); reflexivity.
Qed.

Lemma select_object_whole (mid : string) :
  select_json_span ("{" ++ mid ++ "}") = "{" ++ mid ++ "}".
Proof.
  unfold select_json_span.
  set (t := "{" ++ mid ++ "}").
  assert (Harr : find t "[" 0 = -1 \/ len "" < find t "[" 0)
    by (apply (find_char_later "[" "{" "" (mid ++ "}")); reflexivity).
  assert (Hstart : find t "{" 0 = 0)
    by (apply (find_first_char "{" "" (mid ++ "}")); reflexivity).
  assert (Hend : rfind t "}" = 1 + len mid).
  { unfold t.
    replace ("{" ++ mid ++ "}") with (("{" ++ mid) ++ String "}" "")
      by (now rewrite app_assoc_str).
    rewrite rfind_last_char by reflexivity.
    change ("{" ++ mid) with (String "{" mid).
    unfold len. simpl String.length. lia. }
  change (len "") with 0 in Harr. pose proof (len_nonneg mid).
  rewrite Hstart, Hend.
  replace (negb (find t "[" 0 =? -1)
           && ((find t "[" 0 <? 0) || (0 =? -1))) with false.
  2:{ destruct Harr as [-> | Hlt]; [reflexivity|].
      destruct (Z.ltb_spec (find t "[" 0) 0); [lia|].
      simpl. now rewrite andb_false_r. }
  replace (negb (1 + len mid =? -1)) with true
    by (destruct (Z.eqb_spec (1 + len mid) (-1)); [lia | reflexivity]).
  replace (0 <? 1 + len mid) with true by (symmetry; apply Z.ltb_lt; lia).
  cbv beta iota zeta. simpl negb. simpl andb. cbv iota.
  replace (1 + len mid + 1) with (len t).
  2:{ unfold t. change ("{" ++ mid ++ "}") with (String "{" (mid ++ "}")).
      rewrite len_cons, len_app. change (len "}") with 1. lia. }
  rewrite slice_all. apply (strip_bracketed mid "{" "}"); reflexivity.
Qed.

Lemma select_array_whole (mid : string) :
  select_json_span ("[" ++ mid ++ "]") = "[" ++ mid ++ "]".
Proof.
  pose proof (select_array_span "" mid "" eq_refl eq_refl eq_refl) as H.
  now rewrite app_empty_r in H.
Qed.

(** ** utils.py: the fenced block *)

Lemma starts_with_app_long (p u w : string) :
  (String.length p <= String.length u)%nat ->
  starts_with p (u ++ w) = starts_with p u.
Proof.
  revert u. induction p as [|x p IH]; intros u H.
  - reflexivity.
  - destruct u as [|y u]; simpl in H; [lia|].
    simpl. rewrite IH by lia. reflexivity.
Qed.

Lemma str_in_cons (p : string) (x : ascii) (s : string) :
  str_in p (String x s) = false ->
  starts_with p (String x s) = false /\ str_in p s = false.
Proof.
  rewrite str_in_unfold. intros H. now apply orb_false_iff in H.
Qed.

(** No occurrence of the opening fence can begin before a text that has
    none and run into the fence that follows it. *)
Lemma json_fence_no_overlap (pre rest : string) :
  pre <> "" -> starts_with json_fence pre = false ->
  starts_with json_fence (pre ++ json_fence ++ rest) = false.
Proof.
  intros Hne H.
  destruct (Nat.le_gt_cases (String.length json_fence) (String.length pre))
    as [Hlong | Hshort].
  - now rewrite starts_with_app_long.
  - clear H. unfold json_fence in *.
    destruct pre as [|x1 [|x2 [|x3 [|x4 [|x5 [|x6 [|x7 pre]]]]]]];
      [congruence | | | | | | | simpl in Hshort; lia];
      cbn [starts_with append];
      repeat match goal with
             | |- context [Ascii.eqb ?a ?b] => is_var b; destruct (Ascii.eqb a b)
             end;
      reflexivity.
Qed.

Lemma find_at_here (p s : string) (i : nat) :
  starts_with p s = true -> find_at p s i = Some i.
Proof. intros H. destruct s; simpl; now rewrite H. Qed.

Lemma find_at_next (p : string) (x : ascii) (s : string) (i : nat) :
  starts_with p (String x s) = false ->
  find_at p (String x s) i = find_at p s (S i).
Proof. intros H. cbn [find_at]. now rewrite H. Qed.

Lemma find_at_json_fence (pre rest : string) (i : nat) :
  str_in json_fence pre = false ->
  find_at json_fence (pre ++ json_fence ++ rest) i
  = Some (i + String.length pre)%nat.
Proof.
  revert i. induction pre as [|x pre IH]; intros i H.
  - change ("" ++ json_fence ++ rest) with (json_fence ++ rest).
    rewrite find_at_here by apply starts_with_app.
    simpl. f_equal. lia.
  - apply str_in_cons in H as [Hhere Hlater].
    change (String x pre ++ json_fence ++ rest)
      with (String x (pre ++ json_fence ++ rest)).
    rewrite find_at_next.
    + rewrite IH by assumption. simpl. f_equal. lia.
    + change (String x (pre ++ json_fence ++ rest))
        with (String x pre ++ json_fence ++ rest).
      apply json_fence_no_overlap; [discriminate | assumption].
Qed.

Lemma snoc_cases (s : string) : s = "" \/ exists s' c, s = s' ++ char c.
Proof.
  induction s as [|x s IH]; [now left | right].
  destruct IH as [-> | (s' & c & ->)].
  - now exists "", x.
  - now exists (String x s'), c.
Qed.

Lemma all_chars_last (f : ascii -> bool) (s : string) (c : ascii) :
  all_chars f (s ++ char c) = true -> f c = true.
Proof.
  unfold all_chars. induction s as [|x s IH]; simpl; intros H.
  - now rewrite andb_true_r in H.
  - apply andb_true_iff in H as [_ H]. now apply IH.
Qed.

(** The closing fence: a text that has no fence and does not end with a
    backtick is followed by the first fence there is. *)
Lemma fence_after_clean_end (body : string) (c : ascii) :
  Ascii.eqb "`" c = false ->
  str_in fence (body ++ char c) = false ->
  str_in fence ((body ++ char c) ++ "``") = false.
Proof.
  intros Hc. induction body as [|x body IH]; intros H.
  - unfold fence. cbn [append str_in starts_with]. rewrite Hc. reflexivity.
  - change (String x body ++ char c) with (String x (body ++ char c)) in *.
    apply str_in_cons in H as [Hhere Hlater].
    change (String x (body ++ char c) ++ "``")
      with (String x ((body ++ char c) ++ "``")).
    rewrite str_in_unfold, IH by assumption. rewrite orb_false_r.
    destruct body as [|y body].
    + unfold fence. cbn [starts_with append]. rewrite Hc.
      now rewrite andb_false_r.
    + change (String x ((String y body ++ char c) ++ "``"))
        with (String x (String y body ++ char c) ++ "``").
      rewrite starts_with_app_long; [assumption|].
      simpl. destruct body; simpl; lia.
Qed.

Lemma find_at_fence (body post : string) (i : nat) :
  str_in fence (body ++ "``") = false ->
  find_at fence (body ++ fence ++ post) i = Some (i + String.length body)%nat.
Proof.
  revert i. induction body as [|x body IH]; intros i H.
  - change ("" ++ fence ++ post) with (fence ++ post).
    rewrite find_at_here by apply starts_with_app.
    simpl. f_equal. lia.
  - change (String x body ++ "``") with (String x (body ++ "``")) in H.
    apply str_in_cons in H as [Hhere Hlater].
    change (String x body ++ fence ++ post)
      with (String x (body ++ fence ++ post)).
    rewrite find_at_next.
    + rewrite IH by assumption. simpl. f_equal. lia.
    + replace (String x (body ++ fence ++ post))
        with (String x (body ++ "``") ++ "`" ++ post).
      * rewrite starts_with_app_long; [assumption|].
        simpl. rewrite str_length_app. simpl. lia.
      * simpl. f_equal. rewrite app_assoc_str. reflexivity.
Qed.

Lemma remove_code_fence_json (pre body post : string) :
  str_in json_fence pre = false ->
  str_in fence (body ++ "``") = false ->
  remove_code_fence (pre ++ json_fence ++ body ++ fence ++ post) = strip body.
Proof.
  intros Hpre Hbody. unfold remove_code_fence.
  rewrite str_in_app.
  assert (Hstart : find (pre ++ json_fence ++ body ++ fence ++ post)
                     json_fence 0 = len pre).
  { rewrite find_from_zero, find_at_json_fence by assumption. reflexivity. }
  rewrite Hstart.
  assert (Hlen : len (pre ++ json_fence) = len pre + 7)
    by (rewrite len_app; reflexivity).
  assert (Hend : find (pre ++ json_fence ++ body ++ fence ++ post) fence
                   (len pre + 7) = len pre + 7 + len body).
  { rewrite <- Hlen, <- app_assoc_str, find_from.
    rewrite find_at_fence by assumption. unfold index_or_minus_one, len.
    lia. }
  rewrite Hend. pose proof (len_nonneg pre). pose proof (len_nonneg body).
  destruct (Z.eqb_spec (len pre + 7 + len body) (-1)); [lia|].
  cbn [negb]. rewrite <- Hlen, <- app_assoc_str, slice_middle. reflexivity.
Qed.

Lemma extract_of_nonempty (text : string) :
  text <> "" ->
  extract_json_from_text text = select_json_span (remove_code_fence text).
Proof. destruct text; [congruence | reflexivity]. Qed.

Lemma ends_without_backtick (ws1 ws2 mid : string) (a b : ascii) :
  all_chars is_space ws2 = true -> Ascii.eqb "`" b = false ->
  exists body c,
    ws1 ++ String a (mid ++ char b) ++ ws2 = body ++ char c
    /\ Ascii.eqb "`" c = false.
Proof.
  intros Hws Hb. destruct (snoc_cases ws2) as [-> | (w & z & ->)].
  - exists (ws1 ++ String a mid), b. split; [|assumption].
    rewrite app_empty_r, app_assoc_str. reflexivity.
  - exists (ws1 ++ String a (mid ++ char b) ++ w), z. split.
    + now rewrite !app_assoc_str.
    + apply all_chars_last in Hws.
      destruct (Ascii.eqb_spec "`" z) as [<- |]; [discriminate | reflexivity].
Qed.

(** C7, as amended.  A text with a block opened by the first [```json] of
    the text and closed by the next [```], whose interior is an object
    [{...}] or an array [[...]] with spaces around it, is extracted as
    exactly that object or array.  (Every well-formed JSON object begins
    with a brace and ends with one, and every array with brackets, so the
    hypothesis on the interior covers them.) *)
Theorem fenced_json_block_is_extracted
  (pre ws1 core ws2 post mid : string) :
  str_in "```json" pre = false ->
  all_chars is_space ws1 = true ->
  all_chars is_space ws2 = true ->
  str_in "```" (ws1 ++ core ++ ws2) = false ->
  core = "{" ++ mid ++ "}" \/ core = "[" ++ mid ++ "]" ->
  extract_json_from_text
    (pre ++ "```json" ++ ws1 ++ core ++ ws2 ++ "```" ++ post) = core.
Proof.
  intros Hpre Hws1 Hws2 Hbody Hcore.
  assert (Hshape : exists a b,
             core = String a (mid ++ char b)
             /\ is_space a = false /\ is_space b = false
             /\ Ascii.eqb "`" b = false
             /\ select_json_span core = core).
  { destruct Hcore as [-> | ->].
    - exists "{"%char, "}"%char. repeat split. apply select_object_whole.
    - exists "["%char, "]"%char. repeat split. apply select_array_whole. }
  destruct Hshape as (a & b & Hab & Ha & Hb & Htick & Hsel).
  rewrite extract_of_nonempty by (destruct pre; discriminate).
  replace (pre ++ "```json" ++ ws1 ++ core ++ ws2 ++ "```" ++ post)
    with (pre ++ json_fence ++ (ws1 ++ core ++ ws2) ++ fence ++ post)
    by (now rewrite !app_assoc_str).
  rewrite remove_code_fence_json.
  - rewrite Hab at 1. rewrite strip_core by assumption.
    rewrite <- Hab. exact Hsel.
  - exact Hpre.
  - rewrite Hab in *.
    destruct (ends_without_backtick ws1 ws2 mid a b Hws2 Htick)
      as (body & c & E & Hc).
    rewrite E in *. now apply fence_after_clean_end.
Qed.

(** The example of the specification:
    [Sure! ```json\n{"name":"X"}\n``` Done] gives [{"name":"X"}]. *)
Lemma fenced_json_block_example :
  extract_json_from_text
    ("Sure! " ++ "```json" ++ nl
     ++ ("{" ++ (dq ++ "name" ++ dq ++ ":" ++ dq ++ "X" ++ dq) ++ "}")
     ++ nl ++ "```" ++ " Done")
  = "{" ++ (dq ++ "name" ++ dq ++ ":" ++ dq ++ "X" ++ dq) ++ "}".
Proof.
  apply (fenced_json_block_is_extracted "Sure! " nl _ nl " Done"
           (dq ++ "name" ++ dq ++ ":" ++ dq ++ "X" ++ dq));
    try reflexivity.
  left. reflexivity.
Defined.

(** C7, as stated, fails.  The block that counts is the one the first
    [```json] opens, up to the next [```]: when an earlier [```json] block
    holds prose, the prose is returned and not the object of the later
    block; and when the object holds a fence in one of its texts, the block
    ends there and the object comes back cut. *)
Lemma first_json_block_is_taken :
  (let core := "{" ++ dq ++ "a" ++ dq ++ ":1}" in
   let text :=
     "```json see below ``` and " ++ "```json" ++ " " ++ core ++ " " ++ "```"
   in
   extract_json_from_text text = "see below"
   /\ String.eqb (extract_json_from_text text) core = false)
  /\ (let core :=
        "{" ++ dq ++ "a" ++ dq ++ ": " ++ dq ++ "```" ++ dq ++ "}" in
      let text := "```json" ++ nl ++ core ++ nl ++ "```" in
      extract_json_from_text text = "{" ++ dq ++ "a" ++ dq ++ ": " ++ dq
      /\ String.eqb (extract_json_from_text text) core = false).
Proof. vm_compute. repeat split. Qed.

Lemma starts_with_shorter (p q s : string) :
  starts_with (p ++ q) s = true -> starts_with p s = true.
Proof.
  revert s. induction p as [|x p IH]; intros s H; [reflexivity|].
  destruct s as [|y s]; simpl in *; [discriminate|].
  apply andb_true_iff in H as [Hxy Hp]. now rewrite Hxy, (IH _ Hp).
Qed.

Lemma no_fence_no_json_fence (text : string) :
  str_in fence text = false -> str_in json_fence text = false.
Proof.
  induction text as [|x text IH]; intros H; rewrite str_in_unfold in H;
    rewrite str_in_unfold; apply orb_false_iff in H as [Hhere Hlater].
  - reflexivity.
  - rewrite (IH Hlater), orb_false_r.
    destruct (starts_with json_fence (String x text)) eqn:E; [|reflexivity].
    apply (starts_with_shorter fence "json") in E. congruence.
Qed.

Lemma remove_code_fence_none (text : string) :
  str_in fence text = false -> remove_code_fence text = text.
Proof.
  intros H. unfold remove_code_fence.
  now rewrite (no_fence_no_json_fence text H), H.
Qed.

(** A text without any fence: what is said of the text that is left is
    said of the text itself. *)
Lemma array_first_without_fence (pre mid post : string) :
  str_in "```" (pre ++ "[" ++ mid ++ "]" ++ post) = false ->
  str_in "[" pre = false ->
  str_in "{" pre = false ->
  str_in "]" post = false ->
  extract_json_from_text (pre ++ "[" ++ mid ++ "]" ++ post)
  = "[" ++ mid ++ "]".
Proof.
  intros Hfence Hb Hc Hd.
  rewrite extract_of_nonempty by (destruct pre; discriminate).
  rewrite remove_code_fence_none by assumption.
  now apply select_array_span.
Qed.

(** C3, as amended.  The positions are looked up in the text that lines
    79-91 leave, [remove_code_fence text]: the trimmed text between the
    first [```json] and the next [```] when the text has a [```json] and a
    fence follows it; else the trimmed text between the first [```] and
    the next when the text has no [```json] and two fences; else the text
    itself.  When that text reads [pre ++ "[" ++ mid ++ "]" ++ post], with
    no bracket and no brace in [pre] (the bracket comes first) and no
    closing bracket in [post] (it is the last one), the array span [[mid]]
    is returned. *)
Theorem array_first_gives_array_span (text pre mid post : string) :
  remove_code_fence text = pre ++ "[" ++ mid ++ "]" ++ post ->
  str_in "[" pre = false ->
  str_in "{" pre = false ->
  str_in "]" post = false ->
  extract_json_from_text text = "[" ++ mid ++ "]".
Proof.
  intros Hrest Hb Hc Hd.
  rewrite extract_of_nonempty.
  - rewrite Hrest. now apply select_array_span.
  - intros ->. destruct pre; discriminate.
Qed.

Lemma array_first_example :
  extract_json_from_text "Records: [1, {2}, 3] (three)" = "[1, {2}, 3]".
Proof.
  apply (array_first_gives_array_span _ "Records: " "1, {2}, 3" " (three)");
    reflexivity.
Defined.

(** C3, as stated, fails: in [[ {"a": 1}] the bracket comes before the
    brace, there is no closing bracket, and the object span is returned;
    in [[1] ```json {"a": 1} ```] the bracket comes first in the text, and
    the object of the fenced block is returned. *)
Lemma array_first_returns_object_span :
  (let text := "[ {" ++ dq ++ "a" ++ dq ++ ": 1}" in
   find text "[" 0 = 0 /\ find text "{" 0 = 2 /\ rfind text "]" = -1
   /\ extract_json_from_text text = "{" ++ dq ++ "a" ++ dq ++ ": 1}"
   /\ extract_json_from_text text
      = slice text (find text "{" 0) (rfind text "}" + 1))
  /\ (let text := "[1] ```json {" ++ dq ++ "a" ++ dq ++ ": 1} ```" in
      find text "[" 0 = 0 /\ find text "{" 0 = 12 /\ rfind text "]" = 2
      /\ extract_json_from_text text = "{" ++ dq ++ "a" ++ dq ++ ": 1}").
Proof. vm_compute. repeat split. Qed.

(** ** profile_extractor.py: the fallback profile *)



(** *** The budget pattern *)




Lemma match_currency_complete (w post : string) :
  currency_word w -> match_currency (w ++ post) = true.
Proof. intros [-> | [-> | ->]]; reflexivity. Qed.















Lemma fallback_budget_example :
  py_getitem
    (create_fallback_profile "My budget is around 8000 rupees per month")
    "budget_inr_per_month" = Ok (JInt 8000).
Proof. reflexivity. Qed.



(** ** profile_extractor.py: the retry loop *)

Lemma call_llm_loop_all_fail (rt : runtime) (n todo attempt : nat) :
  (attempt + S todo = n)%nat ->
  (forall a, (a < n)%nat -> exists e, backend rt a = Raise e) ->
  exists e,
    backend rt (n - 1) = Raise e
    /\ call_llm_loop rt (Z.of_nat n) (S todo) attempt
       = (flat_map (failed_attempt n) (seq attempt (S todo)), Raise e).
Proof.
  intros Hn Hfail. revert attempt Hn.
  induction todo as [|todo IH]; intros attempt Hn.
  - destruct (Hfail attempt ltac:(lia)) as [e He].
    exists e. replace (n - 1)%nat with attempt by lia. split; [assumption|].
    cbn [call_llm_loop]. rewrite He.
    destruct (Z.eqb_spec (Z.of_nat attempt) (Z.of_nat n - 1)); [|lia].
    cbn [seq flat_map]. unfold failed_attempt.
    destruct (Nat.ltb_spec (S attempt) n); [lia|]. reflexivity.
  - destruct (Hfail attempt ltac:(lia)) as [e He].
    destruct (IH (S attempt) ltac:(lia)) as (e' & Hlast & Hloop).
    exists e'. split; [assumption|].
    change (call_llm_loop rt (Z.of_nat n) (S (S todo)) attempt)
      with (match backend rt attempt with
            | Ok content => ([Request attempt], Ok content)
            | Raise e =>
                if Z.of_nat attempt =? Z.of_nat n - 1
                then ([Request attempt], Raise e)
                else
                  let '(trace, r) :=
                    call_llm_loop rt (Z.of_nat n) (S todo) (S attempt) in
                  (Request attempt :: Sleep 2 :: trace, r)
            end).
    rewrite He, Hloop.
    destruct (Z.eqb_spec (Z.of_nat attempt) (Z.of_nat n - 1)); [lia|].
    change (seq attempt (S (S todo)))
      with (attempt :: seq (S attempt) (S todo)).
    cbn [flat_map]. unfold failed_attempt at 2.
    destruct (Nat.ltb_spec (S attempt) n); [|lia]. reflexivity.
Qed.

Lemma requests_of_failed_run (n a k : nat) :
  List.length (filter is_request (flat_map (failed_attempt n) (seq a k))) = k.
Proof.
  revert a. induction k as [|k IH]; intros a; [reflexivity|].
  cbn [seq flat_map]. rewrite filter_app, List.length_app, IH.
  unfold failed_attempt. now destruct (S a <? n)%nat.
Qed.

Lemma pauses_of_failed_run (n a k : nat) :
  (a + k = n)%nat ->
  List.length (filter is_pause (flat_map (failed_attempt n) (seq a k)))
  = (k - 1)%nat.
Proof.
  revert a. induction k as [|k IH]; intros a Hn; [reflexivity|].
  cbn [seq flat_map]. rewrite filter_app, List.length_app, IH by lia.
  unfold failed_attempt.
  destruct (Nat.ltb_spec (S a) n); simpl; lia.
Qed.

(** C9.  With a key in the environment, [retries] at least 1 and every
    attempt failing, [call_llm] asks the backend [retries] times, pauses
    two seconds after each failure but the last, and raises the error of
    the last attempt. *)
Theorem call_llm_retries_then_raises (rt : runtime) (retries : Z)
  (key : string) :
  api_key rt = Some key -> key <> "" ->
  1 <= retries ->
  (forall attempt,
      Z.of_nat attempt < retries -> exists e, backend rt attempt = Raise e) ->
  exists e trace,
    backend rt (Z.to_nat (retries - 1)) = Raise e
    /\ call_llm rt retries = (trace, Raise e)
    /\ trace = failed_run (Z.to_nat retries)
    /\ count (filter is_request trace) = retries
    /\ count (filter is_pause trace) = retries - 1.
Proof.
  intros Hkey Hne Hpos Hfail.
  set (n := Z.to_nat retries).
  assert (Hn : retries = Z.of_nat n) by (unfold n; lia).
  destruct (call_llm_loop_all_fail rt n (n - 1) 0) as (e & Hlast & Hloop).
  - lia.
  - intros a Ha. apply Hfail. lia.
  - exists e, (failed_run n). split.
    + replace (Z.to_nat (retries - 1)) with (n - 1)%nat by lia. exact Hlast.
    + split.
      * unfold call_llm. rewrite Hkey.
        destruct key as [|c key]; [congruence|].
        rewrite Hn, Nat2Z.id.
        replace n with (S (n - 1)) at 2 by lia. rewrite Hloop.
        unfold failed_run. now replace (S (n - 1)) with n by lia.
      * split; [reflexivity|]. unfold failed_run, count.
        rewrite requests_of_failed_run, pauses_of_failed_run by lia.
        lia.
Qed.

(** With the default [retries=2] and a backend that is down: two requests,
    one pause, and the second error. *)
Lemma call_llm_backend_down :
  exists e trace,
    backend backend_down (Z.to_nat (2 - 1)) = Raise e
    /\ call_llm backend_down 2 = (trace, Raise e)
    /\ trace = failed_run (Z.to_nat 2)
    /\ count (filter is_request trace) = 2
    /\ count (filter is_pause trace) = 2 - 1.
Proof.
  apply (call_llm_retries_then_raises backend_down 2 "gsk-key").
  - reflexivity.
  - discriminate.
  - lia.
  - intros attempt _. eexists. reflexivity.
Defined.

Lemma call_llm_backend_down_run :
  call_llm backend_down 2
  = ([Request 0%nat; Sleep 2; Request 1%nat], Raise (BackendError 1)).
Proof. reflexivity. Qed.

(** Outside the premise of C9: with [retries=0] nothing is asked and
    [None] is returned. *)
Lemma call_llm_without_attempts :
  call_llm backend_down 0 = ([], Ok None).
Proof. reflexivity. Qed.

(** ** profile_extractor.py: the profile that is returned *)

Lemma dict_get_set_same (d : dict) (k : string) (v : json) :
  dict_get (dict_set d k v) k = Some v.
Proof.
  induction d as [|[k0 v0] d IH]; simpl.
  - now rewrite String.eqb_refl.
  - destruct (String.eqb k0 k) eqn:E; simpl; now rewrite E.
Qed.

Lemma dict_get_set_other (d : dict) (k k' : string) (v : json) :
  String.eqb k k' = false ->
  dict_get (dict_set d k v) k' = dict_get d k'.
Proof.
  intros Hk. induction d as [|[k0 v0] d IH]; simpl.
  - now rewrite Hk.
  - destruct (String.eqb k0 k) eqn:E; simpl.
    + apply String.eqb_eq in E. subst k0. now rewrite Hk.
    + now rewrite IH.
Qed.

Lemma keys_map_values (f : json -> json) (d : dict) :
  keys (map (fun kv => (fst kv, f (snd kv))) d) = keys d.
Proof. unfold keys. rewrite map_map. reflexivity. Qed.

Lemma setitem_keeps_stack (p q : json) (k : string) (v : json) :
  String.eqb k "tech_stack" = false ->
  py_setitem p k v = Ok q ->
  py_getitem q "tech_stack" = py_getitem p "tech_stack".
Proof.
  intros Hk. destruct p; simpl; try discriminate.
  intros [= <-]. simpl. now rewrite dict_get_set_other.
Qed.

Lemma fix_name_keeps_stack (p q : json) :
  fix_name p = Ok q ->
  py_getitem q "tech_stack" = py_getitem p "tech_stack".
Proof.
  unfold fix_name, bind.
  destruct (py_contains p "name") as [[] |]; simpl; try discriminate.
  - now intros [= <-].
  - now apply setitem_keeps_stack.
Qed.

Lemma fix_budget_keeps_stack (rt : runtime) (p q : json) :
  fix_budget rt p = Ok q ->
  py_getitem q "tech_stack" = py_getitem p "tech_stack".
Proof.
  unfold fix_budget, bind.
  destruct (py_contains p "budget_inr_per_month") as [[] |]; simpl;
    try discriminate.
  - destruct (py_getitem p "budget_inr_per_month"); [|discriminate].
    destruct (float_of_text_of rt a); [|discriminate].
    now apply setitem_keeps_stack.
  - now apply setitem_keeps_stack.
Qed.

Lemma fix_description_keeps_stack (description : string) (p q : json) :
  fix_description description p = Ok q ->
  py_getitem q "tech_stack" = py_getitem p "tech_stack".
Proof.
  unfold fix_description, bind.
  destruct (py_contains p "description") as [[] |]; simpl; try discriminate.
  - now intros [= <-].
  - now apply setitem_keeps_stack.
Qed.

Lemma fix_requirements_keeps_stack (p q : json) :
  fix_requirements p = Ok q ->
  py_getitem q "tech_stack" = py_getitem p "tech_stack".
Proof.
  unfold fix_requirements, bind.
  destruct (py_contains p "non_functional_requirements") as [[] |]; simpl;
    try discriminate.
  - destruct (py_getitem p "non_functional_requirements") as [nfr|];
      [|discriminate].
    destruct (is_list nfr); simpl.
    + now intros [= <-].
    + now apply setitem_keeps_stack.
  - now apply setitem_keeps_stack.
Qed.

Lemma setitem_stack (p q v : json) :
  py_setitem p "tech_stack" v = Ok q -> py_getitem q "tech_stack" = Ok v.
Proof.
  destruct p; simpl; try discriminate.
  intros [= <-]. simpl. now rewrite dict_get_set_same.
Qed.

Lemma fix_tech_stack_gives_mapping (p q : json) :
  fix_tech_stack p = Ok q ->
  exists ts,
    py_getitem q "tech_stack" = Ok (JObj ts)
    /\ (keys ts = tech_stack_keys
        \/ py_getitem p "tech_stack" = Ok (JObj ts)).
Proof.
  unfold fix_tech_stack, bind.
  destruct (py_contains p "tech_stack") as [[] |]; simpl; try discriminate.
  - destruct (py_getitem p "tech_stack") as [ts|] eqn:E; [|discriminate].
    destruct ts; simpl; intros H;
      try (apply setitem_stack in H; eexists; split; [exact H | now left]).
    injection H as <-. eexists. split; [exact E | now right].
  - intros H. apply setitem_stack in H. eexists. split; [exact H | now left].
Qed.

Lemma lower_tech_stack_keeps_keys (p q : json) :
  lower_tech_stack p = Ok q ->
  exists ts ts',
    py_getitem p "tech_stack" = Ok (JObj ts)
    /\ py_getitem q "tech_stack" = Ok (JObj ts')
    /\ keys ts' = keys ts.
Proof.
  unfold lower_tech_stack, bind.
  destruct (py_getitem p "tech_stack") as [ts|]; [|discriminate].
  destruct ts; simpl; try discriminate.
  intros H. apply setitem_stack in H.
  eexists. eexists. split; [reflexivity|]. split; [exact H|].
  apply keys_map_values.
Qed.

(** The tech stack of a profile that passed the checks: a mapping with the
    five keys, or with the keys of the mapping that was parsed. *)
Lemma validate_profile_stack (rt : runtime) (description : string)
  (parsed profile : json) :
  validate_profile rt description parsed = Ok profile ->
  exists ts,
    py_getitem profile "tech_stack" = Ok (JObj ts)
    /\ (keys ts = tech_stack_keys
        \/ exists ts0,
             py_getitem parsed "tech_stack" = Ok (JObj ts0)
             /\ keys ts = keys ts0).
Proof.
  unfold validate_profile, bind.
  destruct (fix_name parsed) as [p1|] eqn:E1; [|discriminate].
  destruct (fix_budget rt p1) as [p2|] eqn:E2; [|discriminate].
  destruct (fix_description description p2) as [p3|] eqn:E3; [|discriminate].
  destruct (fix_tech_stack p3) as [p4|] eqn:E4; [|discriminate].
  destruct (fix_requirements p4) as [p5|] eqn:E5; [|discriminate].
  intros E6.
  apply fix_name_keeps_stack in E1. apply fix_budget_keeps_stack in E2.
  apply fix_description_keeps_stack in E3.
  apply fix_tech_stack_gives_mapping in E4 as (ts4 & Hts4 & Hkeys).
  apply fix_requirements_keeps_stack in E5.
  apply lower_tech_stack_keeps_keys in E6 as (ts & ts' & Hts & Hts' & Hsame).
  rewrite E5, Hts4 in Hts. injection Hts as <-.
  exists ts'. split; [assumption|].
  destruct Hkeys as [Hfive | Hparsed].
  - left. congruence.
  - right. exists ts4. split; [|assumption]. congruence.
Qed.

Lemma fix_tech_stack_keeps_mapping (p q : json) (ts : dict) :
  fix_tech_stack p = Ok q ->
  py_getitem p "tech_stack" = Ok (JObj ts) -> q = p.
Proof.
  unfold fix_tech_stack, bind. intros H Hts.
  destruct p as [| | | | | |d]; try discriminate.
  cbn [py_contains py_getitem] in *. unfold dict_has in H.
  destruct (dict_get d "tech_stack") as [v|]; [|discriminate].
  injection Hts as ->. cbn in H. congruence.
Qed.

Lemma lower_tech_stack_value (p q : json) (ts : dict) :
  lower_tech_stack p = Ok q ->
  py_getitem p "tech_stack" = Ok (JObj ts) ->
  py_getitem q "tech_stack"
  = Ok (JObj (map (fun kv => (fst kv, lower_if_str (snd kv))) ts)).
Proof.
  unfold lower_tech_stack, bind. intros H Hts. rewrite Hts in H.
  cbn [normalize_tech_stack] in H. now apply setitem_stack in H.
Qed.

Lemma validate_profile_keeps_mapping (rt : runtime) (description : string)
  (parsed profile : json) (ts0 : dict) :
  validate_profile rt description parsed = Ok profile ->
  py_getitem parsed "tech_stack" = Ok (JObj ts0) ->
  py_getitem profile "tech_stack"
  = Ok (JObj (map (fun kv => (fst kv, lower_if_str (snd kv))) ts0)).
Proof.
  intros Hvalid Hts. unfold validate_profile, bind in Hvalid.
  destruct (fix_name parsed) as [p1|] eqn:E1; [|discriminate].
  destruct (fix_budget rt p1) as [p2|] eqn:E2; [|discriminate].
  destruct (fix_description description p2) as [p3|] eqn:E3;
    [|discriminate].
  destruct (fix_tech_stack p3) as [p4|] eqn:E4; [|discriminate].
  destruct (fix_requirements p4) as [p5|] eqn:E5; [|discriminate].
  apply fix_name_keeps_stack in E1. apply fix_budget_keeps_stack in E2.
  apply fix_description_keeps_stack in E3.
  apply fix_requirements_keeps_stack in E5.
  assert (H3 : py_getitem p3 "tech_stack" = Ok (JObj ts0)) by congruence.
  apply (fix_tech_stack_keeps_mapping _ _ ts0) in E4; [|assumption].
  subst p4. apply (lower_tech_stack_value _ _ ts0) in Hvalid; congruence.
Qed.

Lemma fallback_budget_call_value (desc_lower : string) (budget : Z) :
  fallback_budget_call desc_lower = Ok budget ->
  budget = fallback_budget desc_lower.
Proof.
  unfold fallback_budget_call, fallback_budget, py_int.
  destruct (str_in "budget" desc_lower); [|congruence].
  destruct (search_budget desc_lower) as [g|]; [|congruence].
  destruct (int_max_str_digits <? len g); congruence.
Qed.

(** When the call of [create_fallback_profile] returns, it returns the
    profile that is built. *)
Lemma create_fallback_profile_call_value (description : string)
  (profile : json) :
  create_fallback_profile_call description = Ok profile ->
  profile = create_fallback_profile description.
Proof.
  unfold create_fallback_profile_call, bind.
  destruct (fallback_budget_call (lower description)) as [budget|] eqn:E;
    [|discriminate].
  destruct (format_2f (PInt budget)) as [[]|]; [|discriminate].
  intros [= <-]. apply fallback_budget_call_value in E. now subst budget.
Qed.

(** It returns whenever the budget has no more digits than [int] reads and
    can be written as a float. *)
Lemma create_fallback_profile_call_returns (description : string)
  (budget : Z) :
  fallback_budget_call (lower description) = Ok budget ->
  format_2f (PInt budget) = Ok tt ->
  create_fallback_profile_call description
  = Ok (create_fallback_profile description).
Proof.
  intros Hbudget Hformat. unfold create_fallback_profile_call, bind.
  rewrite Hbudget, Hformat. apply fallback_budget_call_value in Hbudget.
  now subst budget.
Qed.

(** When the call of [extract_project_profile] returns, it returns what
    [extract_project_profile] says. *)
Lemma extract_project_profile_call_value (rt : runtime)
  (description : string) (profile : json) :
  extract_project_profile_call rt description = Ok profile ->
  extract_project_profile rt description = Ok profile.
Proof.
  unfold extract_project_profile_call, extract_project_profile.
  destruct (profile_from_model rt description) as [p|e]; [trivial|].
  intros H. assert (H' : create_fallback_profile_call description = Ok profile)
    by (now destruct e).
  apply create_fallback_profile_call_value in H'. subst profile.
  now destruct e.
Qed.

(** C4, as amended.  A profile that the call returns has a tech stack that
    is a mapping.  On the fallback path its keys are the five fixed keys.
    On the model path, when the answer's tech stack is a mapping, it is
    that mapping with its own keys, whatever they are, and its text values
    lowercased; when the answer has no tech stack, or one that is no
    mapping, its keys are the five fixed keys. *)
Theorem tech_stack_of_extracted_profile (rt : runtime)
  (description : string) (profile : json) :
  extract_project_profile_call rt description = Ok profile ->
  exists ts,
    py_getitem profile "tech_stack" = Ok (JObj ts)
    /\ (forall e,
           profile_from_model rt description = Raise e ->
           keys ts = tech_stack_keys)
    /\ (forall response parsed checked,
           llm_response rt = Ok response ->
           json_loads rt (extract_json_from_response response) = Ok parsed ->
           validate_profile rt description parsed = Ok checked ->
           profile = checked
           /\ (forall ts0,
                  py_getitem parsed "tech_stack" = Ok (JObj ts0) ->
                  ts = map (fun kv => (fst kv, lower_if_str (snd kv))) ts0
                  /\ keys ts = keys ts0)
           /\ ((forall ts0, py_getitem parsed "tech_stack" <> Ok (JObj ts0)) ->
               keys ts = tech_stack_keys)).
Proof.
  intros Hcall. unfold extract_project_profile_call in Hcall.
  destruct (profile_from_model rt description) as [p|e] eqn:E.
  - injection Hcall as ->.
    unfold profile_from_model, bind in E.
    destruct (llm_response rt) as [response|] eqn:Hr; [|discriminate].
    destruct (json_loads rt (extract_json_from_response response))
      as [parsed|] eqn:Hp; [|discriminate].
    destruct (validate_profile_stack _ _ _ _ E) as (ts & Hts & Hkeys).
    exists ts. split; [assumption|]. split; [discriminate|].
    intros response' parsed' checked [= <-] Hp' Hchecked.
    rewrite Hp in Hp'. injection Hp' as <-.
    split; [congruence|]. split.
    + intros ts0 Hts0.
      pose proof (validate_profile_keeps_mapping _ _ _ _ _ E Hts0) as Hmap.
      rewrite Hts in Hmap. injection Hmap as ->.
      split; [reflexivity | apply keys_map_values].
    + intros Hnone. destruct Hkeys as [Hfive | (ts0 & Hts0 & _)];
        [assumption | now destruct (Hnone ts0)].
  - assert (Hfallback : create_fallback_profile_call description = Ok profile)
      by (now destruct e).
    apply create_fallback_profile_call_value in Hfallback. subst profile.
    eexists. split; [reflexivity|]. split; [reflexivity|].
    intros response parsed checked Hresponse Hparsed Hchecked.
    unfold profile_from_model, bind in E.
    rewrite Hresponse, Hparsed, Hchecked in E. discriminate.
Qed.

(** A model that answers [{"tech_stack": {"frontend": "React"}}]. *)
Lemma tech_stack_of_model_answer :
  let text :=
    "{" ++ dq ++ "tech_stack" ++ dq ++ ": {" ++ dq ++ "frontend" ++ dq
    ++ ": " ++ dq ++ "React" ++ dq ++ "}}" in
  let parsed := JObj [("tech_stack", JObj [("frontend", JStr "React")])] in
  let profile :=
    JObj [("tech_stack", JObj [("frontend", JStr "react")]);
          ("name", JStr "Cloud Project");
          ("budget_inr_per_month", JInt 5000);
          ("description", JStr "A web shop");
          ("non_functional_requirements", JArr [])] in
  extract_project_profile_call (answering text parsed) "A web shop"
  = Ok profile
  /\ py_getitem profile "tech_stack" = Ok (JObj [("frontend", JStr "react")])
  /\ exists ts,
       py_getitem profile "tech_stack" = Ok (JObj ts)
       /\ (forall ts0,
              py_getitem parsed "tech_stack" = Ok (JObj ts0) ->
              ts = map (fun kv => (fst kv, lower_if_str (snd kv))) ts0
              /\ keys ts = keys ts0).
Proof.
  intros text parsed profile.
  assert (Hcall : extract_project_profile_call (answering text parsed)
                    "A web shop" = Ok profile)
    by (vm_compute; reflexivity).
  split; [exact Hcall|]. split; [reflexivity|].
  destruct (tech_stack_of_extracted_profile _ _ _ Hcall)
    as (ts & Hts & _ & Hmodel).
  exists ts. split; [assumption|].
  apply (Hmodel (Some text) parsed profile); vm_compute; reflexivity.
Defined.

(** C4, as stated, fails: a model that answers
    [{"tech_stack": {"frontend": "React"}}] gets a profile whose tech stack
    has the one key it gave. *)
Lemma tech_stack_with_one_key :
  let text :=
    "{" ++ dq ++ "tech_stack" ++ dq ++ ": {" ++ dq ++ "frontend" ++ dq
    ++ ": " ++ dq ++ "React" ++ dq ++ "}}" in
  let parsed := JObj [("tech_stack", JObj [("frontend", JStr "React")])] in
  extract_project_profile_call (answering text parsed) "A web shop"
  = Ok (JObj [("tech_stack", JObj [("frontend", JStr "react")]);
              ("name", JStr "Cloud Project");
              ("budget_inr_per_month", JInt 5000);
              ("description", JStr "A web shop");
              ("non_functional_requirements", JArr [])])
  /\ keys [("frontend", JStr "react")] = ["frontend"].
Proof. vm_compute. split; reflexivity. Qed.

(** What the call of [extract_project_profile] does: it returns the checked
    profile of the model when there is one; on every failure of the model
    call, of the decoding or of the checks it answers with the call of
    [create_fallback_profile], which returns the fallback profile whenever
    the budget it finds can be read by [int] and written with [,.2f]. *)
Lemma extract_project_profile_call_falls_back (rt : runtime)
  (description : string) :
  (forall profile,
      profile_from_model rt description = Ok profile ->
      extract_project_profile_call rt description = Ok profile)
  /\ (forall e,
         profile_from_model rt description = Raise e ->
         extract_project_profile_call rt description
         = create_fallback_profile_call description)
  /\ (forall budget,
         fallback_budget_call (lower description) = Ok budget ->
         format_2f (PInt budget) = Ok tt ->
         create_fallback_profile_call description
         = Ok (create_fallback_profile description)).
Proof.
  unfold extract_project_profile_call. repeat split.
  - now intros profile ->.
  - intros e ->. now destruct e.
  - intros budget. apply create_fallback_profile_call_returns.
Qed.

(** C6: where it fails.  For a description whose budget has 310 digits, the
    model call fails without a key, and so does the decoding of an answer
    that is no JSON; the handler calls [create_fallback_profile], which
    finds the budget [10^309] and, writing it on line 225, raises
    OverflowError out of the handler. *)
Theorem huge_budget_defeats_the_fallback :
  profile_from_model no_key huge_budget_description = Raise ValueError
  /\ profile_from_model (babbling "I cannot help") huge_budget_description
     = Raise JSONDecodeError
  /\ fallback_budget_call (lower huge_budget_description) = Ok (10 ^ 309)
  /\ format_2f (PInt (10 ^ 309)) = Raise OverflowError
  /\ create_fallback_profile_call huge_budget_description
     = Raise OverflowError
  /\ extract_project_profile_call no_key huge_budget_description
     = Raise OverflowError
  /\ extract_project_profile_call (babbling "I cannot help")
       huge_budget_description
     = Raise OverflowError.
Proof. repeat split; vm_compute; reflexivity. Qed.

(** ** billing_generator.py *)

Lemma valid_billing_records_count (rt : runtime) (records valid : list json) :
  valid_billing_records rt records = Ok valid ->
  List.length valid = List.length (filter (survives rt) records).
Proof.
  revert valid. induction records as [|r records IH]; intros valid.
  - now intros [= <-].
  - cbn [valid_billing_records filter]. unfold survives at 1.
    destruct (check_billing_record rt r) as [r'|e].
    + unfold bind.
      destruct (valid_billing_records rt records) as [rest|]; [|discriminate].
      intros [= <-]. simpl. now rewrite (IH rest).
    + destruct e; try discriminate; apply IH.
Qed.

Lemma filter_firstn_length (A : Type) (f : A -> bool) (n : nat) (l : list A) :
  (List.length (filter f (firstn n l)) <= List.length (filter f l))%nat.
Proof.
  revert n. induction l as [|a l IH]; intros [|n]; simpl; try lia.
  specialize (IH n). destruct (f a); simpl; lia.
Qed.

Lemma valid_billing_records_error (rt : runtime) (records : list json)
  (e : exn) :
  valid_billing_records rt records = Raise e -> e <> JSONDecodeError.
Proof.
  induction records as [|r records IH]; cbn [valid_billing_records];
    [discriminate|].
  destruct (check_billing_record rt r) as [r'|e'].
  - unfold bind.
    destruct (valid_billing_records rt records) as [rest|e0];
      [discriminate|].
    intros [= <-]. now apply IH.
  - destruct e'; try exact IH; intros [= <-]; discriminate.
Qed.

(** Once the answer is decoded, the first handler is out of reach. *)
Lemma billing_from_decoded_text (rt : runtime) (json_text : string)
  (decoded : json) :
  json_loads rt json_text = Ok decoded ->
  billing_from_text rt json_text <> Raise JSONDecodeError.
Proof.
  intros Hdecoded. unfold billing_from_text, bind. rewrite Hdecoded.
  destruct decoded as [| | | | |records|]; try discriminate.
  destruct (count records <? 12); [discriminate|].
  destruct (valid_billing_records rt _) as [valid|e] eqn:E.
  - destruct (count valid <? 12); discriminate.
  - intros [= ->]. now apply valid_billing_records_error in E.
Qed.

(** C5.  When the answer decodes to a list of which fewer than 12 records
    pass the checks, [generate_mock_billing] raises. *)
Theorem short_billing_batch_is_rejected (rt : runtime)
  (response : option string) (records : list json) :
  llm_response rt = Ok response ->
  json_loads rt (extract_json_from_response response) = Ok (JArr records) ->
  count (filter (survives rt) records) < 12 ->
  generate_mock_billing rt = Raise ValueError.
Proof.
  intros Hresponse Hparsed Hfew.
  unfold generate_mock_billing, bind. rewrite Hresponse.
  pose proof (billing_from_decoded_text rt _ _ Hparsed) as Hreach.
  destruct (billing_from_text rt (extract_json_from_response response))
    as [v|e] eqn:Hrun; [|destruct e; congruence].
  exfalso. unfold billing_from_text, bind in Hrun. rewrite Hparsed in Hrun.
  destruct (count records <? 12); [discriminate|].
  set (seen := if 20 <? count records then firstn 20 records else records)
    in Hrun.
  destruct (valid_billing_records rt seen) as [valid|e] eqn:E;
    [|discriminate].
  apply valid_billing_records_count in E.
  assert (Hle : (List.length (filter (survives rt) seen)
                 <= List.length (filter (survives rt) records))%nat).
  { unfold seen. destruct (20 <? count records); [|lia].
    apply filter_firstn_length. }
  unfold count in *.
  destruct (Z.ltb_spec (Z.of_nat (List.length valid)) 12);
    [discriminate | lia].
Qed.

(** The example of the specification: ten records that pass and five that
    lack a field. *)
Lemma ten_of_fifteen_is_rejected :
  generate_mock_billing
    (answering_json
       (JArr (repeat good_record 10 ++ repeat record_without_desc 5)))
  = Raise ValueError.
Proof.
  apply (short_billing_batch_is_rejected _
           (Some (dumps (JArr (repeat good_record 10
                               ++ repeat record_without_desc 5))))
           (repeat good_record 10 ++ repeat record_without_desc 5)).
  - reflexivity.
  - vm_compute. reflexivity.
  - vm_compute. reflexivity.
Defined.

Lemma check_fields_present (record : json) (fields : list string) :
  check_fields record fields = Ok tt ->
  forall field, In field fields -> py_contains record field = Ok true.
Proof.
  induction fields as [|f fields IH]; simpl; [contradiction|].
  unfold bind. destruct (py_contains record f) as [[] |] eqn:E; simpl;
    try discriminate.
  intros H field [<- | Hin]; [assumption | now apply IH].
Qed.

Lemma dict_has_set (d : dict) (k k' : string) (v : json) :
  dict_has d k' = true -> dict_has (dict_set d k v) k' = true.
Proof.
  unfold dict_has. destruct (String.eqb k k') eqn:E.
  - apply String.eqb_eq in E. subst k'. now rewrite dict_get_set_same.
  - now rewrite dict_get_set_other.
Qed.

Lemma coerce_number_gives_number (rt : runtime) (record record' : json)
  (field : string) :
  coerce_number rt record field = Ok record' ->
  exists d d' v,
    record = JObj d /\ record' = JObj d'
    /\ dict_get d' field = Some v /\ is_number v = true
    /\ (forall k, dict_has d k = true -> dict_has d' k = true)
    /\ (forall k, String.eqb field k = false -> dict_get d' k = dict_get d k).
Proof.
  unfold coerce_number, bind.
  destruct record as [| | | | | |d]; simpl; try discriminate.
  destruct (dict_get d field) as [v|] eqn:E; [|discriminate].
  destruct (is_number v) eqn:Hv.
  - intros [= <-]. exists d, d, v. auto 7.
  - destruct (float_of_text_of rt v) as [f|]; [|discriminate].
    intros [= <-]. exists d, (dict_set d field (JFloat f)), (JFloat f).
    repeat split; auto using dict_get_set_same, dict_has_set,
                            dict_get_set_other.
Qed.

Lemma check_billing_record_checked (rt : runtime) (record record' : json) :
  check_billing_record rt record = Ok record' -> checked_record record'.
Proof.
  unfold check_billing_record, bind.
  destruct (check_fields record billing_fields) as [[]|] eqn:Hfields;
    [|discriminate].
  destruct (coerce_number rt record "cost_inr") as [r1|] eqn:E1;
    [|discriminate].
  destruct (py_getitem r1 "cost_inr") as [cost|] eqn:Hcost; [|discriminate].
  destruct (is_negative cost) as [[] |] eqn:Hneg; try discriminate.
  intros E2.
  apply coerce_number_gives_number in E1
    as (d & d1 & c & -> & -> & Hc & Hnum & Hkeep1 & Hsame1).
  apply coerce_number_gives_number in E2
    as (d1' & d2 & q & [= <-] & -> & Hq & Hqnum & Hkeep2 & Hsame2).
  simpl in Hcost. rewrite Hc in Hcost. injection Hcost as <-.
  repeat split.
  - intros field Hin.
    pose proof (check_fields_present _ _ Hfields field Hin) as Hin'.
    simpl in *. injection Hin' as Hin'. f_equal. auto.
  - exists c. simpl. rewrite Hsame2 by reflexivity. rewrite Hc. auto.
  - exists q. simpl. rewrite Hq. auto.
Qed.

Lemma valid_billing_records_checked (rt : runtime)
  (records valid : list json) :
  valid_billing_records rt records = Ok valid -> Forall checked_record valid.
Proof.
  revert valid. induction records as [|r records IH]; intros valid.
  - intros [= <-]. constructor.
  - cbn [valid_billing_records].
    destruct (check_billing_record rt r) as [r'|e] eqn:E.
    + unfold bind.
      destruct (valid_billing_records rt records) as [rest|]; [|discriminate].
      intros [= <-]. constructor; [|now apply IH].
      now apply check_billing_record_checked in E.
    + destruct e; try discriminate; apply IH.
Qed.

(** The part of C1 that the code does establish: a batch that is returned
    has 12 to 20 records, each with the nine fields, a cost that is a
    number and not below zero, and a quantity that is a number. *)
Lemma returned_records_are_checked (rt : runtime) (valid : list json) :
  generate_mock_billing rt = Ok valid ->
  Forall checked_record valid /\ 12 <= count valid <= 20.
Proof.
  unfold generate_mock_billing, bind.
  destruct (llm_response rt) as [response|]; [|discriminate].
  destruct (billing_from_text rt (extract_json_from_response response))
    as [v|e] eqn:E; [|destruct e, response; discriminate].
  intros [= ->]. unfold billing_from_text, bind in E.
  destruct (json_loads rt (extract_json_from_response response))
    as [[| | | | |records|]|]; try discriminate.
  destruct (count records <? 12); [discriminate|].
  set (seen := if 20 <? count records then firstn 20 records else records)
    in E.
  destruct (valid_billing_records rt seen) as [v|] eqn:Ev; [|discriminate].
  destruct (Z.ltb_spec (count v) 12); [discriminate|].
  injection E as ->. split; [now apply valid_billing_records_checked in Ev|].
  split; [assumption|].
  apply valid_billing_records_count in Ev.
  pose proof (filter_length_le (survives rt) seen) as Hle.
  assert (Hseen : (List.length seen <= 20)%nat).
  { unfold seen, count. destruct (Z.ltb_spec 20 (Z.of_nat (List.length records))).
    - rewrite length_firstn. lia.
    - lia. }
  unfold count. lia.
Qed.

(** C1: where it fails.  A batch of eleven good records and one whose
    [usage_quantity] is 0 is returned whole, and the record with quantity 0
    is one that [validate_billing_record] refuses. *)
Theorem zero_quantity_record_is_returned
  (to_float : string -> option float64) (round : float64 -> float64)
  (add_up : list pynum -> result pynum) :
  let batch := (repeat good_record 11 ++ [idle_record])%list in
  let rt :=
    scenario_with to_float round add_up (Some "gsk-key")
      (fun _ => Ok (Some (dumps (JArr batch))))
      (decoding (dumps (JArr batch)) (JArr batch)) in
  generate_mock_billing rt = Ok batch
  /\ In idle_record batch
  /\ py_getitem idle_record "usage_quantity" = Ok (JInt 0)
  /\ is_at_most_zero (JInt 0) = Ok true
  /\ validate_billing_record idle_record = Ok false
  /\ validate_billing_record good_record = Ok true.
Proof.
  intros batch rt. split; [vm_compute; reflexivity|].
  split; [apply in_or_app; right; now left|].
  repeat split.
Qed.

(** ** cost_analyser.py *)

Lemma float_constants :
  float_of_int 10 = Ok float_10 /\ float_of_int 40 = Ok float_40
  /\ float_of_int 60 = Ok float_60.
Proof. repeat split. Qed.

(** The example of the specification: savings of 500, 1200 and 300 against
    a total cost of 5000. *)
Lemma summarize_example (rt : runtime) :
  summarize rt (PInt 5000) [saving 500; saving 1200; saving 300]
  = Ok (JObj [("total_potential_savings", JInt 2000);
              ("savings_percentage", JFloat (py_round2 rt float_40));
              ("recommendations_count", JInt 3);
              ("high_impact_recommendations", JInt 1)]).
Proof. reflexivity. Qed.

(** What the report holds: the recommendations that passed the checks, and
    the summary of the list as it was decoded, with only its count set to
    the number of those that passed. *)
Lemma report_summary_is_of_the_decoded_list (rt : runtime)
  (total_cost : pynum) (analysis_summary : json) (json_text : string)
  (report : json) :
  report_from_text rt total_cost analysis_summary json_text = Ok report ->
  exists decoded recommendations summary,
    json_loads rt json_text = Ok decoded
    /\ py_getitem decoded "recommendations" = Ok (JArr recommendations)
    /\ summarize rt total_cost recommendations = Ok summary
    /\ py_getitem report "recommendations"
       = Ok (JArr (valid_recommendations rt recommendations))
    /\ py_getitem report "summary"
       = py_setitem summary "recommendations_count"
           (JInt (count (valid_recommendations rt recommendations))).
Proof.
  unfold report_from_text, bind.
  destruct (json_loads rt json_text) as [decoded|]; [|discriminate].
  destruct (py_contains decoded "recommendations") as [[] |]; simpl;
    try discriminate.
  destruct (py_getitem decoded "recommendations")
    as [[| | | | |recs|]|] eqn:Hrecs; try discriminate.
  destruct decoded as [| | | | | |d]; simpl; try discriminate.
  destruct (summarize rt total_cost recs) as [summary|] eqn:Hsum;
    [|discriminate].
  rewrite dict_get_set_other by reflexivity. rewrite dict_get_set_same.
  assert (Hobj : exists fields, summary = JObj fields).
  { unfold summarize, bind in Hsum.
    destruct (each (potential_savings) recs); [|discriminate].
    destruct (py_sum rt a); [|discriminate].
    destruct (if num_gt total_cost (PInt 0) then _ else _); [|discriminate].
    destruct (count_high_impact total_cost a); [|discriminate].
    injection Hsum as <-. eauto. }
  destruct Hobj as [fields ->]. simpl.
  destruct (total_savings_of rt recs) as [total_savings|]; [|discriminate].
  destruct (format_2f total_savings) as [[]|]; [|discriminate].
  simpl. intros [= <-].
  exists (JObj d), recs, (JObj fields). repeat split; try assumption.
  - simpl. rewrite dict_get_set_other by reflexivity.
    now rewrite dict_get_set_same.
  - simpl. now rewrite dict_get_set_same.
Qed.

(** C2: where it fails.  The model answers with a full recommendation that
    saves 100 and one without the required fields that saves 500; the total
    cost is 1000.  The report keeps the first recommendation only, and its
    summary says 600 saved and one high-impact recommendation, where the
    summary of the list it holds says 100 and none. *)
Theorem summary_counts_skipped_recommendations
  (to_float : string -> option float64) (round : float64 -> float64)
  (add_up : list pynum -> result pynum) (analysis_summary : json) :
  let answer :=
    JObj [("recommendations",
           JArr [full_recommendation; bare_recommendation])] in
  let rt :=
    scenario_with to_float round add_up (Some "gsk-key")
      (fun _ => Ok (Some (dumps answer))) (decoding (dumps answer) answer) in
  let billing_data := [JObj [("service", JStr "EC2"); ("cost_inr", JInt 1000)]] in
  total_cost_of rt billing_data = Ok (PInt 1000)
  /\ analyze_costs_and_recommend rt analysis_summary billing_data
     = Ok (JObj
             [("recommendations", JArr [full_recommendation]);
              ("analysis", analysis_summary);
              ("summary",
               JObj [("total_potential_savings", JInt 600);
                     ("savings_percentage", JFloat (round float_60));
                     ("recommendations_count", JInt 1);
                     ("high_impact_recommendations", JInt 1)])])
  /\ summarize rt (PInt 1000) [full_recommendation]
     = Ok (JObj [("total_potential_savings", JInt 100);
                 ("savings_percentage", JFloat (round float_10));
                 ("recommendations_count", JInt 1);
                 ("high_impact_recommendations", JInt 0)]).
Proof.
  intros answer rt billing_data.
  split; [reflexivity|]. split; vm_compute; reflexivity.
Qed.

(** * Further properties *)

(** ** utils.py: [extract_json_from_text] *)

Lemma find_at_none (p s : string) (i : nat) :
  str_in p s = false -> find_at p s i = None.
Proof.
  revert i. induction s as [|x s IH]; intros i H.
  - simpl in *. now rewrite orb_false_r in H; rewrite H.
  - apply str_in_cons in H as [Hhere Hlater].
    rewrite find_at_next by assumption. now apply IH.
Qed.

Lemma find_none (s p : string) : str_in p s = false -> find s p 0 = -1.
Proof. intros H. now rewrite find_from_zero, find_at_none. Qed.

Lemma select_object_span (pre mid post : string) :
  str_in "{" pre = false -> str_in "[" pre = false ->
  str_in "}" post = false ->
  select_json_span (pre ++ "{" ++ mid ++ "}" ++ post) = "{" ++ mid ++ "}".
Proof.
  intros Hc Hb Hd. unfold select_json_span.
  set (t := pre ++ "{" ++ mid ++ "}" ++ post).
  assert (Hstart : find t "{" 0 = len pre)
    by (apply find_first_char; assumption).
  assert (Hend : rfind t "}" = len pre + 1 + len mid).
  { unfold t.
    replace (pre ++ "{" ++ mid ++ "}" ++ post)
      with ((pre ++ "{" ++ mid) ++ String "}" post)
      by (now rewrite app_assoc_str).
    rewrite rfind_last_char by assumption.
    rewrite len_app. change ("{" ++ mid) with (String "{" mid).
    unfold len. simpl String.length. lia. }
  assert (Harr : find t "[" 0 = -1 \/ len pre < find t "[" 0)
    by (apply find_char_later; [assumption | reflexivity]).
  rewrite Hstart, Hend. pose proof (len_nonneg pre). pose proof (len_nonneg mid).
  replace (negb (find t "[" 0 =? -1)
           && ((find t "[" 0 <? len pre) || (len pre =? -1))) with false.
  2:{ destruct Harr as [-> | Hlt]; [reflexivity|].
      destruct (Z.ltb_spec (find t "[" 0) (len pre)); [lia|].
      destruct (Z.eqb_spec (len pre) (-1)); [lia|].
      now rewrite andb_false_r. }
  replace (negb (len pre =? -1)) with true
    by (destruct (Z.eqb_spec (len pre) (-1)); [lia | reflexivity]).
  replace (negb (len pre + 1 + len mid =? -1)) with true
    by (destruct (Z.eqb_spec (len pre + 1 + len mid) (-1)); [lia | reflexivity]).
  replace (len pre <? len pre + 1 + len mid) with true
    by (symmetry; apply Z.ltb_lt; lia).
  cbv beta iota zeta. simpl andb. cbv iota.
  replace (len pre + 1 + len mid + 1) with (len pre + len ("{" ++ mid ++ "}")).
  2:{ change ("{" ++ mid ++ "}") with (String "{" (mid ++ "}")).
      rewrite len_cons, len_app. change (len "}") with 1. lia. }
  unfold t.
  replace (pre ++ "{" ++ mid ++ "}" ++ post)
    with (pre ++ ("{" ++ mid ++ "}") ++ post).
  2:{ simpl. now rewrite app_assoc_str. }
  rewrite slice_middle.
  apply (strip_bracketed mid "{" "}"); reflexivity.
Qed.

Lemma select_without_json (text : string) :
  str_in "[" text = false -> str_in "{" text = false ->
  select_json_span text = strip text.
Proof.
  intros Hb Hc. unfold select_json_span.
  now rewrite (find_none text "[" Hb), (find_none text "{" Hc).
Qed.

(** X1.  The object branch, the counterpart of the array branch: when the
    text that is left once the fenced block is sliced out reads
    [pre ++ "{" ++ mid ++ "}" ++ post], with no brace and no bracket in
    [pre] and no closing brace in [post], the object span [{mid}] is
    returned, the prose around it dropped. *)
Theorem object_first_gives_object_span (text pre mid post : string) :
  remove_code_fence text = pre ++ "{" ++ mid ++ "}" ++ post ->
  str_in "{" pre = false ->
  str_in "[" pre = false ->
  str_in "}" post = false ->
  extract_json_from_text text = "{" ++ mid ++ "}".
Proof.
  intros Hrest Hc Hb Hd.
  rewrite extract_of_nonempty.
  - rewrite Hrest. now apply select_object_span.
  - intros ->. destruct pre; discriminate.
Qed.

Lemma object_first_example :
  extract_json_from_text "Here it is: {[1], 2} - done" = "{[1], 2}".
Proof.
  apply (object_first_gives_object_span _ "Here it is: " "[1], 2" " - done");
    reflexivity.
Defined.

(** X2.  A text in which, once the fenced block is sliced out, there is
    neither a bracket nor a brace is returned as it is, trimmed: nothing
    tells the caller that no JSON was found. *)
Theorem text_without_json_is_trimmed (text rest : string) :
  remove_code_fence text = rest ->
  str_in "[" rest = false ->
  str_in "{" rest = false ->
  extract_json_from_text text = strip rest.
Proof.
  intros Hrest Hb Hc. destruct text as [|x text].
  - cbn in Hrest. subst rest. reflexivity.
  - rewrite extract_of_nonempty by discriminate.
    rewrite Hrest. now apply select_without_json.
Qed.

Lemma text_without_json_example :
  extract_json_from_text "  I cannot help with that. " = "I cannot help with that.".
Proof.
  apply (text_without_json_is_trimmed _ "  I cannot help with that. ");
    reflexivity.
Defined.

Lemma rstrip_cons (c : ascii) (s : string) :
  rstrip (String c s)
  = match rstrip s with
    | EmptyString => if is_space c then EmptyString else String c EmptyString
    | r => String c r
    end.
Proof. reflexivity. Qed.

Lemma rstrip_idempotent (s : string) : rstrip (rstrip s) = rstrip s.
Proof.
  induction s as [|c s IH]; [reflexivity|].
  rewrite rstrip_cons. destruct (rstrip s) as [|d r] eqn:E.
  - destruct (is_space c) eqn:Hc; [reflexivity|].
    rewrite rstrip_cons. cbn [rstrip]. now rewrite Hc.
  - rewrite rstrip_cons, IH. reflexivity.
Qed.

Lemma rstrip_keeps_head (c : ascii) (s : string) :
  is_space c = false -> rstrip (String c s) = String c (rstrip s).
Proof. intros H. cbn [rstrip]. destruct (rstrip s); now rewrite ?H. Qed.

Lemma lstrip_head (s : string) :
  lstrip s = ""
  \/ exists c rest, lstrip s = String c rest /\ is_space c = false.
Proof.
  induction s as [|c s IH]; [now left|].
  cbn [lstrip]. destruct (is_space c) eqn:Hc; [exact IH|].
  right. now exists c, s.
Qed.

Lemma strip_idempotent (s : string) : strip (strip s) = strip s.
Proof.
  unfold strip. destruct (lstrip_head s) as [-> | (c & rest & -> & Hc)].
  - reflexivity.
  - rewrite rstrip_keeps_head by assumption.
    cbn [lstrip]. rewrite Hc.
    rewrite rstrip_keeps_head by assumption.
    now rewrite rstrip_idempotent.
Qed.

Lemma select_json_span_strips (text : string) :
  exists u, select_json_span text = strip u.
Proof.
  unfold select_json_span.
  repeat match goal with
         | |- context [if ?b then _ else _] => destruct b
         end; eexists; reflexivity.
Qed.

(** X3.  Whatever the text, what is returned has no space at either end:
    trimming it again changes nothing. *)
Theorem extracted_text_is_trimmed (text : string) :
  strip (extract_json_from_text text) = extract_json_from_text text.
Proof.
  destruct text as [|x text]; [reflexivity|].
  rewrite extract_of_nonempty by discriminate.
  destruct (select_json_span_strips (remove_code_fence (String x text)))
    as [u ->].
  apply strip_idempotent.
Qed.

Lemma part_of_refl (s : string) : part_of s s.
Proof. exists "", "". now rewrite app_empty_r. Qed.

Lemma part_of_trans (a b c : string) :
  part_of a b -> part_of b c -> part_of a c.
Proof.
  intros (p1 & q1 & ->) (p2 & q2 & ->).
  exists (p2 ++ p1), (q1 ++ q2). now rewrite !app_assoc_str.
Qed.

Lemma take_drop (n : nat) (s : string) : s = take n s ++ drop n s.
Proof.
  revert s. induction n as [|n IH]; intros s; [reflexivity|].
  destruct s as [|c s]; [reflexivity|]. simpl. now rewrite <- IH.
Qed.

Lemma part_of_slice (s : string) (lo hi : Z) : part_of (slice s lo hi) s.
Proof.
  unfold slice.
  set (i := Z.to_nat (clamp (len s) lo)).
  set (n := Z.to_nat (clamp (len s) hi - clamp (len s) lo)).
  exists (take i s), (drop n (drop i s)).
  rewrite <- take_drop. apply take_drop.
Qed.

Lemma part_of_lstrip (s : string) : part_of (lstrip s) s.
Proof.
  induction s as [|c s IH]; [apply part_of_refl|].
  cbn [lstrip]. destruct (is_space c); [|apply part_of_refl].
  apply (part_of_trans _ s); [exact IH|].
  exists (String c ""), "". now rewrite app_empty_r.
Qed.

Lemma rstrip_is_prefix (s : string) : exists ws, s = rstrip s ++ ws.
Proof.
  induction s as [|c s IH]; [now exists ""|].
  rewrite rstrip_cons. destruct IH as (ws & E).
  destruct (rstrip s) as [|d r].
  - destruct (is_space c).
    + now exists (String c s).
    + exists s. reflexivity.
  - exists ws. cbn in *. now rewrite <- E.
Qed.

Lemma part_of_rstrip (s : string) : part_of (rstrip s) s.
Proof. destruct (rstrip_is_prefix s) as (ws & E). now exists "", ws. Qed.

Lemma part_of_strip (s : string) : part_of (strip s) s.
Proof.
  unfold strip.
  apply (part_of_trans _ (lstrip s)); [apply part_of_rstrip | apply part_of_lstrip].
Qed.

Lemma part_of_strip_slice (s : string) (lo hi : Z) :
  part_of (strip (slice s lo hi)) s.
Proof.
  apply (part_of_trans _ (slice s lo hi));
    [apply part_of_strip | apply part_of_slice].
Qed.

Lemma part_of_remove_code_fence (text : string) :
  part_of (remove_code_fence text) text.
Proof.
  unfold remove_code_fence.
  repeat match goal with
         | |- context [if ?b then _ else _] => destruct b
         end;
    first [apply part_of_refl | apply part_of_strip_slice].
Qed.

Lemma part_of_select_json_span (text : string) :
  part_of (select_json_span text) text.
Proof.
  unfold select_json_span.
  repeat match goal with
         | |- context [if ?b then _ else _] => destruct b
         end;
    first [apply part_of_strip | apply part_of_strip_slice].
Qed.

(** X4.  Nothing is made up: what is returned is a contiguous part of the
    text that was given, whatever the text. *)
Theorem extracted_text_is_part_of_the_text (text : string) :
  part_of (extract_json_from_text text) text.
Proof.
  destruct text as [|x text]; [apply part_of_refl|].
  rewrite extract_of_nonempty by discriminate.
  apply (part_of_trans _ (remove_code_fence (String x text)));
    [apply part_of_select_json_span | apply part_of_remove_code_fence].
Qed.

Lemma remove_code_fence_plain (pre body post : string) :
  str_in json_fence (pre ++ fence ++ body ++ fence ++ post) = false ->
  str_in fence (pre ++ "``") = false ->
  str_in fence (body ++ "``") = false ->
  remove_code_fence (pre ++ fence ++ body ++ fence ++ post) = strip body.
Proof.
  intros Hjson Hpre Hbody. unfold remove_code_fence.
  rewrite Hjson, str_in_app.
  assert (Hstart : find (pre ++ fence ++ body ++ fence ++ post) fence 0
                   = len pre).
  { rewrite find_from_zero, find_at_fence by assumption. reflexivity. }
  rewrite Hstart.
  assert (Hlen : len (pre ++ fence) = len pre + 3)
    by (rewrite len_app; reflexivity).
  assert (Hend : find (pre ++ fence ++ body ++ fence ++ post) fence
                   (len pre + 3) = len pre + 3 + len body).
  { rewrite <- Hlen, <- app_assoc_str, find_from.
    rewrite find_at_fence by assumption. unfold index_or_minus_one, len.
    lia. }
  rewrite Hend. pose proof (len_nonneg pre). pose proof (len_nonneg body).
  destruct (Z.eqb_spec (len pre + 3 + len body) (-1)); [lia|].
  cbn [negb]. rewrite <- Hlen, <- app_assoc_str, slice_middle. reflexivity.
Qed.

(** X5.  A block between plain fences, in a text without any [```json]
    marker: when the opening fence is the first of the text ([pre] has no
    fence and does not end in backticks that would run into it), the block
    is closed by the next fence, and its interior is an object or an array
    with spaces around it, exactly that object or array is returned. *)
Theorem plain_fenced_block_is_extracted
  (pre ws1 core ws2 post mid : string) :
  str_in "```json"
    (pre ++ "```" ++ ws1 ++ core ++ ws2 ++ "```" ++ post) = false ->
  str_in "```" (pre ++ "``") = false ->
  all_chars is_space ws1 = true ->
  all_chars is_space ws2 = true ->
  str_in "```" (ws1 ++ core ++ ws2) = false ->
  core = "{" ++ mid ++ "}" \/ core = "[" ++ mid ++ "]" ->
  extract_json_from_text
    (pre ++ "```" ++ ws1 ++ core ++ ws2 ++ "```" ++ post) = core.
Proof.
  intros Hjson Hpre Hws1 Hws2 Hbody Hcore.
  assert (Hshape : exists a b,
             core = String a (mid ++ char b)
             /\ is_space a = false /\ is_space b = false
             /\ Ascii.eqb "`" b = false
             /\ select_json_span core = core).
  { destruct Hcore as [-> | ->].
    - exists "{"%char, "}"%char. repeat split. apply select_object_whole.
    - exists "["%char, "]"%char. repeat split. apply select_array_whole. }
  destruct Hshape as (a & b & Hab & Ha & Hb & Htick & Hsel).
  rewrite extract_of_nonempty by (destruct pre; discriminate).
  assert (E : pre ++ "```" ++ ws1 ++ core ++ ws2 ++ "```" ++ post
              = pre ++ fence ++ (ws1 ++ core ++ ws2) ++ fence ++ post)
    by (now rewrite !app_assoc_str).
  rewrite E in *. rewrite remove_code_fence_plain.
  - rewrite Hab at 1. rewrite strip_core by assumption.
    rewrite <- Hab. exact Hsel.
  - exact Hjson.
  - exact Hpre.
  - rewrite Hab in *.
    destruct (ends_without_backtick ws1 ws2 mid a b Hws2 Htick)
      as (body & c & E' & Hc).
    rewrite E' in *. now apply fence_after_clean_end.
Qed.

Lemma plain_fenced_block_example :
  extract_json_from_text
    ("Result:" ++ nl ++ "```" ++ nl ++ ("[" ++ "1, 2" ++ "]") ++ nl
     ++ "```" ++ " as asked")
  = "[" ++ "1, 2" ++ "]".
Proof.
  apply (plain_fenced_block_is_extracted ("Result:" ++ nl) nl _ nl
           " as asked" "1, 2");
    try reflexivity.
  right. reflexivity.
Defined.

Lemma remove_code_fence_unclosed (pre rest : string) :
  str_in json_fence pre = false -> str_in fence rest = false ->
  remove_code_fence (pre ++ json_fence ++ rest) = pre ++ json_fence ++ rest.
Proof.
  intros Hpre Hrest. unfold remove_code_fence.
  rewrite str_in_app.
  assert (Hstart : find (pre ++ json_fence ++ rest) json_fence 0 = len pre).
  { pose proof (find_at_json_fence pre (rest ++ "") 0 Hpre) as H.
    rewrite app_empty_r in H. rewrite find_from_zero, H. reflexivity. }
  rewrite Hstart.
  assert (Hlen : len (pre ++ json_fence) = len pre + 7)
    by (rewrite len_app; reflexivity).
  assert (Hend : find (pre ++ json_fence ++ rest) fence (len pre + 7) = -1).
  { rewrite <- Hlen, <- app_assoc_str, find_from.
    now rewrite find_at_none. }
  rewrite Hend. reflexivity.
Qed.

(** X6.  A [```json] block that is never closed (no fence follows the
    marker) is not sliced out: the span is looked for in the whole text,
    marker included, and an object or an array that follows the marker is
    still returned when no bracket and no brace comes before it. *)
Theorem unclosed_json_fence_is_searched_whole
  (pre lead core post mid : string) :
  str_in "```json" pre = false ->
  str_in "```" (lead ++ core ++ post) = false ->
  str_in "[" (pre ++ lead) = false ->
  str_in "{" (pre ++ lead) = false ->
  core = "{" ++ mid ++ "}" /\ str_in "}" post = false
  \/ core = "[" ++ mid ++ "]" /\ str_in "]" post = false ->
  extract_json_from_text (pre ++ "```json" ++ lead ++ core ++ post) = core.
Proof.
  intros Hpre Hrest Hb Hc Hcore.
  rewrite extract_of_nonempty by (destruct pre; discriminate).
  change "```json" with json_fence.
  rewrite remove_code_fence_unclosed by assumption.
  rewrite str_in_char_app in Hb, Hc.
  apply orb_false_iff in Hb as [Hb1 Hb2].
  apply orb_false_iff in Hc as [Hc1 Hc2].
  replace (pre ++ json_fence ++ lead ++ core ++ post)
    with ((pre ++ json_fence ++ lead) ++ core ++ post)
    by (now rewrite !app_assoc_str).
  assert (Hb' : str_in "[" (pre ++ json_fence ++ lead) = false)
    by (rewrite !str_in_char_app, Hb1, Hb2; reflexivity).
  assert (Hc' : str_in "{" (pre ++ json_fence ++ lead) = false)
    by (rewrite !str_in_char_app, Hc1, Hc2; reflexivity).
  destruct Hcore as [[-> Hd] | [-> Hd]].
  - rewrite !app_assoc_str.
    replace (pre ++ json_fence ++ lead ++ "{" ++ mid ++ "}" ++ post)
      with ((pre ++ json_fence ++ lead) ++ "{" ++ mid ++ "}" ++ post)
      by (now rewrite !app_assoc_str).
    now apply select_object_span.
  - rewrite !app_assoc_str.
    replace (pre ++ json_fence ++ lead ++ "[" ++ mid ++ "]" ++ post)
      with ((pre ++ json_fence ++ lead) ++ "[" ++ mid ++ "]" ++ post)
      by (now rewrite !app_assoc_str).
    now apply select_array_span.
Qed.

Lemma unclosed_json_fence_example :
  extract_json_from_text
    ("Sure:" ++ nl ++ "```json" ++ nl ++ ("{" ++ "1: 2" ++ "}") ++ nl)
  = "{" ++ "1: 2" ++ "}".
Proof.
  apply (unclosed_json_fence_is_searched_whole ("Sure:" ++ nl) nl _ nl
           "1: 2");
    try reflexivity.
  left. split; reflexivity.
Defined.

(** ** utils.py: [truncate_text] *)

Lemma take_length (n : nat) (s : string) :
  String.length (take n s) = Nat.min n (String.length s).
Proof.
  revert s. induction n as [|n IH]; intros s; [reflexivity|].
  destruct s as [|c s]; [reflexivity|]. simpl. now rewrite IH.
Qed.

Lemma clamp_bounds (n i : Z) : 0 <= n -> 0 <= clamp n i <= n.
Proof. intros H. unfold clamp. destruct (Z.ltb_spec i 0); lia. Qed.

Lemma slice_from_start (s : string) (hi : Z) :
  slice s 0 hi = take (Z.to_nat (clamp (len s) hi)) s.
Proof.
  unfold slice. pose proof (len_nonneg s).
  replace (clamp (len s) 0) with 0 by (unfold clamp; simpl; lia).
  rewrite Z.sub_0_r. reflexivity.
Qed.

Lemma len_slice_from_start (s : string) (hi : Z) :
  len (slice s 0 hi) = clamp (len s) hi.
Proof.
  rewrite slice_from_start. pose proof (clamp_bounds (len s) hi (len_nonneg s)).
  unfold len in *. rewrite take_length. lia.
Qed.

(** X7.  With a bound of at least 3, the text returned is never longer than
    the bound: it is the text itself when that fits, and otherwise the
    beginning of the text followed by three dots, of exactly [max_length]
    characters. *)
Theorem truncate_text_fits (text : string) (max_length : Z) :
  3 <= max_length ->
  len (truncate_text text max_length) <= max_length
  /\ (len text <= max_length -> truncate_text text max_length = text)
  /\ (max_length < len text ->
      exists kept rest,
        text = kept ++ rest
        /\ truncate_text text max_length = kept ++ "..."
        /\ len (truncate_text text max_length) = max_length).
Proof.
  intros Hm. unfold truncate_text.
  destruct (Z.leb_spec (len text) max_length) as [Hfits | Hlong].
  - split; [assumption|]. split; [reflexivity | lia].
  - assert (Hlen : len (slice text 0 (max_length - 3) ++ "...") = max_length).
    { rewrite len_app, len_slice_from_start. change (len "...") with 3.
      unfold clamp. destruct (Z.ltb_spec (max_length - 3) 0); lia. }
    split; [lia|]. split; [lia|]. intros _.
    exists (slice text 0 (max_length - 3)),
      (drop (Z.to_nat (clamp (len text) (max_length - 3))) text).
    split; [|split; [reflexivity | exact Hlen]].
    rewrite slice_from_start. apply take_drop.
Qed.

Lemma truncate_text_fits_example :
  truncate_text "abcdefg" 8 = "abcdefg"
  /\ truncate_text "cost optimizer" 8 = "cost ..."
  /\ len (truncate_text "cost optimizer" 8) <= 8
  /\ exists kept rest,
       "cost optimizer" = kept ++ rest
       /\ truncate_text "cost optimizer" 8 = kept ++ "..."
       /\ len (truncate_text "cost optimizer" 8) = 8.
Proof.
  destruct (truncate_text_fits "abcdefg" 8 ltac:(lia)) as (_ & Hfits & _).
  destruct (truncate_text_fits "cost optimizer" 8 ltac:(lia))
    as (Hlen & _ & Hcut).
  split; [apply Hfits; vm_compute; discriminate|].
  split; [reflexivity|]. split; [exact Hlen|].
  apply Hcut. vm_compute. reflexivity.
Defined.

(** X8.  With a bound below 3, a text that is longer than the bound comes
    back longer than the bound; with a bound of 1 or 2 it comes back longer
    than it was, by [max_length] characters, because [max_length - 3] is
    then read as a position counted from the end. *)
Theorem truncate_text_overshoots (text : string) (max_length : Z) :
  max_length < 3 ->
  max_length < len text ->
  max_length < len (truncate_text text max_length)
  /\ (1 <= max_length ->
      len (truncate_text text max_length) = len text + max_length).
Proof.
  intros Hm Hlong. unfold truncate_text.
  destruct (Z.leb_spec (len text) max_length) as [Hfits | _]; [lia|].
  rewrite len_app, len_slice_from_start. change (len "...") with 3.
  unfold clamp. destruct (Z.ltb_spec (max_length - 3) 0); lia.
Qed.

Lemma truncate_text_overshoots_example :
  2 < 3 /\ 2 < len "abcdef"
  /\ truncate_text "abcdef" 2 = "abcde..."
  /\ 2 < len (truncate_text "abcdef" 2)
  /\ (1 <= 2 -> len (truncate_text "abcdef" 2) = len "abcdef" + 2).
Proof.
  split; [lia | split; [vm_compute; reflexivity | split; [reflexivity|]]].
  apply (truncate_text_overshoots "abcdef" 2); [lia | vm_compute; reflexivity].
Defined.

(** ** utils.py: [validate_environment] *)

(** [validate_environment] always answers (the lookup that could fail on
    [None] comes after the check that the variable is set), and it answers
    [(True, None)] exactly when HUGGINGFACE_API_KEY is set to a text that
    starts with [hf_]. *)
Lemma validate_environment_accepts (getenv : string -> option string) :
  (exists answer, validate_environment getenv = Ok answer)
  /\ (validate_environment getenv = Ok (true, None)
      <-> exists key,
            getenv "HUGGINGFACE_API_KEY" = Some key
            /\ starts_with "hf_" key = true).
Proof.
  unfold validate_environment. cbn [filter].
  destruct (getenv "HUGGINGFACE_API_KEY") as [[|c key]|] eqn:E; cbn [unset].
  - split; [eexists; reflexivity|]. split; [discriminate|].
    intros (key & [= <-] & H). discriminate.
  - destruct (starts_with "hf_" (String c key)) eqn:Hs; cbn [negb].
    + split; [eexists; reflexivity|]. split; [|reflexivity].
      intros _. now exists (String c key).
    + split; [eexists; reflexivity|]. split; [discriminate|].
      intros (key' & [= <-] & H). congruence.
  - split; [eexists; reflexivity|]. split; [discriminate|].
    intros (key & [=] & _).
Qed.

(** X9.  An environment that [validate_environment] accepts need not be one
    in which the model can be called: the check reads HUGGINGFACE_API_KEY,
    [call_llm] reads GROQ_API_KEY, and without the latter [call_llm] raises
    ValueError before any request, whatever the number of retries. *)
Theorem valid_environment_without_llm_key
  (getenv : string -> option string) (rt : runtime) (retries : Z)
  (key : string) :
  getenv "HUGGINGFACE_API_KEY" = Some key ->
  starts_with "hf_" key = true ->
  getenv "GROQ_API_KEY" = None ->
  validate_environment getenv = Ok (true, None)
  /\ call_llm (with_environment getenv rt) retries = ([], Raise ValueError).
Proof.
  intros Hkey Hprefix Hgroq. split.
  - unfold validate_environment. cbn [filter]. rewrite Hkey.
    destruct key as [|c key]; [discriminate|].
    cbn [unset]. now rewrite Hprefix.
  - unfold call_llm, with_environment. cbn [api_key]. now rewrite Hgroq.
Qed.

Lemma valid_environment_without_llm_key_example :
  validate_environment huggingface_only = Ok (true, None)
  /\ call_llm (with_environment huggingface_only backend_down) 2
     = ([], Raise ValueError).
Proof.
  apply (valid_environment_without_llm_key _ backend_down 2 "hf_abc");
    reflexivity.
Defined.

(** ** profile_extractor.py: [call_llm] *)

Lemma call_llm_loop_cons (rt : runtime) (retries : Z) (todo attempt : nat) :
  call_llm_loop rt retries (S todo) attempt
  = match backend rt attempt with
    | Ok content => ([Request attempt], Ok content)
    | Raise e =>
        if Z.of_nat attempt =? retries - 1
        then ([Request attempt], Raise e)
        else
          let '(trace, r) := call_llm_loop rt retries todo (S attempt) in
          (Request attempt :: Sleep 2 :: trace, r)
    end.
Proof. reflexivity. Qed.

Lemma call_llm_loop_first_success (rt : runtime) (retries : Z)
  (content : option string) (failures k todo attempt : nat) :
  (k < todo)%nat -> (attempt + k = failures)%nat ->
  Z.of_nat failures < retries ->
  (forall a, (a < failures)%nat -> exists e, backend rt a = Raise e) ->
  backend rt failures = Ok content ->
  call_llm_loop rt retries todo attempt
  = ((flat_map (fun a => [Request a; Sleep 2]) (seq attempt k)
      ++ [Request failures])%list, Ok content).
Proof.
  intros Htodo Hsum Hlt Hfail Hok.
  revert todo attempt Htodo Hsum.
  induction k as [|k IH]; intros todo attempt Htodo Hsum;
    (destruct todo as [|todo]; [lia|]); rewrite call_llm_loop_cons.
  - replace attempt with failures by lia. now rewrite Hok.
  - destruct (Hfail attempt ltac:(lia)) as [e He]. rewrite He.
    destruct (Z.eqb_spec (Z.of_nat attempt) (retries - 1)); [lia|].
    rewrite (IH todo (S attempt)) by lia. reflexivity.
Qed.

(** X10.  With a key in the environment, when the first [failures] attempts
    fail and the next one, still within [retries], is answered, [call_llm]
    returns that answer: the trace is a request and a pause of two seconds
    for each failure, then the request that succeeds, and no error of the
    failed attempts reaches the caller. *)
Theorem call_llm_returns_first_success (rt : runtime) (retries : Z)
  (key : string) (failures : nat) (content : option string) :
  api_key rt = Some key -> key <> "" ->
  Z.of_nat failures < retries ->
  (forall attempt,
      (attempt < failures)%nat -> exists e, backend rt attempt = Raise e) ->
  backend rt failures = Ok content ->
  call_llm rt retries = (run_until_success failures, Ok content).
Proof.
  intros Hkey Hne Hlt Hfail Hok. unfold call_llm. rewrite Hkey.
  destruct key as [|c key]; [congruence|].
  apply (call_llm_loop_first_success rt retries content failures);
    try assumption; lia.
Qed.

Lemma call_llm_recovers :
  call_llm (recovering "{}") 2
  = ([Request 0%nat; Sleep 2; Request 1%nat], Ok (Some "{}")).
Proof.
  apply (call_llm_returns_first_success (recovering "{}") 2 "gsk-key" 1).
  - reflexivity.
  - discriminate.
  - lia.
  - intros [|attempt] H; [eexists; reflexivity | lia].
  - reflexivity.
Defined.

Lemma call_llm_loop_bounded (rt : runtime) (retries : Z) (todo attempt : nat) :
  Z.of_nat (attempt + S todo) = retries ->
  let trace := fst (call_llm_loop rt retries (S todo) attempt) in
  1 <= count (filter is_request trace) <= Z.of_nat (S todo)
  /\ count (filter is_pause trace) = count (filter is_request trace) - 1
  /\ (exists before last, trace = (before ++ [Request last])%list)
  /\ Forall (fun ev => is_request ev || is_pause ev = true) trace.
Proof.
  assert (Hone : forall a,
             1 <= count (filter is_request [Request a]) <= 1
             /\ count (filter is_pause [Request a])
                = count (filter is_request [Request a]) - 1
             /\ (exists before last,
                    [Request a] = (before ++ [Request last])%list)
             /\ Forall (fun ev => is_request ev || is_pause ev = true)
                  [Request a]).
  { intros a. cbn. repeat split; try lia; [|repeat constructor].
    now exists [], a. }
  revert attempt. induction todo as [|todo IH]; intros attempt Hsum;
    rewrite call_llm_loop_cons; destruct (backend rt attempt) as [content|e].
  - apply Hone.
  - destruct (Z.eqb_spec (Z.of_nat attempt) (retries - 1)); [|lia].
    apply Hone.
  - destruct (Hone attempt) as (H1 & H2 & H3 & H4).
    cbn [fst]. repeat split; try assumption; lia.
  - destruct (Z.eqb_spec (Z.of_nat attempt) (retries - 1)); [lia|].
    specialize (IH (S attempt) ltac:(lia)).
    destruct (call_llm_loop rt retries (S todo) (S attempt)) as [trace r].
    cbn [fst] in *.
    destruct IH as (Hreq & Hpause & (before & last & ->) & Hall).
    unfold count in *. cbn [filter is_request is_pause List.length].
    repeat split; try lia.
    + now exists (Request attempt :: Sleep 2 :: before), last.
    + repeat constructor. exact Hall.
Qed.

(** X11.  Whatever the backend does, [call_llm] asks it at most [retries]
    times (not at all when [retries] is below 1); when it asks at all, it
    pauses one time less than it asks and the last thing it does is a
    request, so it never pauses before it returns or raises; and every
    pause is of two seconds. *)
Theorem call_llm_is_bounded (rt : runtime) (retries : Z) :
  let trace := fst (call_llm rt retries) in
  count (filter is_request trace) <= Z.max retries 0
  /\ (trace = []
      \/ (count (filter is_pause trace) = count (filter is_request trace) - 1
          /\ exists before last, trace = (before ++ [Request last])%list))
  /\ Forall (fun ev => is_request ev || is_pause ev = true) trace.
Proof.
  unfold call_llm.
  destruct (api_key rt) as [[|c key]|].
  1, 3: cbn; repeat split; try lia; auto.
  destruct (Z.to_nat retries) as [|todo] eqn:E.
  - cbn. repeat split; try lia; auto.
  - destruct (call_llm_loop_bounded rt retries todo 0 ltac:(lia))
      as (Hreq & Hpause & Hlast & Hall).
    cbv zeta in *. split; [lia|]. split; [right; now split | assumption].
Qed.

(** ** profile_extractor.py: the fields of the profile *)

Lemma setitem_get_other (p q : json) (k k' : string) (v : json) :
  String.eqb k k' = false ->
  py_setitem p k v = Ok q -> py_getitem q k' = py_getitem p k'.
Proof.
  intros Hk. destruct p; simpl; try discriminate.
  intros [= <-]. simpl. now rewrite dict_get_set_other.
Qed.

Lemma setitem_get_same (p q : json) (k : string) (v : json) :
  py_setitem p k v = Ok q -> py_getitem q k = Ok v.
Proof.
  destruct p; simpl; try discriminate.
  intros [= <-]. simpl. now rewrite dict_get_set_same.
Qed.

Lemma kept_get (p q : json) (k0 k : string) :
  q = p \/ (exists v, py_setitem p k0 v = Ok q) ->
  String.eqb k0 k = false -> py_getitem q k = py_getitem p k.
Proof.
  intros [-> | (v & H)] Hk; [reflexivity|].
  now apply (setitem_get_other p q k0 k v).
Qed.

Lemma kept_contains (p q : json) (k0 k : string) :
  q = p \/ (exists v, py_setitem p k0 v = Ok q) ->
  py_contains p k = Ok true -> py_contains q k = Ok true.
Proof.
  intros [-> | (v & H)] Hin; [assumption|].
  destruct p; simpl in *; try discriminate.
  injection H as <-. injection Hin as Hin. simpl. f_equal.
  now apply dict_has_set.
Qed.











Lemma lower_char_idempotent (c : ascii) :
  lower_char (lower_char c) = lower_char c.
Proof.
  destruct c as [[] [] [] [] [] [] [] []]; vm_compute; reflexivity.
Qed.

Lemma lower_idempotent (s : string) : lower (lower s) = lower s.
Proof.
  induction s as [|c s IH]; [reflexivity|].
  simpl. now rewrite lower_char_idempotent, IH.
Qed.

Lemma lower_if_str_idempotent (v : json) :
  lower_if_str (lower_if_str v) = lower_if_str v.
Proof. destruct v; simpl; try reflexivity. now rewrite lower_idempotent. Qed.

(** X13.  When the model's answer decodes to a profile whose tech stack is
    a mapping and the checks pass, the tech stack that is returned is that
    mapping with the same keys in the same order, every text value
    lowercased and every other value as it was; lowercasing it again
    changes nothing. *)
Theorem model_tech_stack_is_lowercased (rt : runtime)
  (description : string) (response : option string)
  (parsed profile : json) (ts0 : dict) :
  llm_response rt = Ok response ->
  json_loads rt (extract_json_from_response response) = Ok parsed ->
  py_getitem parsed "tech_stack" = Ok (JObj ts0) ->
  validate_profile rt description parsed = Ok profile ->
  let ts := map (fun kv => (fst kv, lower_if_str (snd kv))) ts0 in
  extract_project_profile rt description = Ok profile
  /\ py_getitem profile "tech_stack" = Ok (JObj ts)
  /\ Forall (fun kv => lower_if_str (snd kv) = snd kv) ts.
Proof.
  intros Hresponse Hparsed Hts Hvalid ts. split; [|split].
  - unfold extract_project_profile, profile_from_model, bind.
    now rewrite Hresponse, Hparsed, Hvalid.
  - unfold validate_profile, bind in Hvalid.
    destruct (fix_name parsed) as [p1|] eqn:E1; [|discriminate].
    destruct (fix_budget rt p1) as [p2|] eqn:E2; [|discriminate].
    destruct (fix_description description p2) as [p3|] eqn:E3;
      [|discriminate].
    destruct (fix_tech_stack p3) as [p4|] eqn:E4; [|discriminate].
    destruct (fix_requirements p4) as [p5|] eqn:E5; [|discriminate].
    apply fix_name_keeps_stack in E1. apply fix_budget_keeps_stack in E2.
    apply fix_description_keeps_stack in E3.
    apply fix_requirements_keeps_stack in E5.
    assert (H3 : py_getitem p3 "tech_stack" = Ok (JObj ts0)) by congruence.
    apply (fix_tech_stack_keeps_mapping _ _ ts0) in E4; [|assumption].
    subst p4. unfold ts.
    apply (lower_tech_stack_value _ _ ts0) in Hvalid; congruence.
  - unfold ts. apply Forall_forall. intros kv Hin.
    apply in_map_iff in Hin as ([k v] & <- & _). simpl.
    apply lower_if_str_idempotent.
Qed.

Lemma model_tech_stack_example :
  let text :=
    "{" ++ dq ++ "tech_stack" ++ dq ++ ": {" ++ dq ++ "frontend" ++ dq
    ++ ": " ++ dq ++ "React" ++ dq ++ "}}" in
  let parsed := JObj [("tech_stack", JObj [("frontend", JStr "React")])] in
  exists profile,
    extract_project_profile (answering text parsed) "A web shop" = Ok profile
    /\ py_getitem profile "tech_stack"
       = Ok (JObj [("frontend", JStr "react")]).
Proof.
  intros text parsed.
  destruct (model_tech_stack_is_lowercased (answering text parsed)
              "A web shop" (Some text) parsed
              (JObj [("tech_stack", JObj [("frontend", JStr "react")]);
                     ("name", JStr "Cloud Project");
                     ("budget_inr_per_month", JInt 5000);
                     ("description", JStr "A web shop");
                     ("non_functional_requirements", JArr [])])
              [("frontend", JStr "React")])
    as (H1 & H2 & _); try (vm_compute; reflexivity).
  eexists. split; [exact H1 | exact H2].
Defined.

(** ** profile_extractor.py: [create_fallback_profile] *)

Lemma str_in_shorter (p q s : string) :
  str_in (p ++ q) s = true -> str_in p s = true.
Proof.
  induction s as [|x s IH]; intros H; rewrite str_in_unfold in H;
    rewrite str_in_unfold; apply orb_true_iff in H as [H | H].
  - now rewrite (starts_with_shorter p q "" H).
  - discriminate.
  - now rewrite (starts_with_shorter p q _ H).
  - rewrite (IH H). apply orb_true_r.
Qed.

(** X14.  The keywords are looked for as substrings of the lowercased
    description: one that mentions [javascript], in any case, and none of
    [node], [python] and [django], gets the backend [java] in its fallback
    profile. *)
Theorem fallback_backend_of_javascript (description : string) :
  str_in "javascript" (lower description) = true ->
  str_in "node" (lower description) = false ->
  str_in "python" (lower description) = false ->
  str_in "django" (lower description) = false ->
  exists ts,
    py_getitem (create_fallback_profile description) "tech_stack"
    = Ok (JObj ts)
    /\ dict_get ts "backend" = Some (JStr "java").
Proof.
  intros Hjs Hnode Hpython Hdjango.
  apply (str_in_shorter "java" "script") in Hjs.
  assert (Hnodejs : str_in "nodejs" (lower description) = false).
  { destruct (str_in "nodejs" (lower description)) eqn:E; [|reflexivity].
    apply (str_in_shorter "node" "js") in E. congruence. }
  eexists. split; [reflexivity|].
  cbv beta zeta. rewrite Hnode, Hnodejs, Hpython, Hdjango, Hjs.
  reflexivity.
Qed.

Lemma fallback_backend_of_javascript_example :
  exists ts,
    py_getitem
      (create_fallback_profile "A JavaScript single-page shop on Azure")
      "tech_stack" = Ok (JObj ts)
    /\ dict_get ts "backend" = Some (JStr "java").
Proof.
  apply (fallback_backend_of_javascript
           "A JavaScript single-page shop on Azure");
    vm_compute; reflexivity.
Defined.




(** ** billing_generator.py: what [generate_mock_billing] returns *)

Lemma firstn_short (A : Type) (l : list A) :
  count l <= 20 -> firstn 20 l = l.
Proof. unfold count. intros H. apply firstn_all2. lia. Qed.

Lemma seen_records (records : list json) :
  (if 20 <? count records then firstn 20 records else records)
  = firstn 20 records.
Proof.
  destruct (Z.ltb_spec 20 (count records)); [reflexivity|].
  symmetry. now apply firstn_short.
Qed.

(** X16.  The batch is cut to its first 20 records before the records are
    checked: when fewer than 12 of the first 20 pass the checks,
    [generate_mock_billing] raises ValueError, however many records that
    would pass come after the twentieth. *)
Theorem billing_is_trimmed_before_it_is_checked (rt : runtime)
  (response : option string) (records : list json) :
  llm_response rt = Ok response ->
  json_loads rt (extract_json_from_response response) = Ok (JArr records) ->
  count (filter (survives rt) (firstn 20 records)) < 12 ->
  generate_mock_billing rt = Raise ValueError.
Proof.
  intros Hresponse Hparsed Hfew.
  unfold generate_mock_billing, bind. rewrite Hresponse.
  pose proof (billing_from_decoded_text rt _ _ Hparsed) as Hreach.
  destruct (billing_from_text rt (extract_json_from_response response))
    as [v|e] eqn:Hrun; [|destruct e; congruence].
  exfalso. unfold billing_from_text, bind in Hrun. rewrite Hparsed in Hrun.
  destruct (count records <? 12); [discriminate|].
  rewrite seen_records in Hrun.
  destruct (valid_billing_records rt (firstn 20 records)) as [valid|e] eqn:E;
    [|discriminate].
  apply valid_billing_records_count in E.
  unfold count in *.
  destruct (Z.ltb_spec (Z.of_nat (List.length valid)) 12);
    [discriminate | lia].
Qed.

Lemma sixteen_good_records_are_rejected :
  let records :=
    (repeat record_without_desc 9 ++ repeat good_record 16)%list in
  count (filter (survives (answering_json (JArr records))) records) = 16
  /\ generate_mock_billing (answering_json (JArr records))
     = Raise ValueError.
Proof.
  intros records. split; [vm_compute; reflexivity|].
  apply (billing_is_trimmed_before_it_is_checked _
           (Some (dumps (JArr records))) records);
    vm_compute; reflexivity.
Defined.

Lemma valid_billing_records_are_the_survivors (rt : runtime)
  (records valid : list json) :
  valid_billing_records rt records = Ok valid ->
  valid = flat_map (fun record =>
                      match check_billing_record rt record with
                      | Ok record' => [record']
                      | Raise _ => []
                      end) records.
Proof.
  revert valid. induction records as [|r records IH]; intros valid.
  - now intros [= <-].
  - cbn [valid_billing_records flat_map].
    destruct (check_billing_record rt r) as [r'|e].
    + unfold bind.
      destruct (valid_billing_records rt records) as [rest|]; [|discriminate].
      intros [= <-]. simpl. f_equal. now apply IH.
    + destruct e; try discriminate; apply IH.
Qed.

(** X17.  A batch that is returned is made of the records, among the first
    20 of the decoded answer, that passed the checks, each as the checks
    left it and in the order of the answer; there are 12 to 20 of them,
    and each has the nine fields, a cost that is a number not below zero
    and a quantity that is a number. *)
Theorem returned_billing_is_the_checked_head (rt : runtime)
  (valid : list json) :
  generate_mock_billing rt = Ok valid ->
  exists response records,
    llm_response rt = Ok response
    /\ json_loads rt (extract_json_from_response response)
       = Ok (JArr records)
    /\ valid = flat_map (fun record =>
                           match check_billing_record rt record with
                           | Ok record' => [record']
                           | Raise _ => []
                           end) (firstn 20 records)
    /\ Forall checked_record valid
    /\ 12 <= count valid <= 20.
Proof.
  intros H. pose proof (returned_records_are_checked rt valid H) as [Hc Hn].
  unfold generate_mock_billing, bind in H.
  destruct (llm_response rt) as [response|]; [|discriminate].
  destruct (billing_from_text rt (extract_json_from_response response))
    as [v|e] eqn:E; [|destruct e, response; discriminate].
  injection H as ->. unfold billing_from_text, bind in E.
  destruct (json_loads rt (extract_json_from_response response))
    as [[| | | | |records|]|] eqn:Hdecoded; try discriminate.
  destruct (count records <? 12); [discriminate|].
  rewrite seen_records in E.
  destruct (valid_billing_records rt (firstn 20 records)) as [v|] eqn:Ev;
    [|discriminate].
  destruct (count v <? 12); [discriminate|]. injection E as ->.
  exists response, records.
  split; [reflexivity|]. split; [assumption|].
  split; [now apply valid_billing_records_are_the_survivors|].
  split; assumption.
Qed.

Lemma twelve_good_records_are_returned :
  exists response records,
    llm_response (answering_json (JArr (repeat good_record 12)))
    = Ok response
    /\ json_loads (answering_json (JArr (repeat good_record 12)))
         (extract_json_from_response response)
       = Ok (JArr records)
    /\ repeat good_record 12
       = flat_map (fun record =>
                     match check_billing_record
                             (answering_json (JArr (repeat good_record 12)))
                             record with
                     | Ok record' => [record']
                     | Raise _ => []
                     end) (firstn 20 records)
    /\ Forall checked_record (repeat good_record 12)
    /\ 12 <= count (repeat good_record 12) <= 20.
Proof.
  apply (returned_billing_is_the_checked_head
           (answering_json (JArr (repeat good_record 12)))).
  vm_compute. reflexivity.
Defined.

Lemma checked_records_have_costs (records : list json) :
  Forall checked_record records ->
  exists costs,
    each cost_of records = Ok costs /\ count costs = count records.
Proof.
  induction 1 as [|r records Hr _ IH]; [now exists []|].
  destruct Hr as (_ & (cost & Hcost & Hnum & _) & _).
  destruct IH as (costs & Hcosts & Hcount).
  assert (Hn : exists n, number_of cost = Some n)
    by (destruct cost; try discriminate; eexists; reflexivity).
  destruct Hn as (n & Hn). exists (n :: costs). split.
  - assert (Hr : cost_of r = Ok n)
      by (unfold cost_of, bind; now rewrite Hcost, Hn).
    cbn [each]. rewrite Hr, Hcosts. reflexivity.
  - unfold count in *. simpl List.length. lia.
Qed.

(** X18.  The records that [generate_mock_billing] returns can always be
    added up as the analysis and the command line do: each has a cost that
    is a number, so the total is the sum of these costs and the lookup
    raises neither KeyError nor TypeError. *)
Theorem returned_billing_can_be_totalled (rt : runtime)
  (valid : list json) :
  generate_mock_billing rt = Ok valid ->
  exists costs,
    each cost_of valid = Ok costs
    /\ count costs = count valid
    /\ total_cost_of rt valid = py_sum rt costs.
Proof.
  intros H. apply returned_records_are_checked in H as [Hc _].
  destruct (checked_records_have_costs valid Hc) as (costs & Hcosts & Hn).
  exists costs. split; [assumption|]. split; [assumption|].
  unfold total_cost_of.
  change (each _ valid) with (each cost_of valid).
  unfold bind. now rewrite Hcosts.
Qed.

Lemma twelve_good_records_are_totalled :
  exists costs,
    each cost_of (repeat good_record 12) = Ok costs
    /\ count costs = count (repeat good_record 12)
    /\ total_cost_of (answering_json (JArr (repeat good_record 12)))
         (repeat good_record 12)
       = py_sum (answering_json (JArr (repeat good_record 12))) costs.
Proof.
  apply (returned_billing_can_be_totalled
           (answering_json (JArr (repeat good_record 12)))).
  vm_compute. reflexivity.
Defined.

Lemma valid_billing_records_abort (rt : runtime) (records : list json)
  (record : json) :
  In record records ->
  check_billing_record rt record = Raise TypeError ->
  exists e, valid_billing_records rt records = Raise e.
Proof.
  intros Hin Hraise. induction records as [|r records IH]; [contradiction|].
  cbn [valid_billing_records].
  destruct Hin as [-> | Hin].
  - rewrite Hraise. eauto.
  - destruct (IH Hin) as (e & He). rewrite He.
    destruct (check_billing_record rt r) as [r'|e']; [simpl; eauto|].
    destruct e'; eauto.
Qed.

(** X19.  One entry that is [null], a boolean or a number among the first
    20 of the answer fails the whole batch, however many good records
    there are: looking a field up in it raises TypeError, which the
    handler that skips a record does not catch.  (An entry that is a text
    or a list lacks the field and is skipped.) *)
Theorem scalar_entry_fails_the_batch (rt : runtime)
  (response : option string) (records : list json) (entry : json) :
  llm_response rt = Ok response ->
  json_loads rt (extract_json_from_response response) = Ok (JArr records) ->
  In entry (firstn 20 records) ->
  is_dict entry = false -> is_list entry = false ->
  (forall text, entry <> JStr text) ->
  generate_mock_billing rt = Raise ValueError.
Proof.
  intros Hresponse Hparsed Hin Hd Hl Hs.
  unfold generate_mock_billing, bind. rewrite Hresponse.
  pose proof (billing_from_decoded_text rt _ _ Hparsed) as Hreach.
  destruct (billing_from_text rt (extract_json_from_response response))
    as [v|e] eqn:Hrun; [|destruct e; congruence].
  exfalso. unfold billing_from_text, bind in Hrun. rewrite Hparsed in Hrun.
  destruct (count records <? 12); [discriminate|].
  rewrite seen_records in Hrun.
  assert (Hraise : check_billing_record rt entry = Raise TypeError).
  { destruct entry; try discriminate; try reflexivity.
    now destruct (Hs s). }
  destruct (valid_billing_records_abort rt _ _ Hin Hraise) as (e & He).
  rewrite He in Hrun. discriminate.
Qed.

Lemma null_entry_fails_the_batch :
  let records := (repeat good_record 12 ++ [JNull])%list in
  count (filter (survives (answering_json (JArr records))) records) = 12
  /\ generate_mock_billing (answering_json (JArr records))
     = Raise ValueError.
Proof.
  intros records. split; [vm_compute; reflexivity|].
  apply (scalar_entry_fails_the_batch _
           (Some (dumps (JArr records))) records JNull);
    try (vm_compute; reflexivity).
  - cbv. repeat (first [left; reflexivity | right]).
  - discriminate.
Defined.

(** ** billing_generator.py: [validate_billing_record] and the provider *)

Lemma fields_typed_present (record : json) (fields : list string) :
  fields_typed record fields = Ok true ->
  check_fields record fields = Ok tt
  /\ forall field,
       In field fields ->
       exists v, py_getitem record field = Ok v /\ has_type field v = true.
Proof.
  induction fields as [|f fields IH]; cbn [fields_typed check_fields].
  - intros _. split; [reflexivity | contradiction].
  - unfold bind.
    destruct (py_contains record f) as [[] |]; simpl; try discriminate.
    destruct (py_getitem record f) as [v|] eqn:Hv; [|discriminate].
    destruct (has_type f v) eqn:Ht; simpl; [|discriminate].
    intros H. destruct (IH H) as [Hc Hall]. split; [assumption|].
    intros field [<- | Hin]; [eauto | now apply Hall].
Qed.

(** X20.  The validator of one record is stricter than the loop of
    [generate_mock_billing]: a record that [validate_billing_record]
    accepts passes the checks of the loop, and comes out of them as it
    went in. *)
Theorem accepted_record_passes_the_loop (rt : runtime) (record : json) :
  validate_billing_record record = Ok true ->
  check_billing_record rt record = Ok record.
Proof.
  unfold validate_billing_record, bind.
  destruct (fields_typed record billing_fields) as [[] |] eqn:Ht;
    try discriminate.
  apply fields_typed_present in Ht as [Hfields Hall].
  destruct (Hall "cost_inr") as (cost & Hcost & Hcnum);
    [cbv; tauto|].
  destruct (Hall "usage_quantity") as (quantity & Hq & Hqnum);
    [cbv; tauto|].
  cbn in Hcnum, Hqnum. cbn [negb]. rewrite Hcost.
  destruct (is_negative cost) as [[] |] eqn:Hneg; try discriminate.
  intros _. unfold check_billing_record, bind. rewrite Hfields.
  unfold coerce_number, bind. rewrite Hcost, Hcnum, Hcost, Hneg.
  now rewrite Hq, Hqnum.
Qed.

Lemma good_record_passes_the_loop :
  validate_billing_record good_record = Ok true
  /\ check_billing_record no_key good_record = Ok good_record.
Proof.
  split; [reflexivity|].
  apply (accepted_record_passes_the_loop no_key good_record). reflexivity.
Defined.



(** X22.  The fallback profile and the provider, put together: when the
    model gives no usable profile, the billing prompt is written for Azure
    or GCP only when the lowercased description mentions [azure], or [gcp]
    or [google cloud], and no [aws]; for every other description it is
    written for AWS. *)
Theorem fallback_profile_provider (description : string) :
  let mentions k := str_in k (lower description) in
  billing_provider (create_fallback_profile description)
  = Ok (if mentions "aws" then "AWS"
        else if mentions "azure" then "Azure"
        else if mentions "gcp" || mentions "google cloud" then "GCP"
        else "AWS").
Proof.
  cbv zeta. unfold billing_provider, create_fallback_profile,
    fallback_tech_stack.
  destruct (str_in "aws" (lower description)),
    (str_in "azure" (lower description)),
    (str_in "gcp" (lower description)),
    (str_in "google cloud" (lower description)); reflexivity.
Qed.

(** ** cost_analyser.py: [analyze_costs_and_recommend] *)

Lemma each_raises (A B : Type) (f : A -> result B) (l : list A) (x : A)
  (e : exn) :
  In x l -> f x = Raise e -> exists e', each f l = Raise e'.
Proof.
  intros Hin Hx. induction l as [|a l IH]; [contradiction|].
  cbn [each]. destruct Hin as [-> | Hin].
  - rewrite Hx. simpl. eauto.
  - destruct (IH Hin) as (e' & He'). rewrite He'.
    destruct (f a); simpl; eauto.
Qed.

Lemma each_raised_by (A B : Type) (f : A -> result B) (l : list A)
  (e : exn) :
  each f l = Raise e -> exists x, In x l /\ f x = Raise e.
Proof.
  induction l as [|a l IH]; cbn [each]; [discriminate|].
  destruct (f a) as [b|e'] eqn:Ha; simpl.
  - destruct (each f l) as [bs|e'']; simpl; [discriminate|].
    intros [= ->]. destruct (IH eq_refl) as (x & Hin & Hx).
    exists x. split; [now right | assumption].
  - intros [= ->]. exists a. split; [now left | assumption].
Qed.

Lemma potential_savings_error (r : json) (e : exn) :
  potential_savings r = Raise e -> e = TypeError \/ e = AttributeError.
Proof.
  unfold potential_savings.
  destruct r as [| | | | | |d]; try (intros [= <-]; now right).
  destruct (dict_get d "potential_savings") as [v|]; [|discriminate].
  destruct (number_of v); [discriminate|]. intros [= <-]. now left.
Qed.

Lemma getitem_contains (v x : json) (k : string) :
  py_getitem v k = Ok x -> py_contains v k = Ok true.
Proof.
  destruct v as [| | | | | |d]; simpl; try discriminate.
  unfold dict_has. destruct (dict_get d k); [reflexivity | discriminate].
Qed.

(** X23.  The summary is added up before the recommendations are checked:
    one recommendation whose [potential_savings] is there but is no number
    ([null], a text such as ["100"], a list) makes the whole analysis
    raise ValueError, although the check of that recommendation, further
    down, would have read a text as a number and skipped anything else. *)
Theorem non_numeric_saving_fails_the_analysis (rt : runtime)
  (analysis_summary : json) (billing_data : list json) (total : pynum)
  (response : option string) (decoded : json) (recs : list json)
  (d : dict) (v : json) :
  total_cost_of rt billing_data = Ok total ->
  llm_response rt = Ok response ->
  json_loads rt (extract_json_from_response response) = Ok decoded ->
  py_getitem decoded "recommendations" = Ok (JArr recs) ->
  In (JObj d) recs ->
  dict_get d "potential_savings" = Some v ->
  is_number v = false ->
  analyze_costs_and_recommend rt analysis_summary billing_data
  = Raise ValueError.
Proof.
  intros Htotal Hresponse Hdecoded Hrecs Hin Hv Hnum.
  unfold analyze_costs_and_recommend, bind. rewrite Htotal, Hresponse.
  unfold report_from_text, bind. rewrite Hdecoded.
  rewrite (getitem_contains _ _ _ Hrecs), Hrecs. cbn [negb].
  destruct decoded as [| | | | | |fields]; try discriminate.
  cbn [py_setitem].
  assert (Hraise : potential_savings (JObj d) = Raise TypeError).
  { unfold potential_savings. rewrite Hv. now destruct v. }
  destruct (each_raises _ _ potential_savings recs _ _ Hin Hraise)
    as (e & He).
  destruct (each_raised_by _ _ _ _ _ He) as (r & _ & Hr).
  apply potential_savings_error in Hr.
  unfold summarize, bind. rewrite He. now destruct Hr as [-> | ->].
Qed.

Lemma textual_saving_fails_the_analysis :
  let answer := JObj [("recommendations", JArr [textual_recommendation])] in
  let rt := answering_with_text_100 answer in
  float_of_int 100 = Ok float_100
  /\ (exists rec,
         check_recommendation rt textual_recommendation = Ok (Some rec)
         /\ py_getitem rec "potential_savings" = Ok (JFloat float_100))
  /\ analyze_costs_and_recommend rt JNull one_record = Raise ValueError.
Proof.
  intros answer rt. split; [reflexivity|]. split.
  - eexists. split; vm_compute; reflexivity.
  - apply (non_numeric_saving_fails_the_analysis rt JNull one_record
             (PInt 1000) (Some (dumps answer)) answer
             [textual_recommendation]
             [("title", JStr "Right-size the web server");
              ("service", JStr "EC2");
              ("current_cost", JInt 400);
              ("potential_savings", JStr "100");
              ("recommendation_type", JStr "right_sizing");
              ("description", JStr "Use a smaller instance");
              ("implementation_effort", JStr "low");
              ("risk_level", JStr "low");
              ("steps", JArr [JStr "Resize the instance"]);
              ("cloud_providers", JArr [JStr "AWS"])]
             (JStr "100"));
      try (vm_compute; reflexivity).
    now left.
Defined.

Lemma any_missing_present (rec : json) (fields : list string) :
  any_missing rec fields = Ok false ->
  forall field, In field fields -> py_contains rec field = Ok true.
Proof.
  induction fields as [|f fields IH]; cbn [any_missing].
  - intros _ field [].
  - unfold bind. destruct (py_contains rec f) as [present|] eqn:Hf;
      [|discriminate].
    destruct (any_missing rec fields) as [missing|]; [|discriminate].
    intros [= H]. apply orb_false_iff in H as [Hp Hm].
    apply negb_false_iff in Hp. subst.
    intros field [<- | Hin]; [assumption | now apply IH].
Qed.

Lemma to_number_step (rt : runtime) (rec rec' : json) (field : string) :
  to_number rt rec field = Ok rec' ->
  (rec' = rec \/ exists v, py_setitem rec field v = Ok rec')
  /\ exists v, py_getitem rec' field = Ok v /\ is_number v = true.
Proof.
  unfold to_number, bind.
  destruct (py_getitem rec field) as [v|] eqn:Hv; [|discriminate].
  destruct (is_number v) eqn:Hnum.
  - intros [= <-]. split; [now left | eauto].
  - destruct (float_of_value rt v) as [f|]; [|discriminate].
    intros H. split; [right; eauto|].
    apply setitem_get_same in H. eauto.
Qed.

Lemma to_list_step (rec rec' : json) (field : string) :
  to_list rec field = Ok rec' ->
  (rec' = rec \/ exists v, py_setitem rec field v = Ok rec')
  /\ exists items, py_getitem rec' field = Ok (JArr items).
Proof.
  unfold to_list, bind.
  destruct (py_getitem rec field) as [v|] eqn:Hv; [|discriminate].
  destruct v; simpl; intros H;
    try (split; [right; eauto | apply setitem_get_same in H; eauto]).
  injection H as <-. split; [now left | eauto].
Qed.

Lemma check_recommendation_checked (rt : runtime) (rec rec' : json) :
  check_recommendation rt rec = Ok (Some rec') ->
  checked_recommendation rec'.
Proof.
  unfold check_recommendation, bind.
  destruct (any_missing rec recommendation_fields) as [[] |] eqn:Hfields;
    try discriminate.
  destruct (to_number rt rec "current_cost") as [r1|] eqn:E1;
    [|discriminate].
  destruct (to_number rt r1 "potential_savings") as [r2|] eqn:E2;
    [|discriminate].
  destruct (to_list r2 "steps") as [r3|] eqn:E3; [|discriminate].
  destruct (to_list r3 "cloud_providers") as [r4|] eqn:E4; [|discriminate].
  intros [= <-].
  apply to_number_step in E1 as (K1 & cost & Hcost & Hcnum).
  apply to_number_step in E2 as (K2 & savings & Hsavings & Hsnum).
  apply to_list_step in E3 as (K3 & steps & Hsteps).
  apply to_list_step in E4 as (K4 & providers & Hproviders).
  split; [|split; [|split; [|split]]].
  - intros field Hin.
    apply (kept_contains _ _ _ _ K4), (kept_contains _ _ _ _ K3),
      (kept_contains _ _ _ _ K2), (kept_contains _ _ _ _ K1).
    now apply (any_missing_present rec recommendation_fields).
  - exists cost. split; [|assumption].
    now rewrite (kept_get _ _ _ _ K4), (kept_get _ _ _ _ K3),
      (kept_get _ _ _ _ K2) by reflexivity.
  - exists savings. split; [|assumption].
    now rewrite (kept_get _ _ _ _ K4), (kept_get _ _ _ _ K3) by reflexivity.
  - exists steps. now rewrite (kept_get _ _ _ _ K4) by reflexivity.
  - now exists providers.
Qed.

Lemma valid_recommendations_checked (rt : runtime) (recs : list json) :
  Forall checked_recommendation (valid_recommendations rt recs).
Proof.
  induction recs as [|rec recs IH]; [constructor|].
  cbn [valid_recommendations].
  destruct (check_recommendation rt rec) as [[rec'|]|] eqn:E; try assumption.
  constructor; [|assumption]. now apply check_recommendation_checked in E.
Qed.

Lemma summary_is_a_mapping (rt : runtime) (total_cost : pynum)
  (recs : list json) (summary : json) :
  summarize rt total_cost recs = Ok summary ->
  exists fields, summary = JObj fields.
Proof.
  unfold summarize, bind.
  destruct (each (potential_savings) recs) as [savings|]; [|discriminate].
  destruct (py_sum rt savings); [|discriminate].
  destruct (if num_gt total_cost (PInt 0) then _ else _); [|discriminate].
  destruct (count_high_impact total_cost savings); [|discriminate].
  intros [= <-]. eauto.
Qed.

Lemma report_of_decoded (rt : runtime) (total_cost : pynum)
  (analysis_summary : json) (json_text : string) (d : dict)
  (recs : list json) (fields : dict) :
  json_loads rt json_text = Ok (JObj d) ->
  dict_get d "recommendations" = Some (JArr recs) ->
  summarize rt total_cost recs = Ok (JObj fields) ->
  report_from_text rt total_cost analysis_summary json_text
  = (total_savings <- total_savings_of rt recs ;;
     _ <- format_2f total_savings ;;
     Ok (JObj
           (dict_set
              (dict_set
                 (dict_set (dict_set d "analysis" analysis_summary)
                    "summary" (JObj fields))
                 "recommendations" (JArr (valid_recommendations rt recs)))
              "summary"
              (JObj (dict_set fields "recommendations_count"
                       (JInt (count (valid_recommendations rt recs)))))))).
Proof.
  intros Hdecoded Hrecs Hsummary.
  unfold report_from_text, bind. rewrite Hdecoded.
  cbn [py_contains py_getitem]. unfold dict_has. rewrite Hrecs.
  cbn [negb py_setitem]. rewrite Hsummary.
  cbn [py_getitem py_setitem].
  rewrite dict_get_set_other by reflexivity. rewrite dict_get_set_same.
  reflexivity.
Qed.

Lemma getitem_of_mapping (v x : json) (k : string) :
  py_getitem v k = Ok x -> exists d, v = JObj d /\ dict_get d k = Some x.
Proof.
  destruct v as [| | | | | |d]; simpl; try discriminate.
  destruct (dict_get d k) as [y|] eqn:E; [|discriminate].
  intros [= <-]. eauto.
Qed.

(** X24.  A report that is returned holds a list of recommendations that
    each have the ten fields, with a current cost and a saving that are
    numbers and steps and providers that are lists; its analysis is the one
    computed from the billing data, whatever the model wrote there; and
    the count in its summary is the length of that list. *)
Theorem report_holds_checked_recommendations (rt : runtime)
  (analysis_summary : json) (billing_data : list json) (report : json) :
  analyze_costs_and_recommend rt analysis_summary billing_data = Ok report ->
  exists recs summary,
    py_getitem report "recommendations" = Ok (JArr recs)
    /\ Forall checked_recommendation recs
    /\ py_getitem report "analysis" = Ok analysis_summary
    /\ py_getitem report "summary" = Ok summary
    /\ py_getitem summary "recommendations_count" = Ok (JInt (count recs)).
Proof.
  unfold analyze_costs_and_recommend, bind.
  destruct (total_cost_of rt billing_data) as [total|]; [|discriminate].
  destruct (llm_response rt) as [response|]; [|discriminate].
  destruct (report_from_text rt total analysis_summary
              (extract_json_from_response response)) as [r|e] eqn:E;
    [|destruct e, response; discriminate].
  intros [= ->].
  destruct (report_summary_is_of_the_decoded_list _ _ _ _ _ E)
    as (decoded & recs & summary & Hdecoded & Hrecs & Hsum & _).
  apply getitem_of_mapping in Hrecs as (d & -> & Hrecs).
  destruct (summary_is_a_mapping _ _ _ _ Hsum) as (fields & ->).
  rewrite (report_of_decoded _ _ _ _ _ _ _ Hdecoded Hrecs Hsum) in E.
  unfold bind in E.
  destruct (total_savings_of rt recs) as [total_savings|]; [|discriminate].
  destruct (format_2f total_savings) as [[]|]; [|discriminate].
  injection E as <-.
  exists (valid_recommendations rt recs). eexists.
  cbn [py_getitem].
  repeat rewrite ?dict_get_set_same,
    ?(dict_get_set_other _ "summary" "recommendations"),
    ?(dict_get_set_other _ "summary" "analysis"),
    ?(dict_get_set_other _ "recommendations" "analysis") by reflexivity.
  split; [reflexivity|].
  split; [apply valid_recommendations_checked|].
  split; [reflexivity|]. split; [reflexivity|].
  cbn [py_getitem]. now rewrite dict_get_set_same.
Qed.

Lemma report_example :
  exists report recs summary,
    analyze_costs_and_recommend (answering_json answer_with_analysis) JNull
      one_record = Ok report
    /\ py_getitem report "recommendations" = Ok (JArr recs)
    /\ Forall checked_recommendation recs
    /\ py_getitem report "analysis" = Ok JNull
    /\ py_getitem report "summary" = Ok summary
    /\ py_getitem summary "recommendations_count" = Ok (JInt (count recs)).
Proof.
  pose (report :=
          JObj [("recommendations", JArr [full_recommendation]);
                ("analysis", JNull);
                ("summary",
                 JObj [("total_potential_savings", JInt 600);
                       ("savings_percentage", JFloat float_60);
                       ("recommendations_count", JInt 1);
                       ("high_impact_recommendations", JInt 1)])]).
  assert (Hrun : analyze_costs_and_recommend
                   (answering_json answer_with_analysis) JNull one_record
                 = Ok report)
    by (vm_compute; reflexivity).
  destruct (report_holds_checked_recommendations _ _ _ _ Hrun)
    as (recs & summary & H).
  exists report, recs, summary. split; assumption.
Defined.

(** X25.  No number of recommendations is too small: once the total cost
    is known, the model has answered, the answer decodes to a mapping with
    a list under [recommendations], the summary of that list can be
    computed and the total saving can be written on the console (it is a
    float, or an int that a float can hold), a report is returned with
    whatever recommendations passed the checks, be there none at all. *)
Theorem any_number_of_recommendations_is_accepted (rt : runtime)
  (analysis_summary : json) (billing_data : list json) (total : pynum)
  (response : option string) (decoded : json) (recs : list json)
  (summary : json) (total_savings : pynum) :
  total_cost_of rt billing_data = Ok total ->
  llm_response rt = Ok response ->
  json_loads rt (extract_json_from_response response) = Ok decoded ->
  py_getitem decoded "recommendations" = Ok (JArr recs) ->
  summarize rt total recs = Ok summary ->
  total_savings_of rt recs = Ok total_savings ->
  format_2f total_savings = Ok tt ->
  exists report,
    analyze_costs_and_recommend rt analysis_summary billing_data = Ok report
    /\ py_getitem report "recommendations"
       = Ok (JArr (valid_recommendations rt recs)).
Proof.
  intros Htotal Hresponse Hdecoded Hrecs Hsum Hsavings Hformat.
  apply getitem_of_mapping in Hrecs as (d & -> & Hrecs).
  destruct (summary_is_a_mapping _ _ _ _ Hsum) as (fields & ->).
  unfold analyze_costs_and_recommend, bind. rewrite Htotal, Hresponse.
  rewrite (report_of_decoded _ _ analysis_summary _ _ _ _
             Hdecoded Hrecs Hsum).
  unfold bind. rewrite Hsavings, Hformat.
  eexists. split; [reflexivity|].
  cbn [py_getitem].
  rewrite (dict_get_set_other _ "summary" "recommendations") by reflexivity.
  now rewrite dict_get_set_same.
Qed.

Lemma report_without_recommendations :
  exists report,
    analyze_costs_and_recommend
      (answering_json (JObj [("recommendations", JArr [bare_recommendation])]))
      JNull one_record = Ok report
    /\ py_getitem report "recommendations" = Ok (JArr []).
Proof.
  apply (any_number_of_recommendations_is_accepted
           (answering_json
              (JObj [("recommendations", JArr [bare_recommendation])]))
           JNull one_record (PInt 1000)
           (Some (dumps (JObj [("recommendations",
                                JArr [bare_recommendation])])))
           (JObj [("recommendations", JArr [bare_recommendation])])
           [bare_recommendation]
           (JObj [("total_potential_savings", JInt 500);
                  ("savings_percentage",
                   JFloat (S754_finite false 7036874417766400 (-47)));
                  ("recommendations_count", JInt 1);
                  ("high_impact_recommendations", JInt 1)])
           (PInt 500));
    vm_compute; reflexivity.
Defined.

(** ** billing_generator.py: [calculate_billing_summary] *)

Lemma fold_left_add_from (l : list Z) (a : Z) :
  fold_left Z.add l a = a + fold_left Z.add l 0.
Proof.
  revert a. induction l as [|x l IH]; intros a; simpl; [lia|].
  rewrite (IH (a + x)), (IH x). lia.
Qed.

Lemma int_total_cons (n : pynum) (items : list pynum) :
  int_total (n :: items) = int_part n + int_total items.
Proof.
  unfold int_total. simpl. now rewrite fold_left_add_from.
Qed.

Lemma py_sum_of_ints (rt : runtime) (items : list pynum) :
  forallb is_int items = true -> py_sum rt items = Ok (PInt (int_total items)).
Proof. intros H. unfold py_sum. now rewrite H. Qed.

Lemma costs_set_total (m : costs) (k : json) (c : Z) :
  forallb is_int (map snd m) = true ->
  let so_far := match costs_get m k with
                | Some x => x
                | None => PInt 0
                end in
  forallb is_int (map snd (costs_set m k (PInt (int_part so_far + c)))) = true
  /\ int_total (map snd (costs_set m k (PInt (int_part so_far + c))))
     = int_total (map snd m) + c.
Proof.
  induction m as [|[k' v'] m IH]; intros Hint; cbn [costs_get costs_set].
  - split; [reflexivity|]. cbn. lia.
  - cbn [map snd forallb] in Hint. apply andb_true_iff in Hint as [Hv Hm].
    destruct (same_key k' k).
    + cbn [map snd forallb]. split; [assumption|].
      rewrite !int_total_cons. cbn [int_part]. lia.
    + destruct (IH Hm) as [Hint' Htotal].
      cbn [map snd forallb]. rewrite Hv. split; [assumption|].
      rewrite !int_total_cons. cbv zeta in Htotal. lia.
Qed.

Lemma costs_set_nonempty (m : costs) (k : json) (v : pynum) :
  costs_set m k v <> [].
Proof. destruct m as [|[k' v'] m]; simpl; [|destruct (same_key k' k)]; discriminate. Qed.

Lemma group_costs_keeps (field : string) (records : list json)
  (acc m : costs) :
  group_costs field records acc = Ok m -> acc <> [] -> m <> [].
Proof.
  revert acc. induction records as [|r records IH]; intros acc.
  - intros [= <-]. auto.
  - cbn [group_costs]. unfold bind.
    destruct (py_getitem r field) as [key|]; [|discriminate].
    destruct (negb (hashable key)); [discriminate|].
    destruct (cost_of r) as [cost|]; [|discriminate].
    destruct (py_add _ cost) as [sum|]; [|discriminate].
    intros H _. apply (IH _ H), costs_set_nonempty.
Qed.

Lemma group_costs_nonempty (field : string) (r : json)
  (records : list json) (acc m : costs) :
  group_costs field (r :: records) acc = Ok m -> m <> [].
Proof.
  cbn [group_costs]. unfold bind.
  destruct (py_getitem r field) as [key|]; [|discriminate].
  destruct (negb (hashable key)); [discriminate|].
  destruct (cost_of r) as [cost|]; [|discriminate].
  destruct (py_add _ cost) as [sum|]; [|discriminate].
  intros H. apply (group_costs_keeps _ _ _ _ H), costs_set_nonempty.
Qed.

(** The grouping of records that have a text under [field] and an [int]
    cost, from a dictionary of [int]s. *)
Lemma group_costs_of_ints (field : string) (records : list json)
  (acc : costs) :
  Forall (fun record =>
            exists d key cost,
              record = JObj d
              /\ dict_get d field = Some (JStr key)
              /\ dict_get d "cost_inr" = Some (JInt cost)) records ->
  forallb is_int (map snd acc) = true ->
  exists m costs,
    group_costs field records acc = Ok m
    /\ each cost_of records = Ok costs
    /\ forallb is_int costs = true
    /\ forallb is_int (map snd m) = true
    /\ int_total (map snd m) = int_total (map snd acc) + int_total costs.
Proof.
  intros Hrecords. revert acc.
  induction Hrecords as [|r records (d & key & cost & -> & Hkey & Hcost) _ IH];
    intros acc Hacc.
  - exists acc, []. repeat split; try assumption; try reflexivity.
    cbn. lia.
  - destruct (costs_set_total acc (JStr key) cost Hacc) as [Hint Htotal].
    cbv zeta in Hint, Htotal.
    set (so_far := match costs_get acc (JStr key) with
                   | Some x => x
                   | None => PInt 0
                   end) in *.
    assert (Hso : so_far = PInt (int_part so_far)).
    { unfold so_far. destruct (costs_get acc (JStr key)) as [x|] eqn:E;
        [|reflexivity].
      assert (Hx : is_int x = true).
      { clear - E Hacc. induction acc as [|[k' v'] acc IH]; [discriminate|].
        cbn in *. apply andb_true_iff in Hacc as [Hv Hm].
        destruct (same_key k' (JStr key)); [now injection E as <- | auto]. }
      now destruct x. }
    destruct (IH _ Hint) as (m & costs & Hm & Hcosts & Hci & Hmi & Hsum).
    exists m, (PInt cost :: costs).
    assert (Hr : cost_of (JObj d) = Ok (PInt cost))
      by (unfold cost_of, bind; cbn [py_getitem]; now rewrite Hcost).
    split.
    { cbn [group_costs]. unfold bind. cbn [py_getitem]. rewrite Hkey.
      cbn [hashable is_dict is_list orb negb]. rewrite Hr.
      fold so_far. rewrite Hso. cbn [py_add]. exact Hm. }
    split; [cbn [each]; now rewrite Hr, Hcosts|].
    split; [assumption|]. split; [assumption|].
    rewrite Hsum, Htotal, int_total_cons. cbn [int_part]. lia.
Qed.

Lemma plain_records_have (records : list json) :
  forallb plain_record records = true ->
  forall field,
    field = "service" \/ field = "region" ->
    Forall (fun record =>
              exists d key cost,
                record = JObj d
                /\ dict_get d field = Some (JStr key)
                /\ dict_get d "cost_inr" = Some (JInt cost)) records.
Proof.
  intros H field Hfield. apply Forall_forall. intros r Hin.
  rewrite forallb_forall in H. specialize (H r Hin).
  destruct r as [| | | | | |d]; try discriminate. cbn in H.
  destruct (dict_get d "service") as [[| | | |s| |]|] eqn:Hs; try discriminate.
  destruct (dict_get d "region") as [[| | | |g| |]|] eqn:Hg; try discriminate.
  destruct (dict_get d "cost_inr") as [[| |c| | | |]|] eqn:Hc;
    try discriminate.
  destruct Hfield as [-> | ->]; eauto 7.
Qed.

Lemma summary_of_plain_records (rt : runtime) (records : list json) :
  forallb plain_record records = true ->
  exists by_service by_region costs,
    calculate_billing_summary rt records
    = Ok {| total_cost := PInt (int_total costs);
            record_count := count records;
            service_costs := by_service;
            region_costs := by_region;
            top_service := top_key by_service;
            top_region := top_key by_region |}
    /\ group_costs "service" records [] = Ok by_service
    /\ group_costs "region" records [] = Ok by_region
    /\ forallb is_int (map snd by_service) = true
    /\ forallb is_int (map snd by_region) = true
    /\ int_total (map snd by_service) = int_total costs
    /\ int_total (map snd by_region) = int_total costs.
Proof.
  intros H.
  destruct (group_costs_of_ints "service" records []
              (plain_records_have records H _ (or_introl eq_refl)) eq_refl)
    as (m1 & costs & Hm1 & Hcosts & Hci & Hi1 & Ht1).
  destruct (group_costs_of_ints "region" records []
              (plain_records_have records H _ (or_intror eq_refl)) eq_refl)
    as (m2 & costs' & Hm2 & Hcosts' & _ & Hi2 & Ht2).
  assert (costs' = costs) by congruence. subst costs'.
  exists m1, m2, costs.
  split; [|repeat split; assumption].
  unfold calculate_billing_summary, total_cost_of, bind.
  change (each _ records) with (each cost_of records).
  now rewrite Hcosts, (py_sum_of_ints rt costs Hci), Hm1, Hm2.
Qed.

(** X26.  For records whose service and region are texts and whose cost is
    an [int], [calculate_billing_summary] raises nothing, counts the
    records, and splits the total without loss: the costs per service add
    up to the total cost, and so do the costs per region. *)
Theorem billing_summary_adds_up (rt : runtime) (records : list json) :
  forallb plain_record records = true ->
  exists summary,
    calculate_billing_summary rt records = Ok summary
    /\ record_count summary = count records
    /\ py_sum rt (map snd (service_costs summary)) = Ok (total_cost summary)
    /\ py_sum rt (map snd (region_costs summary)) = Ok (total_cost summary).
Proof.
  intros H.
  destruct (summary_of_plain_records rt records H)
    as (m1 & m2 & costs & Hrun & _ & _ & Hi1 & Hi2 & Ht1 & Ht2).
  eexists. split; [exact Hrun|]. cbn.
  split; [reflexivity|].
  rewrite (py_sum_of_ints rt _ Hi1), (py_sum_of_ints rt _ Hi2).
  now rewrite Ht1, Ht2.
Qed.

Lemma billing_summary_example :
  exists summary,
    calculate_billing_summary no_key summary_records = Ok summary
    /\ record_count summary = 3
    /\ py_sum no_key (map snd (service_costs summary))
       = Ok (total_cost summary)
    /\ py_sum no_key (map snd (region_costs summary))
       = Ok (total_cost summary).
Proof.
  apply (billing_summary_adds_up no_key summary_records). reflexivity.
Defined.

Lemma num_gt_of_ints (a b : pynum) :
  is_int a = true -> is_int b = true ->
  num_gt a b = (int_part b <? int_part a).
Proof.
  destruct a as [x|], b as [y|]; try discriminate. intros _ _.
  unfold num_gt. cbn. destruct (Z.compare_spec x y);
    destruct (Z.ltb_spec y x); try reflexivity; lia.
Qed.

Lemma max_by_cost_of_ints (best : json * pynum) (items : costs) :
  forallb is_int (map snd (best :: items)) = true ->
  In (max_by_cost best items) (best :: items)
  /\ is_int (snd (max_by_cost best items)) = true
  /\ forall item,
       In item (best :: items) ->
       int_part (snd item) <= int_part (snd (max_by_cost best items)).
Proof.
  revert best. induction items as [|x items IH]; intros best H.
  - cbn in *. rewrite andb_true_r in H.
    split; [now left|]. split; [assumption|].
    intros item [<- | []]. lia.
  - cbn [map forallb] in H. apply andb_true_iff in H as [Hb H].
    apply andb_true_iff in H as [Hx Hitems].
    cbn [max_by_cost]. rewrite (num_gt_of_ints _ _ Hx Hb).
    destruct (Z.ltb_spec (int_part (snd best)) (int_part (snd x))) as [Hlt|Hge].
    + destruct (IH x) as (Hin & Hint & Hmax);
        [cbn [map forallb]; now rewrite Hx|].
      split; [right; exact Hin|]. split; [assumption|].
      intros item [<- | Hitem]; [|now apply Hmax].
      specialize (Hmax x (or_introl eq_refl)). lia.
    + destruct (IH best) as (Hin & Hint & Hmax);
        [cbn [map forallb]; now rewrite Hb|].
      split; [destruct Hin as [<- | Hin]; [now left | right; now right]|].
      split; [assumption|].
      intros item [<- | [<- | Hitem]].
      * apply Hmax. now left.
      * specialize (Hmax best (or_introl eq_refl)). lia.
      * apply Hmax. now right.
Qed.

Lemma top_key_costs_most (m : costs) :
  forallb is_int (map snd m) = true -> costs_most m (top_key m).
Proof.
  destruct m as [|first rest]; [reflexivity|]. intros H.
  destruct (max_by_cost_of_ints first rest H) as (Hin & Hint & Hmax).
  cbn [top_key costs_most].
  exists (snd (max_by_cost first rest)). split.
  - now rewrite <- surjective_pairing.
  - intros k' c Hc.
    assert (Hci : is_int c = true).
    { rewrite forallb_forall in H. apply H.
      apply in_map_iff. now exists (k', c). }
    rewrite (num_gt_of_ints _ _ Hci Hint).
    specialize (Hmax _ Hc). cbn [snd] in Hmax.
    destruct (Z.ltb_spec (int_part (snd (max_by_cost first rest)))
                (int_part c)); [lia | reflexivity].
Qed.

(** X27.  For such records, the top service is a service whose cost no
    other service exceeds, and the top region a region whose cost no other
    region exceeds; both are [None] exactly when there is no record. *)
Theorem billing_summary_tops_cost_most (rt : runtime)
  (records : list json) (summary : billing_summary) :
  forallb plain_record records = true ->
  calculate_billing_summary rt records = Ok summary ->
  costs_most (service_costs summary) (top_service summary)
  /\ costs_most (region_costs summary) (top_region summary)
  /\ (records = [] <-> top_service summary = None)
  /\ (records = [] <-> top_region summary = None).
Proof.
  intros H Hrun.
  destruct (summary_of_plain_records rt records H)
    as (m1 & m2 & costs & Hrun' & Hm1 & Hm2 & Hi1 & Hi2 & _ & _).
  rewrite Hrun' in Hrun. injection Hrun as <-. cbn.
  split; [now apply top_key_costs_most|].
  split; [now apply top_key_costs_most|].
  destruct records as [|r records].
  - injection Hm1 as <-. injection Hm2 as <-. now split.
  - apply group_costs_nonempty in Hm1, Hm2.
    destruct m1, m2; try congruence. split; split; discriminate.
Qed.

Lemma billing_summary_tops_example :
  exists summary,
    calculate_billing_summary no_key summary_records = Ok summary
    /\ top_service summary = Some (JStr "EC2")
    /\ top_region summary = Some (JStr "us-east-1")
    /\ costs_most (service_costs summary) (top_service summary)
    /\ costs_most (region_costs summary) (top_region summary).
Proof.
  eexists. split; [reflexivity|]. split; [reflexivity|].
  split; [reflexivity|].
  destruct (billing_summary_tops_cost_most no_key summary_records _
              eq_refl eq_refl) as (H1 & H2 & _).
  split; assumption.
Defined.

(** ** An answer without content *)

Lemma spaces_hold_no (c : ascii) (p ws : string) :
  is_space c = false -> all_chars is_space ws = true ->
  str_in (String c p) ws = false.
Proof.
  intros Hc. unfold all_chars.
  induction ws as [|x ws IH]; intros H; rewrite str_in_unfold.
  - reflexivity.
  - simpl in H. apply andb_true_iff in H as [Hx Hws].
    rewrite (IH Hws), orb_false_r. cbn [starts_with].
    destruct (Ascii.eqb_spec c x) as [-> |]; [congruence | reflexivity].
Qed.

Lemma extract_of_spaces (ws : string) :
  all_chars is_space ws = true -> extract_json_from_text ws = "".
Proof.
  intros H. destruct ws as [|x ws]; [reflexivity|].
  rewrite extract_of_nonempty by discriminate.
  rewrite remove_code_fence_none
    by (apply (spaces_hold_no "`" "``"); [reflexivity | assumption]).
  rewrite select_without_json
    by (apply spaces_hold_no; [reflexivity | assumption]).
  unfold strip. pose proof (lstrip_spaces (String x ws) "" H) as E.
  rewrite app_empty_r in E. now rewrite E.
Qed.

(** X29.  A completion without content ([None]), or with nothing but
    whitespace, is read as the empty text, which the decoder refuses.  The
    call of [extract_project_profile] then does what the call of
    [create_fallback_profile] does.  [generate_mock_billing] and, once the
    total cost is computed, [analyze_costs_and_recommend] raise ValueError
    when the completion is a text, and TypeError when it has no content:
    their handler writes [response[:500]] before it raises. *)
Theorem answer_without_content (rt : runtime) (description : string)
  (analysis_summary : json) (billing_data : list json) (total : pynum)
  (response : option string) :
  llm_response rt = Ok response ->
  match response with
  | None => True
  | Some text => all_chars is_space text = true
  end ->
  json_loads rt "" = Raise JSONDecodeError ->
  total_cost_of rt billing_data = Ok total ->
  let raised :=
    match response with
    | Some _ => ValueError
    | None => TypeError
    end in
  extract_json_from_response response = ""
  /\ extract_project_profile_call rt description
     = create_fallback_profile_call description
  /\ generate_mock_billing rt = Raise raised
  /\ analyze_costs_and_recommend rt analysis_summary billing_data
     = Raise raised.
Proof.
  intros Hresponse Hblank Hdecode Htotal raised.
  assert (Hempty : extract_json_from_response response = "").
  { destruct response as [text|]; [|reflexivity].
    now apply extract_of_spaces. }
  split; [assumption|]. split; [|split].
  - unfold extract_project_profile_call, profile_from_model, bind.
    now rewrite Hresponse, Hempty, Hdecode.
  - unfold generate_mock_billing, billing_from_text, bind.
    rewrite Hresponse, Hempty, Hdecode. now destruct response.
  - unfold analyze_costs_and_recommend, report_from_text, bind.
    rewrite Htotal, Hresponse, Hempty, Hdecode. now destruct response.
Qed.

Lemma silent_backend :
  (extract_json_from_response None = ""
   /\ extract_project_profile_call silent "A react shop on aws"
      = create_fallback_profile_call "A react shop on aws"
   /\ generate_mock_billing silent = Raise TypeError
   /\ analyze_costs_and_recommend silent JNull one_record = Raise TypeError)
  /\ (extract_json_from_response (Some " ") = ""
      /\ extract_project_profile_call (babbling " ") "A react shop on aws"
         = create_fallback_profile_call "A react shop on aws"
      /\ generate_mock_billing (babbling " ") = Raise ValueError
      /\ analyze_costs_and_recommend (babbling " ") JNull one_record
         = Raise ValueError).
Proof.
  split.
  - apply (answer_without_content silent "A react shop on aws" JNull
             one_record (PInt 1000) None);
      first [reflexivity | exact I].
  - apply (answer_without_content (babbling " ") "A react shop on aws" JNull
             one_record (PInt 1000) (Some " "));
      reflexivity.
Defined.
